(** * SurveyPro: the survey data model, its storage layer, the HTTP routes
    and the client-side aggregation, embedded from the TypeScript sources.

    - [shared/schema.ts]            tables, cascade rules, insert schemas
    - [server/storage.ts]           [DatabaseStorage]
    - [server/routes.ts]            [registerRoutes]
    - [client/.../survey-public.tsx] [handleInputChange], [handleSubmit]
    - the analytics page            [getQuestionAnalytics], [exportData]
    - the dashboard                 [handleToggleStatus], [handleDeleteSurvey]
    - [client/.../survey-builder.tsx] and the creation dialog
                                    [onSubmit], [addOption], [removeOption]

    Tables are lists of rows in insertion order.  Timestamps are
    milliseconds as [nat]; [gen_random_uuid()] is a counter kept in the
    store.  Promises started by one request are run to completion in the
    order in which they were started.  Sessions are left out: the routes
    behind [isAuthenticated] are given the caller's id.  A character is a
    code unit below 256.  The database takes the values of the columns'
    types only: no text with the character U+0000, no [integer] beyond
    32 bits. *)

From stdpp Require Import base list strings sorting pretty.
From Stdlib Require Import Lia ZArith Ascii.

#[local] Set Warnings "-clear-no-such-hyp".

Open Scope Z_scope.
Open Scope string_scope.
Open Scope list_scope.
Open Scope nat_scope.

(** ** Outcomes of JavaScript computations *)

Inductive Error :=
  | ZodError                 (* thrown by [schema.parse] *)
  | DbError (msg : string)   (* a rejected query: constraint violation, ... *)
  | TypeError (msg : string).

Inductive Outcome (A : Type) :=
  | Returns (a : A)
  | Throws (e : Error).
Arguments Returns {A} a.
Arguments Throws {A} e.

Definition is_Returns {A} (o : Outcome A) : bool :=
  match o with Returns _ => true | Throws _ => false end.

(** JSON values as far as the routes look at them. *)
Inductive JsValue :=
  | JUndefined
  | JNull
  | JBool (b : bool)
  | JNumber (n : Z)
  | JString (s : string)
  | JOther.                  (* an object or an array *)

(** [!!v] *)
Definition truthy (v : JsValue) : bool :=
  match v with
  | JUndefined | JNull => false
  | JBool b => b
  | JNumber n => negb (n =? 0)%Z
  | JString s => negb (String.eqb s "")
  | JOther => true
  end.

(** [v || null] *)
Definition or_null (v : JsValue) : JsValue := if truthy v then v else JNull.

(** ** shared/schema.ts *)

Module surveys.
Record row := mk {
  id : string;
  title : string;
  description : option string;
  createdBy : string;
  status : string;               (* draft, active, closed *)
  anonymous : bool;
  multipleResponses : bool;
  shareToken : string;
  createdAt : option nat;
  updatedAt : option nat }.

(** [$inferInsert]; every column optional, as in [Partial<InsertSurvey>].
    The [NOT NULL] columns without default are checked on insert. *)
Record insert := mk_insert {
  i_id : option string;
  i_title : option string;
  i_description : option (option string);
  i_createdBy : option string;
  i_status : option string;
  i_anonymous : option bool;
  i_multipleResponses : option bool;
  i_shareToken : option string;
  i_createdAt : option (option nat);
  i_updatedAt : option (option nat) }.

Definition empty : insert :=
  mk_insert None None None None None None None None None None.
End surveys.

Module questions.
Record row := mk {
  id : string;
  surveyId : string;             (* references surveys.id, cascade *)
  text : string;
  type : string;                 (* multiple-choice, text, rating, textarea *)
  required : bool;
  options : option (list string);
  order : Z;
  createdAt : option nat }.

Record insert := mk_insert {
  i_id : option string;
  i_surveyId : option string;
  i_text : option string;
  i_type : option string;
  i_required : option bool;
  i_options : option (option (list string));
  i_order : option Z;
  i_createdAt : option (option nat) }.

Definition empty : insert :=
  mk_insert None None None None None None None None.

(** The timestamp columns of the table: there is no [updatedAt]. *)
Definition timestamps (q : row) : list (option nat) := [createdAt q].
End questions.

Module responses.
Record row := mk {
  id : string;
  surveyId : string;             (* references surveys.id, cascade *)
  respondentId : option string;
  createdAt : option nat }.

Record insert := mk_insert {
  i_id : option string;
  i_surveyId : option string;
  i_respondentId : option (option string);
  i_createdAt : option (option nat) }.
End responses.

Module answers.
Record row := mk {
  id : string;
  responseId : string;           (* references responses.id, cascade *)
  questionId : string;           (* references questions.id, cascade *)
  value : string;
  createdAt : option nat }.

Record insert := mk_insert {
  i_id : option string;
  i_responseId : option string;
  i_questionId : option string;
  i_value : option string;
  i_createdAt : option (option nat) }.
End answers.

(** The [users] table (mandatory for Replit Auth). *)
Module users.
Record row := mk {
  id : string;
  email : option string;
  firstName : option string;
  lastName : option string;
  profileImageUrl : option string;
  createdAt : option nat;
  updatedAt : option nat }.

(** [$inferInsert] ([UpsertUser]): every column optional. *)
Record insert := mk_insert {
  i_id : option string;
  i_email : option (option string);
  i_firstName : option (option string);
  i_lastName : option (option string);
  i_profileImageUrl : option (option string);
  i_createdAt : option (option nat);
  i_updatedAt : option (option nat) }.
End users.

Abbreviation User := users.row.
Abbreviation UpsertUser := users.insert.

Global Instance User_eq_dec : EqDecision User.
Proof. solve_decision. Defined.

Abbreviation Survey := surveys.row.
Abbreviation InsertSurvey := surveys.insert.
Abbreviation Question := questions.row.
Abbreviation InsertQuestion := questions.insert.
Abbreviation Response := responses.row.
Abbreviation InsertResponse := responses.insert.
Abbreviation Answer := answers.row.
Abbreviation InsertAnswer := answers.insert.

Global Instance Survey_eq_dec : EqDecision Survey.
Proof. solve_decision. Defined.
Global Instance Question_eq_dec : EqDecision Question.
Proof. solve_decision. Defined.
Global Instance Response_eq_dec : EqDecision Response.
Proof. solve_decision. Defined.
Global Instance Answer_eq_dec : EqDecision Answer.
Proof. solve_decision. Defined.

(** ** Values the database stores

    A [varchar], [text] or [jsonb] value holds no character U+0000, and
    an [integer] lies within 32 bits, sign included.  The server refuses
    a statement that carries another value, be it in a row or as a
    parameter of the query. *)

Definition pg_text (s : string) : bool :=
  forallb (λ c, negb (Ascii.eqb c "000"%char)) (String.list_ascii_of_string s).

Definition pg_int4 (z : Z) : bool :=
  bool_decide (-2147483648 ≤ z ≤ 2147483647)%Z.

(** A column or a key of the payload that may be left out. *)
Definition pg_null {A} (p : A → bool) (o : option A) : bool :=
  from_option p true o.

(** [options]: an array of strings, or no value. *)
Definition pg_jsonb (options : option (list string)) : bool :=
  pg_null (forallb pg_text) options.

Definition pg_user (u : User) : bool :=
  pg_text (users.id u) && pg_null pg_text (users.email u)
  && pg_null pg_text (users.firstName u) && pg_null pg_text (users.lastName u)
  && pg_null pg_text (users.profileImageUrl u).

Definition pg_survey (s : Survey) : bool :=
  pg_text (surveys.id s) && pg_text (surveys.title s)
  && pg_null pg_text (surveys.description s) && pg_text (surveys.createdBy s)
  && pg_text (surveys.status s) && pg_text (surveys.shareToken s).

Definition pg_question (q : Question) : bool :=
  pg_text (questions.id q) && pg_text (questions.surveyId q)
  && pg_text (questions.text q) && pg_text (questions.type q)
  && pg_jsonb (questions.options q) && pg_int4 (questions.order q).

Definition pg_response (r : Response) : bool :=
  pg_text (responses.id r) && pg_text (responses.surveyId r)
  && pg_null pg_text (responses.respondentId r).

Definition pg_answer (a : Answer) : bool :=
  pg_text (answers.id a) && pg_text (answers.responseId a)
  && pg_text (answers.questionId a) && pg_text (answers.value a).

(** The values an update sets. *)
Definition pg_survey_values (u : InsertSurvey) : bool :=
  pg_null pg_text (surveys.i_id u) && pg_null pg_text (surveys.i_title u)
  && pg_null (pg_null pg_text) (surveys.i_description u)
  && pg_null pg_text (surveys.i_createdBy u)
  && pg_null pg_text (surveys.i_status u)
  && pg_null pg_text (surveys.i_shareToken u).

Definition pg_question_values (u : InsertQuestion) : bool :=
  pg_null pg_text (questions.i_id u) && pg_null pg_text (questions.i_surveyId u)
  && pg_null pg_text (questions.i_text u) && pg_null pg_text (questions.i_type u)
  && pg_null pg_jsonb (questions.i_options u)
  && pg_null pg_int4 (questions.i_order u).

Definition pg_user_values (u : UpsertUser) : bool :=
  pg_null pg_text (users.i_id u)
  && pg_null (pg_null pg_text) (users.i_email u)
  && pg_null (pg_null pg_text) (users.i_firstName u)
  && pg_null (pg_null pg_text) (users.i_lastName u)
  && pg_null (pg_null pg_text) (users.i_profileImageUrl u).

(** ** The database *)

(** The [users] table, with its own counter for [gen_random_uuid()]. *)
Record UserDb := mkUserDb {
  tbl_users : list User;
  user_seed : nat }.

Record Db := mkDb {
  tbl_surveys : list Survey;
  tbl_questions : list Question;
  tbl_responses : list Response;
  tbl_answers : list Answer;
  uuid_seed : nat;
  db_users : UserDb }.

(** The [n]-th identifier drawn; distinct draws give distinct identifiers. *)
Definition gen_random_uuid (n : nat) : string := "uuid-" +:+ pretty n.

(** Computations over the store.  A thrown error leaves the writes made
    so far in place: nothing in the sources opens a transaction. *)
Definition M (A : Type) : Type := Db → Outcome A * Db.

Definition ret {A} (a : A) : M A := λ db, (Returns a, db).
Definition throw {A} (e : Error) : M A := λ db, (Throws e, db).
Definition bind {A B} (m : M A) (k : A → M B) : M B :=
  λ db, match m db with
        | (Returns a, db') => k a db'
        | (Throws e, db') => (Throws e, db')
        end.
Definition lift {A} (o : Outcome A) : M A := λ db, (o, db).
Definition get_db : M Db := λ db, (Returns db, db).

Declare Scope js_scope.
Delimit Scope js_scope with js.
Notation "'let!' x ':=' m 'in' k" := (bind m (λ x, k))
  (at level 10, x pattern, m at level 100, k at level 200) : js_scope.
Notation "m ';;;' k" := (bind m (λ _, k))
  (at level 100, k at level 200, right associativity) : js_scope.
Open Scope js_scope.

(** [try { body } catch (error) { handler }] *)
Definition try_catch {A} (body : M A) (handler : Error → M A) : M A :=
  λ db, match body db with
        | (Returns a, db') => (Returns a, db')
        | (Throws e, db') => handler e db'
        end.

(** ** drizzle-orm query building *)

Module Drizzle.
Definition Cond (R : Type) : Type := R → bool.

(** [eq(column, value)] *)
Definition eq {R A} `{EqDecision A} (col : R → A) (v : A) : Cond R :=
  λ r, bool_decide (col r = v).

(** A [select] under construction.  The builder keeps one [where] slot
    in its configuration. *)
Record Select (R : Type) := mkSelect {
  sel_from : list R;
  sel_where : option (Cond R) }.
Arguments mkSelect {R}.
Arguments sel_from {R}.
Arguments sel_where {R}.

Definition from {R} (tbl : list R) : Select R := mkSelect tbl None.

(** [.where(c)] assigns the slot ([this.config.where = where]): a second
    call replaces the condition of the first one. *)
Definition where_ {R} (c : Cond R) (q : Select R) : Select R :=
  mkSelect (sel_from q) (Some c).

(** [.innerJoin(tbl, on)] *)
Definition innerJoin {R S} (tbl : list S) (on : R → S → bool)
    (q : Select R) : Select (R * S) :=
  mkSelect
    (r ← sel_from q; (λ s, (r, s)) <$> List.filter (on r) tbl)
    ((λ c rs, c (fst rs)) <$> sel_where q).

(** Running the query. *)
Definition rows {R} (q : Select R) : list R :=
  match sel_where q with
  | Some c => List.filter c (sel_from q)
  | None => sel_from q
  end.

(** [select({ count: count() })] *)
Definition count {R} (q : Select R) : nat := length (rows q).

(** [.orderBy(column)]: ascending on an integer column.  Rows with
    equal keys come out in the order the sort leaves them in. *)
Definition key_le {R} (key : R → Z) : relation R :=
  λ a b, (key a ≤ key b)%Z.
Global Instance key_le_dec {R} (key : R → Z) a b :
  Decision (key_le key a b) := decide (key a ≤ key b)%Z.

Definition orderBy {R} (key : R → Z) (l : list R) : list R :=
  merge_sort (key_le key) l.
End Drizzle.

(** Method chains are written in the order of the source:
    [q .> f .> g] is [g (f q)]. *)
Notation "q '.>' f" := (f q)
  (at level 50, left associativity, only parsing) : js_scope.

(** ** Constraints declared by the schema

    Primary keys, the unique [share_token], the foreign keys, and the
    types of the columns.  A statement whose result would break one of
    them is rejected and changes nothing. *)

Definition user_ids (db : Db) : list string := users.id <$> tbl_users (db_users db).
Definition survey_ids (db : Db) : list string := surveys.id <$> tbl_surveys db.
Definition question_ids (db : Db) : list string := questions.id <$> tbl_questions db.
Definition response_ids (db : Db) : list string := responses.id <$> tbl_responses db.
Definition answer_ids (db : Db) : list string := answers.id <$> tbl_answers db.
Definition share_tokens (db : Db) : list string :=
  surveys.shareToken <$> tbl_surveys db.

(** The primary key, the unique [email] (a unique column admits any
    number of rows without a value), and the types of the columns. *)
Record user_constraints (db : UserDb) : Prop := mkUserConstraints {
  pk_users : NoDup (users.id <$> tbl_users db);
  unique_email : NoDup (omap users.email (tbl_users db));
  pg_users : forallb pg_user (tbl_users db) = true }.

Global Instance user_constraints_dec db : Decision (user_constraints db).
Proof.
  refine (cast_if (decide (
    NoDup (users.id <$> tbl_users db) ∧ NoDup (omap users.email (tbl_users db))
    ∧ forallb pg_user (tbl_users db) = true)));
  [ destruct a as (?&?&?); by constructor
  | intros []; apply n; repeat split; assumption ].
Defined.

(** Every row holds values of the types of its columns. *)
Definition pg_rows (db : Db) : bool :=
  forallb pg_survey (tbl_surveys db) && forallb pg_question (tbl_questions db)
  && forallb pg_response (tbl_responses db) && forallb pg_answer (tbl_answers db).

Record constraints (db : Db) : Prop := mkConstraints {
  pk_surveys : NoDup (survey_ids db);
  pk_questions : NoDup (question_ids db);
  pk_responses : NoDup (response_ids db);
  pk_answers : NoDup (answer_ids db);
  unique_shareToken : NoDup (share_tokens db);
  fk_question_survey :
    Forall (λ q, questions.surveyId q ∈ survey_ids db) (tbl_questions db);
  fk_response_survey :
    Forall (λ r, responses.surveyId r ∈ survey_ids db) (tbl_responses db);
  fk_answer_response :
    Forall (λ a, answers.responseId a ∈ response_ids db) (tbl_answers db);
  fk_answer_question :
    Forall (λ a, answers.questionId a ∈ question_ids db) (tbl_answers db);
  fk_survey_user :
    Forall (λ s, surveys.createdBy s ∈ user_ids db) (tbl_surveys db);
  pg_values : pg_rows db = true;
  users_constraints : user_constraints (db_users db) }.

Global Instance constraints_dec db : Decision (constraints db).
Proof.
  refine (cast_if (decide (
    NoDup (survey_ids db) ∧ NoDup (question_ids db) ∧
    NoDup (response_ids db) ∧ NoDup (answer_ids db) ∧
    NoDup (share_tokens db) ∧
    Forall (λ q, questions.surveyId q ∈ survey_ids db) (tbl_questions db) ∧
    Forall (λ r, responses.surveyId r ∈ survey_ids db) (tbl_responses db) ∧
    Forall (λ a, answers.responseId a ∈ response_ids db) (tbl_answers db) ∧
    Forall (λ a, answers.questionId a ∈ question_ids db) (tbl_answers db) ∧
    Forall (λ s, surveys.createdBy s ∈ user_ids db) (tbl_surveys db) ∧
    pg_rows db = true ∧ user_constraints (db_users db))));
  [ destruct a as (?&?&?&?&?&?&?&?&?&?&?&?); by constructor
  | intros []; apply n; split_and!; assumption ].
Defined.

(** One statement: the candidate store is installed when it satisfies the
    constraints, types of the columns included, and the query is rejected
    otherwise. *)
Definition commit (db' : Db) : M unit :=
  λ db, if decide (constraints db') then (Returns (), db')
        else (Throws (DbError "constraint violation"), db).

Definition with_seed (n : nat) (db : Db) : Db :=
  mkDb (tbl_surveys db) (tbl_questions db) (tbl_responses db) (tbl_answers db) n
    (db_users db).

(** The column default [gen_random_uuid()]. *)
Definition draw_uuid : M string :=
  λ db, (Returns (gen_random_uuid (uuid_seed db)),
         with_seed (S (uuid_seed db)) db).

Definition default_uuid (o : option string) : M string :=
  match o with Some s => ret s | None => draw_uuid end.

(** A [NOT NULL] column without default. *)
Definition not_null {A} (column : string) (o : option A) : M A :=
  match o with
  | Some a => ret a
  | None => throw (DbError ("null value in column " +:+ column))
  end.

Definition with_surveys (l : list Survey) (db : Db) : Db :=
  mkDb l (tbl_questions db) (tbl_responses db) (tbl_answers db) (uuid_seed db)
    (db_users db).
Definition with_questions (l : list Question) (db : Db) : Db :=
  mkDb (tbl_surveys db) l (tbl_responses db) (tbl_answers db) (uuid_seed db)
    (db_users db).
Definition with_responses (l : list Response) (db : Db) : Db :=
  mkDb (tbl_surveys db) (tbl_questions db) l (tbl_answers db) (uuid_seed db)
    (db_users db).
Definition with_answers (l : list Answer) (db : Db) : Db :=
  mkDb (tbl_surveys db) (tbl_questions db) (tbl_responses db) l (uuid_seed db)
    (db_users db).

(** A query that only reads. *)
Definition reads {A} (f : Db → A) : M A := λ db, (Returns (f db), db).

(** The parameters of a statement: it is refused when one of them is not
    a value of its type. *)
Definition bind_params (ok : bool) : M unit :=
  if ok then ret () else throw (DbError "invalid parameter value").

(** The row found by a text key.  A key that holds U+0000 is refused as
    a parameter; the rows hold no such key, so that the refusal is that
    of a key which finds no row. *)
Definition by_text_key {R} (key : string) (found : option R) : M (option R) :=
  match found with
  | Some r => ret (Some r)
  | None => bind_params (pg_text key) ;;; ret None
  end.

(** ** server/storage.ts: [DatabaseStorage]

    [now] is the clock read by [defaultNow()] and [new Date()]. *)

(** [.set(values)] of an update: columns left [undefined] keep their value. *)
Definition set_survey (u : InsertSurvey) (r : Survey) : Survey :=
  surveys.mk
    (default (surveys.id r) (surveys.i_id u))
    (default (surveys.title r) (surveys.i_title u))
    (default (surveys.description r) (surveys.i_description u))
    (default (surveys.createdBy r) (surveys.i_createdBy u))
    (default (surveys.status r) (surveys.i_status u))
    (default (surveys.anonymous r) (surveys.i_anonymous u))
    (default (surveys.multipleResponses r) (surveys.i_multipleResponses u))
    (default (surveys.shareToken r) (surveys.i_shareToken u))
    (default (surveys.createdAt r) (surveys.i_createdAt u))
    (default (surveys.updatedAt r) (surveys.i_updatedAt u)).

Definition set_question (u : InsertQuestion) (r : Question) : Question :=
  questions.mk
    (default (questions.id r) (questions.i_id u))
    (default (questions.surveyId r) (questions.i_surveyId u))
    (default (questions.text r) (questions.i_text u))
    (default (questions.type r) (questions.i_type u))
    (default (questions.required r) (questions.i_required u))
    (default (questions.options r) (questions.i_options u))
    (default (questions.order r) (questions.i_order u))
    (default (questions.createdAt r) (questions.i_createdAt u)).

(** [{ ...updates, updatedAt: new Date() }] *)
Definition spread_updatedAt (updates : InsertSurvey) (now : nat) : InsertSurvey :=
  surveys.mk_insert
    (surveys.i_id updates) (surveys.i_title updates)
    (surveys.i_description updates) (surveys.i_createdBy updates)
    (surveys.i_status updates) (surveys.i_anonymous updates)
    (surveys.i_multipleResponses updates) (surveys.i_shareToken updates)
    (surveys.i_createdAt updates) (Some (Some now)).

(** drizzle refuses an update without any value ([No values to set]). *)
Definition no_values (u : InsertQuestion) : bool :=
  match u with
  | questions.mk_insert None None None None None None None None => true
  | _ => false
  end.

Definition createSurvey (now : nat) (survey : InsertSurvey) : M Survey :=
  let! id := default_uuid (surveys.i_id survey) in
  let! title := not_null "title" (surveys.i_title survey) in
  let! createdBy := not_null "created_by" (surveys.i_createdBy survey) in
  let! shareToken := default_uuid (surveys.i_shareToken survey) in
  let newSurvey :=
    surveys.mk id title
      (default None (surveys.i_description survey))
      createdBy
      (default "draft" (surveys.i_status survey))
      (default true (surveys.i_anonymous survey))
      (default false (surveys.i_multipleResponses survey))
      shareToken
      (default (Some now) (surveys.i_createdAt survey))
      (default (Some now) (surveys.i_updatedAt survey)) in
  let! db := get_db in
  commit (with_surveys (tbl_surveys db ++ [newSurvey]) db) ;;;
  ret newSurvey.

Definition getSurvey (id : string) : M (option Survey) :=
  let! db := get_db in
  by_text_key id
    (head (Drizzle.from (tbl_surveys db)
           .> Drizzle.where_ (Drizzle.eq surveys.id id)
           .> Drizzle.rows)).

Definition getSurveyByShareToken (shareToken : string) : M (option Survey) :=
  let! db := get_db in
  by_text_key shareToken
    (head (Drizzle.from (tbl_surveys db)
           .> Drizzle.where_ (Drizzle.eq surveys.shareToken shareToken)
           .> Drizzle.rows)).

Definition updateSurvey (now : nat) (id : string) (updates : InsertSurvey)
    : M (option Survey) :=
  let values := spread_updatedAt updates now in
  bind_params (pg_text id && pg_survey_values values) ;;;
  let! db := get_db in
  let hit := Drizzle.eq surveys.id id in
  commit (with_surveys
    ((λ r, if hit r then set_survey values r else r) <$> tbl_surveys db) db) ;;;
  ret (head (set_survey values <$> List.filter hit (tbl_surveys db))).

(** [ON DELETE CASCADE]: the questions and responses of a deleted survey go
    with it, and so do the answers of those questions and responses. *)
Definition cascade_surveys (gone : Survey → bool) (db : Db) : Db :=
  let q_gone := λ q, bool_decide (questions.surveyId q ∈
      surveys.id <$> List.filter gone (tbl_surveys db)) in
  let r_gone := λ r, bool_decide (responses.surveyId r ∈
      surveys.id <$> List.filter gone (tbl_surveys db)) in
  let a_gone := λ a,
    bool_decide (answers.questionId a ∈
      questions.id <$> List.filter q_gone (tbl_questions db)) ||
    bool_decide (answers.responseId a ∈
      responses.id <$> List.filter r_gone (tbl_responses db)) in
  mkDb (List.filter (λ s, negb (gone s)) (tbl_surveys db))
       (List.filter (λ q, negb (q_gone q)) (tbl_questions db))
       (List.filter (λ r, negb (r_gone r)) (tbl_responses db))
       (List.filter (λ a, negb (a_gone a)) (tbl_answers db))
       (uuid_seed db) (db_users db).

Definition cascade_questions (gone : Question → bool) (db : Db) : Db :=
  let a_gone := λ a, bool_decide (answers.questionId a ∈
      questions.id <$> List.filter gone (tbl_questions db)) in
  with_answers (List.filter (λ a, negb (a_gone a)) (tbl_answers db))
    (with_questions (List.filter (λ q, negb (gone q)) (tbl_questions db)) db).

(** The route deletes under the identifier of a survey it has found. *)
Definition deleteSurvey (id : string) : M unit :=
  λ db, (Returns (), cascade_surveys (Drizzle.eq surveys.id id) db).

Definition createQuestion (now : nat) (question : InsertQuestion) : M Question :=
  let! id := default_uuid (questions.i_id question) in
  let! surveyId := not_null "survey_id" (questions.i_surveyId question) in
  let! text := not_null "text" (questions.i_text question) in
  let! type := not_null "type" (questions.i_type question) in
  let! order := not_null "order" (questions.i_order question) in
  let newQuestion :=
    questions.mk id surveyId text type
      (default false (questions.i_required question))
      (default None (questions.i_options question))
      order
      (default (Some now) (questions.i_createdAt question)) in
  let! db := get_db in
  commit (with_questions (tbl_questions db ++ [newQuestion]) db) ;;;
  ret newQuestion.

Definition getQuestionsBySurvey (surveyId : string) : M (list Question) :=
  reads (λ db,
    Drizzle.from (tbl_questions db)
    .> Drizzle.where_ (Drizzle.eq questions.surveyId surveyId)
    .> Drizzle.rows
    .> Drizzle.orderBy questions.order).

Definition updateQuestion (id : string) (updates : InsertQuestion)
    : M (option Question) :=
  if no_values updates then throw (DbError "No values to set") else
  bind_params (pg_text id && pg_question_values updates) ;;;
  let! db := get_db in
  let hit := Drizzle.eq questions.id id in
  commit (with_questions
    ((λ r, if hit r then set_question updates r else r) <$> tbl_questions db) db) ;;;
  ret (head (set_question updates <$> List.filter hit (tbl_questions db))).

Definition deleteQuestion (id : string) : M unit :=
  λ db, (Returns (), cascade_questions (Drizzle.eq questions.id id) db).

Definition createResponse (now : nat) (response : InsertResponse) : M Response :=
  let! id := default_uuid (responses.i_id response) in
  let! surveyId := not_null "survey_id" (responses.i_surveyId response) in
  let newResponse :=
    responses.mk id surveyId
      (default None (responses.i_respondentId response))
      (default (Some now) (responses.i_createdAt response)) in
  let! db := get_db in
  commit (with_responses (tbl_responses db ++ [newResponse]) db) ;;;
  ret newResponse.

Definition createAnswer (now : nat) (answer : InsertAnswer) : M Answer :=
  let! id := default_uuid (answers.i_id answer) in
  let! responseId := not_null "response_id" (answers.i_responseId answer) in
  let! questionId := not_null "question_id" (answers.i_questionId answer) in
  let! value := not_null "value" (answers.i_value answer) in
  let newAnswer :=
    answers.mk id responseId questionId value
      (default (Some now) (answers.i_createdAt answer)) in
  let! db := get_db in
  commit (with_answers (tbl_answers db ++ [newAnswer]) db) ;;;
  ret newAnswer.

Record SurveyStats := mkStats {
  totalSurveys : nat;
  totalResponses : nat;
  activeSurveys : nat;
  avgCompletionRate : string }.

Definition getSurveyStats (userId : string) : M SurveyStats :=
  reads (λ db,
    let totalSurveys :=
      Drizzle.from (tbl_surveys db)
      .> Drizzle.where_ (Drizzle.eq surveys.createdBy userId)
      .> Drizzle.count in
    let activeSurveys :=
      Drizzle.from (tbl_surveys db)
      .> Drizzle.where_ (Drizzle.eq surveys.createdBy userId)
      .> Drizzle.where_ (Drizzle.eq surveys.status "active")
      .> Drizzle.count in
    let totalResponses :=
      Drizzle.from (tbl_responses db)
      .> Drizzle.innerJoin (tbl_surveys db)
           (λ r s, bool_decide (responses.surveyId r = surveys.id s))
      .> Drizzle.where_ (Drizzle.eq (surveys.createdBy ∘ snd) userId)
      .> Drizzle.count in
    mkStats totalSurveys totalResponses activeSurveys "78.5").

(** ** zod schemas derived from the tables ([createInsertSchema]) *)

Module Zod.
Definition string_ (v : JsValue) : Outcome string :=
  match v with JString s => Returns s | _ => Throws ZodError end.

Definition boolean (v : JsValue) : Outcome bool :=
  match v with JBool b => Returns b | _ => Throws ZodError end.

(** [.optional()]: [undefined] stands for an absent key. *)
Definition optional {A} (p : JsValue → Outcome A) (v : JsValue)
    : Outcome (option A) :=
  match v with
  | JUndefined => Returns None
  | _ => match p v with Returns a => Returns (Some a) | Throws e => Throws e end
  end.

(** [.nullable()] *)
Definition nullable {A} (p : JsValue → Outcome A) (v : JsValue)
    : Outcome (option A) :=
  match v with
  | JNull => Returns None
  | _ => match p v with Returns a => Returns (Some a) | Throws e => Throws e end
  end.
End Zod.

Definition obind {A B} (o : Outcome A) (k : A → Outcome B) : Outcome B :=
  match o with Returns a => k a | Throws e => Throws e end.
Notation "'let?' x ':=' o 'in' k" := (obind o (λ x, k))
  (at level 10, x pattern, o at level 100, k at level 200) : js_scope.

(** Request bodies, field by field. *)
Record SurveyFields := mkSurveyFields {
  f_title : JsValue;
  f_description : JsValue;
  f_status : JsValue;
  f_anonymous : JsValue;
  f_multipleResponses : JsValue }.

(** An element of [req.body.questions]; [options] is stored as it comes
    and is taken to be a list of strings, [null] or absent.  A key [order]
    of the element is overwritten by the route. *)
Record QuestionFields := mkQuestionFields {
  f_text : JsValue;
  f_type : JsValue;
  f_required : JsValue;
  f_options : option (option (list string)) }.

Record SurveyBody := mkSurveyBody {
  b_survey : SurveyFields;
  (** [None]: [req.body.questions] is falsy or not an array *)
  b_questions : option (list QuestionFields) }.

(** An element of [req.body.answers]. *)
Record AnswerFields := mkAnswerFields {
  f_questionId : JsValue;
  f_value : JsValue }.

Record ResponseBody := mkResponseBody {
  b_respondentId : JsValue;
  (** [None]: [req.body.answers] is falsy or not an array *)
  b_answers : option (list AnswerFields) }.

(** [insertSurveySchema]: id, createdBy, shareToken, createdAt and
    updatedAt are omitted, so these keys never reach the storage layer. *)
Definition insertSurveySchema_parse (b : SurveyFields) : Outcome InsertSurvey :=
  let? title := Zod.string_ (f_title b) in
  let? description := Zod.optional (Zod.nullable Zod.string_) (f_description b) in
  let? status := Zod.optional Zod.string_ (f_status b) in
  let? anonymous := Zod.optional Zod.boolean (f_anonymous b) in
  let? multipleResponses := Zod.optional Zod.boolean (f_multipleResponses b) in
  Returns (surveys.mk_insert None (Some title) description None status
             anonymous multipleResponses None None None).

(** [insertSurveySchema.partial()] *)
Definition insertSurveySchema_partial_parse (b : SurveyFields)
    : Outcome InsertSurvey :=
  let? title := Zod.optional Zod.string_ (f_title b) in
  let? description := Zod.optional (Zod.nullable Zod.string_) (f_description b) in
  let? status := Zod.optional Zod.string_ (f_status b) in
  let? anonymous := Zod.optional Zod.boolean (f_anonymous b) in
  let? multipleResponses := Zod.optional Zod.boolean (f_multipleResponses b) in
  Returns (surveys.mk_insert None title description None status
             anonymous multipleResponses None None None).

(** [insertQuestionSchema.parse({ ...q, order: index })] *)
Definition insertQuestionSchema_parse (q : QuestionFields) (index : nat)
    : Outcome InsertQuestion :=
  let? text := Zod.string_ (f_text q) in
  let? type := Zod.string_ (f_type q) in
  let? required := Zod.optional Zod.boolean (f_required q) in
  Returns (questions.mk_insert None None (Some text) (Some type) required
             (f_options q) (Some (Z.of_nat index)) None).

(** [insertResponseSchema.parse({ surveyId, respondentId })] *)
Definition insertResponseSchema_parse (surveyId : string) (respondentId : JsValue)
    : Outcome InsertResponse :=
  let? respondentId := Zod.optional (Zod.nullable Zod.string_) respondentId in
  Returns (responses.mk_insert None (Some surveyId) respondentId None).

(** [insertAnswerSchema.parse({ ...a, responseId })] *)
Definition insertAnswerSchema_parse (a : AnswerFields) (responseId : string)
    : Outcome InsertAnswer :=
  let? questionId := Zod.string_ (f_questionId a) in
  let? value := Zod.string_ (f_value a) in
  Returns (answers.mk_insert None (Some responseId) (Some questionId)
             (Some value) None).

(** ** Promises *)

(** [array.map(callback)] where each callback either throws or returns the
    promise of a storage call.  A throw ends the [map]; the calls already
    made stay in effect.  The result lists how each promise settled. *)
Fixpoint start_all {R} (callbacks : list (Outcome (M R))) : M (list (Outcome R)) :=
  match callbacks with
  | [] => ret []
  | Throws e :: _ => throw e
  | Returns promise :: rest =>
      λ db, let '(settled, db1) := promise db in
            match start_all rest db1 with
            | (Returns others, db2) => (Returns (settled :: others), db2)
            | (Throws e, db2) => (Throws e, db2)
            end
  end.

(** [await Promise.all(promises)] *)
Fixpoint Promise_all {R} (settled : list (Outcome R)) : Outcome (list R) :=
  match settled with
  | [] => Returns []
  | Throws e :: _ => Throws e
  | Returns r :: rest =>
      match Promise_all rest with
      | Returns rs => Returns (r :: rs)
      | Throws e => Throws e
      end
  end.

(** ** server/routes.ts *)

Inductive Reply (A : Type) :=
  | json (a : A)                                   (* [res.json(a)] *)
  | status_json (code : nat) (message : string)    (* [res.status(code).json({ message })] *)
  | status_send (code : nat).                      (* [res.status(code).send()] *)
Arguments json {A} a.
Arguments status_json {A} code message.
Arguments status_send {A} code.

Record SurveyWithQuestions := mkSurveyWithQuestions {
  survey_of : Survey;
  questions_of : list Question }.

(** [app.get('/api/surveys/:id', isAuthenticated, ...)] *)
Definition GET_api_surveys_id (userId id : string) : M (Reply SurveyWithQuestions) :=
  try_catch
    (let! survey := getSurvey id in
     match survey with
     | None => ret (status_json 404 "Survey not found")
     | Some survey =>
         if negb (bool_decide (surveys.createdBy survey = userId))
         then ret (status_json 404 "Survey not found")
         else
           let! questions := getQuestionsBySurvey (surveys.id survey) in
           ret (json (mkSurveyWithQuestions survey questions))
     end)
    (λ _, ret (status_json 500 "Failed to fetch survey")).

(** [{ ...surveyData, createdBy: userId }] *)
Definition spread_createdBy (surveyData : InsertSurvey) (userId : string)
    : InsertSurvey :=
  surveys.mk_insert
    (surveys.i_id surveyData) (surveys.i_title surveyData)
    (surveys.i_description surveyData) (Some userId)
    (surveys.i_status surveyData) (surveys.i_anonymous surveyData)
    (surveys.i_multipleResponses surveyData) (surveys.i_shareToken surveyData)
    (surveys.i_createdAt surveyData) (surveys.i_updatedAt surveyData).

(** [{ ...questionData, surveyId: survey.id }] *)
Definition spread_surveyId (questionData : InsertQuestion) (surveyId : string)
    : InsertQuestion :=
  questions.mk_insert
    (questions.i_id questionData) (Some surveyId)
    (questions.i_text questionData) (questions.i_type questionData)
    (questions.i_required questionData) (questions.i_options questionData)
    (questions.i_order questionData) (questions.i_createdAt questionData).

(** [app.post('/api/surveys', isAuthenticated, ...)] *)
Definition POST_api_surveys (now : nat) (userId : string) (body : SurveyBody)
    : M (Reply Survey) :=
  try_catch
    (let! surveyData := lift (insertSurveySchema_parse (b_survey body)) in
     let! survey := createSurvey now (spread_createdBy surveyData userId) in
     match b_questions body with
     | Some questions =>
         let! questionPromises := start_all
           (imap (λ index q,
              let? questionData := insertQuestionSchema_parse q index in
              Returns (createQuestion now
                         (spread_surveyId questionData (surveys.id survey))))
              questions) in
         lift (Promise_all questionPromises) ;;;
         ret (json survey)
     | None => ret (json survey)
     end)
    (λ error,
       match error with
       | ZodError => ret (status_json 400 "Invalid survey data")
       | _ => ret (status_json 500 "Failed to create survey")
       end).

(** [app.put('/api/surveys/:id', isAuthenticated, ...)] *)
Definition PUT_api_surveys_id (now : nat) (userId id : string)
    (body : SurveyFields) : M (Reply (option Survey)) :=
  try_catch
    (let! survey := getSurvey id in
     match survey with
     | None => ret (status_json 404 "Survey not found")
     | Some survey =>
         if negb (bool_decide (surveys.createdBy survey = userId))
         then ret (status_json 404 "Survey not found")
         else
           let! surveyData := lift (insertSurveySchema_partial_parse body) in
           let! updated := updateSurvey now id surveyData in
           ret (json updated)
     end)
    (λ error,
       match error with
       | ZodError => ret (status_json 400 "Invalid survey data")
       | _ => ret (status_json 500 "Failed to update survey")
       end).

(** [app.delete('/api/surveys/:id', isAuthenticated, ...)] *)
Definition DELETE_api_surveys_id (userId id : string) : M (Reply unit) :=
  try_catch
    (let! survey := getSurvey id in
     match survey with
     | None => ret (status_json 404 "Survey not found")
     | Some survey =>
         if negb (bool_decide (surveys.createdBy survey = userId))
         then ret (status_json 404 "Survey not found")
         else
           deleteSurvey id ;;;
           ret (status_send 204)
     end)
    (λ _, ret (status_json 500 "Failed to delete survey")).

(** [app.get('/api/public/surveys/:shareToken', ...)] *)
Definition GET_api_public_surveys (shareToken : string)
    : M (Reply SurveyWithQuestions) :=
  try_catch
    (let! survey := getSurveyByShareToken shareToken in
     match survey with
     | None => ret (status_json 404 "Survey not found or inactive")
     | Some survey =>
         if negb (bool_decide (surveys.status survey = "active"))
         then ret (status_json 404 "Survey not found or inactive")
         else
           let! questions := getQuestionsBySurvey (surveys.id survey) in
           ret (json (mkSurveyWithQuestions survey questions))
     end)
    (λ _, ret (status_json 500 "Failed to fetch survey")).

(** [app.post('/api/public/surveys/:shareToken/responses', ...)] *)
Definition POST_api_public_surveys_responses (now : nat) (shareToken : string)
    (body : ResponseBody) : M (Reply string) :=
  try_catch
    (let! survey := getSurveyByShareToken shareToken in
     match survey with
     | None => ret (status_json 404 "Survey not found or inactive")
     | Some survey =>
         if negb (bool_decide (surveys.status survey = "active"))
         then ret (status_json 404 "Survey not found or inactive")
         else
           let! responseData := lift (insertResponseSchema_parse
             (surveys.id survey) (or_null (b_respondentId body))) in
           let! response := createResponse now responseData in
           match b_answers body with
           | Some answers =>
               let! answerPromises := start_all
                 ((λ a,
                    let? answerData :=
                      insertAnswerSchema_parse a (responses.id response) in
                    Returns (createAnswer now answerData)) <$> answers) in
               lift (Promise_all answerPromises) ;;;
               ret (json "Response submitted successfully")
           | None => ret (json "Response submitted successfully")
           end
     end)
    (λ error,
       match error with
       | ZodError => ret (status_json 400 "Invalid response data")
       | _ => ret (status_json 500 "Failed to submit response")
       end).

(** [app.get('/api/stats', isAuthenticated, ...)] *)
Definition GET_api_stats (userId : string) : M (Reply SurveyStats) :=
  try_catch
    (let! stats := getSurveyStats userId in ret (json stats))
    (λ _, ret (status_json 500 "Failed to fetch stats")).

(** ** JavaScript objects used as records of counters or of form values

    An object is the list of its own properties in creation order.  Its
    keys are enumerated as [OrdinaryOwnPropertyKeys] does: array indices
    in ascending numeric order first, then the other keys in creation
    order.  Strings are compared and measured character by character. *)

Module JsObject.
Definition t (V : Type) : Type := list (string * V).

Definition digit (c : ascii) : option N :=
  let n := N_of_ascii c in
  if decide (48 ≤ n ≤ 57)%N then Some (n - 48)%N else None.

Fixpoint parse_digits (acc : N) (s : string) : option N :=
  match s with
  | EmptyString => Some acc
  | String c s' =>
      match digit c with
      | Some d => parse_digits (10 * acc + d)%N s'
      | None => None
      end
  end.

(** The array index a key denotes, if it is a canonical numeric string
    below [2^32 - 1]. *)
Definition array_index (key : string) : option N :=
  match key with
  | EmptyString => None
  | _ =>
      match parse_digits 0 key with
      | Some n =>
          if decide (pretty n = key ∧ (n < 4294967295)%N) then Some n else None
      | None => None
      end
  end.

Section ops.
Context {V : Type}.

Definition hasOwn (key : string) (o : t V) : bool :=
  bool_decide (key ∈ o.*1).

Fixpoint getOwn (key : string) (o : t V) : option V :=
  match o with
  | [] => None
  | (k, v) :: o' => if decide (k = key) then Some v else getOwn key o'
  end.

Fixpoint replace (key : string) (v : V) (o : t V) : t V :=
  match o with
  | [] => []
  | (k, w) :: o' =>
      if decide (k = key) then (k, v) :: o' else (k, w) :: replace key v o'
  end.

(** [CreateDataProperty]: a computed key of an object literal. *)
Definition define (key : string) (v : V) (o : t V) : t V :=
  if hasOwn key o then replace key v o else o ++ [(key, v)].

(** [o[key] = v] with a primitive [v] on an object whose prototype is
    [Object.prototype]: the inherited [__proto__] setter takes the
    assignment and ignores a primitive. *)
Definition assign (key : string) (v : V) (o : t V) : t V :=
  if decide (key = "__proto__") then o else define key v o.

Definition index_le : relation (N * (string * V)) :=
  λ a b, (a.1 ≤ b.1)%N.
Global Instance index_le_dec a b : Decision (index_le a b) :=
  decide (a.1 ≤ b.1)%N.

Definition indexed (o : t V) : list (N * (string * V)) :=
  omap (λ kv, (λ n, (n, kv)) <$> array_index kv.1) o.

Definition named (o : t V) : t V :=
  List.filter (λ kv, bool_decide (array_index kv.1 = None)) o.

(** [Object.entries(o)] *)
Definition entries (o : t V) : list (string * V) :=
  (snd <$> merge_sort index_le (indexed o)) ++ named o.

(** [{ ...o }] *)
Definition spread (o : t V) : t V := entries o.

(** [o.hasOwnProperty(key)] for the object held by the variable [name]:
    the method is looked up on the object first, where a counter of that
    name hides the inherited one. *)
Definition call_hasOwnProperty (name : string) (o : t V) (key : string)
    : Outcome bool :=
  if hasOwn "hasOwnProperty" o
  then Throws (TypeError (name +:+ ".hasOwnProperty is not a function"))
  else Returns (hasOwn key o).
End ops.

(** The properties every object literal inherits; all of them hold
    truthy values. *)
Definition Object_prototype : list string :=
  [ "constructor"; "__defineGetter__"; "__defineSetter__"; "hasOwnProperty";
    "__lookupGetter__"; "__lookupSetter__"; "isPrototypeOf";
    "propertyIsEnumerable"; "toString"; "valueOf"; "__proto__";
    "toLocaleString" ].

(** [!!o[key]] for an object of strings *)
Definition truthy_at (key : string) (o : t string) : bool :=
  match getOwn key o with
  | Some v => negb (String.eqb v "")
  | None => bool_decide (key ∈ Object_prototype)
  end.
End JsObject.

(** ** client/src/pages/survey-public.tsx *)

(** [handleInputChange]: [{ ...prev, [questionId]: value }] *)
Definition handleInputChange (questionId value : string)
    (prev : JsObject.t string) : JsObject.t string :=
  JsObject.define questionId value (JsObject.spread prev).

(** [handleSubmit]: [None] when the handler returns without calling
    [submitMutation.mutate], else the body it posts. *)
Definition handleSubmit (now : nat) (survey : option SurveyWithQuestions)
    (responses : JsObject.t string) : option ResponseBody :=
  match survey with
  | None => None
  | Some survey =>
      let requiredQuestions :=
        List.filter questions.required (questions_of survey) in
      let missingRequired :=
        List.filter (λ q, negb (JsObject.truthy_at (questions.id q) responses))
          requiredQuestions in
      if decide (0 < length missingRequired) then None
      else
        let answers :=
          (λ '(questionId, value),
             mkAnswerFields (JString questionId) (JString value))
          <$> JsObject.entries responses in
        Some (mkResponseBody (JString ("anonymous_" +:+ pretty now))
                (Some answers))
  end.

(** The form as a whole: the handler, then [submitMutation] posting what
    the handler passed on. *)
Definition submit_form (now : nat) (shareToken : string)
    (survey : option SurveyWithQuestions) (responses : JsObject.t string)
    : M (option (Reply string)) :=
  match handleSubmit now survey responses with
  | None => ret None
  | Some data =>
      let! reply := POST_api_public_surveys_responses now shareToken data in
      ret (Some reply)
  end.

(** ** The analytics page: [getQuestionAnalytics] *)

Record ResponseData := mkResponseData {
  rd_responses : list Response;
  rd_answers : list Answer }.

Record ChartPoint := mkChartPoint {
  name : string;
  value : nat;
  fullName : option string }.

Inductive Analytics :=
  | Chart (points : list ChartPoint)
  | Values (values : list string).

(** [answers.forEach(answer => { if (counts.hasOwnProperty(answer.value))
    counts[answer.value]++ })], with [name] the name of the variable that
    holds the counters ([optionCounts], [ratingCounts]). *)
Fixpoint tally (name : string) (counts : JsObject.t nat)
    (questionAnswers : list Answer) : Outcome (JsObject.t nat) :=
  match questionAnswers with
  | [] => Returns counts
  | answer :: rest =>
      let? has :=
        JsObject.call_hasOwnProperty name counts (answers.value answer) in
      if has
      then tally name
             (JsObject.assign (answers.value answer)
                (S (default 0 (JsObject.getOwn (answers.value answer) counts)))
                counts) rest
      else tally name counts rest
  end.

(** [option.length > 20 ? option.slice(0, 20) + "..." : option] *)
Definition short_name (option : string) : string :=
  if decide (20 < String.length option)
  then String.substring 0 20 option +:+ "..." else option.

(** The result is [None] for the [null] returned while the responses are
    not loaded. *)
Definition getQuestionAnalytics (responseData : option ResponseData)
    (question : Question) : Outcome (option Analytics) :=
  match responseData with
  | None => Returns None
  | Some responseData =>
      let questionAnswers :=
        List.filter (λ answer,
          bool_decide (answers.questionId answer = questions.id question))
          (rd_answers responseData) in
      if decide (questions.type question = "multiple-choice") then
        let optionCounts :=
          foldl (λ counts option, JsObject.assign option 0 counts) []
            (default [] (questions.options question)) in
        let? optionCounts := tally "optionCounts" optionCounts questionAnswers in
        Returns (Some (Chart
          ((λ '(option, count),
              mkChartPoint (short_name option) count (Some option))
           <$> JsObject.entries optionCounts)))
      else if decide (questions.type question = "rating") then
        let ratingCounts :=
          foldl (λ counts i, JsObject.assign (pretty i) 0 counts) []
            (seq 1 10) in
        let? ratingCounts := tally "ratingCounts" ratingCounts questionAnswers in
        Returns (Some (Chart
          ((λ '(rating, count), mkChartPoint rating count None)
           <$> JsObject.entries ratingCounts)))
      else
        Returns (Some (Values (answers.value <$> questionAnswers)))
  end.

(** ** server/storage.ts: the remaining queries *)

(** [.orderBy(desc(column))] on a timestamp column: newest first, rows
    without a timestamp before all others (the database's default for a
    descending sort). *)
Definition newest_first {R} (col : R → option nat) : relation R :=
  λ a b, match col a, col b with
         | None, _ => True
         | Some _, None => False
         | Some x, Some y => y ≤ x
         end.

Global Instance newest_first_dec {R} (col : R → option nat) a b :
  Decision (newest_first col a b).
Proof. unfold newest_first. destruct (col a), (col b); apply _. Defined.

Definition orderBy_desc {R} (col : R → option nat) (l : list R) : list R :=
  merge_sort (newest_first col) l.

Definition getSurveysByUser (userId : string) : M (list Survey) :=
  reads (λ db,
    Drizzle.from (tbl_surveys db)
    .> Drizzle.where_ (Drizzle.eq surveys.createdBy userId)
    .> Drizzle.rows
    .> orderBy_desc surveys.createdAt).

Definition getResponsesBySurvey (surveyId : string) : M (list Response) :=
  reads (λ db,
    Drizzle.from (tbl_responses db)
    .> Drizzle.where_ (Drizzle.eq responses.surveyId surveyId)
    .> Drizzle.rows
    .> orderBy_desc responses.createdAt).

Definition getResponseCount (surveyId : string) : M nat :=
  reads (λ db,
    Drizzle.from (tbl_responses db)
    .> Drizzle.where_ (Drizzle.eq responses.surveyId surveyId)
    .> Drizzle.count).

Definition getAnswersByResponse (responseId : string) : M (list Answer) :=
  reads (λ db,
    Drizzle.from (tbl_answers db)
    .> Drizzle.where_ (Drizzle.eq answers.responseId responseId)
    .> Drizzle.rows).

(** The selection lists the columns of [answers]: each joined row is cut
    down to its answer. *)
Definition getAnswersBySurvey (surveyId : string) : M (list Answer) :=
  reads (λ db,
    fst <$>
      (Drizzle.from (tbl_answers db)
       .> Drizzle.innerJoin (tbl_responses db)
            (λ a r, bool_decide (answers.responseId a = responses.id r))
       .> Drizzle.where_ (Drizzle.eq (responses.surveyId ∘ snd) surveyId)
       .> Drizzle.rows)).

(** ** server/routes.ts: the remaining routes *)

(** [{ ...survey, responseCount }] *)
Record SurveyWithStats := mkSurveyWithStats {
  stats_survey : Survey;
  responseCount : nat }.

(** [Promise.all(array.map(async x => ...))] for callbacks that only read:
    the results in the order of the array. *)
Fixpoint map_all {A B} (f : A → M B) (l : list A) : M (list B) :=
  match l with
  | [] => ret []
  | x :: l' =>
      let! y := f x in
      let! ys := map_all f l' in
      ret (y :: ys)
  end.

(** [app.get('/api/surveys', isAuthenticated, ...)] *)
Definition GET_api_surveys (userId : string) : M (Reply (list SurveyWithStats)) :=
  try_catch
    (let! surveys := getSurveysByUser userId in
     let! surveysWithStats :=
       map_all (λ survey,
         let! responseCount := getResponseCount (surveys.id survey) in
         ret (mkSurveyWithStats survey responseCount)) surveys in
     ret (json surveysWithStats))
    (λ _, ret (status_json 500 "Failed to fetch surveys")).

(** [app.get('/api/surveys/:id/responses', isAuthenticated, ...)] *)
Definition GET_api_surveys_id_responses (userId id : string)
    : M (Reply ResponseData) :=
  try_catch
    (let! survey := getSurvey id in
     match survey with
     | None => ret (status_json 404 "Survey not found")
     | Some survey =>
         if negb (bool_decide (surveys.createdBy survey = userId))
         then ret (status_json 404 "Survey not found")
         else
           let! responses := getResponsesBySurvey (surveys.id survey) in
           let! answers := getAnswersBySurvey (surveys.id survey) in
           ret (json (mkResponseData responses answers))
     end)
    (λ _, ret (status_json 500 "Failed to fetch responses")).

(** ** The dashboard: [handleToggleStatus], [handleDeleteSurvey] *)

(** [{ status }], the body of the toggle *)
Definition status_only (status : string) : SurveyFields :=
  mkSurveyFields JUndefined JUndefined (JString status) JUndefined JUndefined.

(** [currentStatus === "active" ? "closed" : "active"] *)
Definition toggled (currentStatus : string) : string :=
  if decide (currentStatus = "active") then "closed" else "active".

(** The handler and the [PUT] its mutation sends for the signed-in user. *)
Definition handleToggleStatus (now : nat) (userId surveyId currentStatus : string)
    : M (Reply (option Survey)) :=
  let newStatus := toggled currentStatus in
  PUT_api_surveys_id now userId surveyId (status_only newStatus).

(** [confirmed] is the answer to [window.confirm]; [None] when nothing is
    sent. *)
Definition handleDeleteSurvey (confirmed : bool) (userId surveyId : string)
    : M (option (Reply unit)) :=
  if confirmed then
    let! reply := DELETE_api_surveys_id userId surveyId in
    ret (Some reply)
  else ret None.

(** ** client/src/pages/survey-builder.tsx and the creation dialog

    A character is a code unit below 256. *)

(** White space and line terminators, as [trim] sees them. *)
Definition is_white (c : ascii) : bool :=
  let n := N_of_ascii c in
  bool_decide (n = 9 ∨ n = 10 ∨ n = 11 ∨ n = 12 ∨ n = 13 ∨ n = 32 ∨ n = 160)%N.

Fixpoint trimStart (s : string) : string :=
  match s with
  | EmptyString => EmptyString
  | String c s' => if is_white c then trimStart s' else s
  end.

Definition trimEnd (s : string) : string :=
  String.rev (trimStart (String.rev s)).

(** [s.trim()] *)
Definition trim (s : string) : string := trimEnd (trimStart s).

(** The form values. *)
Record QuestionForm := mkQuestionForm {
  qf_text : string;
  qf_type : string;
  qf_required : bool;
  qf_options : option (list string);
  qf_order : Z }.

Record SurveyForm := mkSurveyForm {
  sf_title : string;
  sf_description : option string;
  sf_anonymous : bool;
  sf_multipleResponses : bool;
  sf_status : string;
  sf_questions : list QuestionForm }.

(** [questionSchema] and [surveySchema], as [zodResolver] applies them to
    the form values: a text and a title of at least one character, a
    type and a status of the enumerations.  The dialog's schema has no
    [status] and asks for at least one question. *)
Definition questionSchema (question : QuestionForm) : bool :=
  bool_decide (1 ≤ String.length (qf_text question))
  && bool_decide (qf_type question
                  ∈ ["multiple-choice"; "text"; "rating"; "textarea"]).

Definition builder_surveySchema (data : SurveyForm) : bool :=
  bool_decide (1 ≤ String.length (sf_title data))
  && bool_decide (sf_status data ∈ ["draft"; "active"; "closed"])
  && forallb questionSchema (sf_questions data).

Definition dialog_surveySchema (data : SurveyForm) : bool :=
  bool_decide (1 ≤ String.length (sf_title data))
  && forallb questionSchema (sf_questions data)
  && bool_decide (1 ≤ length (sf_questions data)).

(** [form.handleSubmit(onSubmit)]: the resolver first, and [onSubmit] with
    what it sends when the values pass; [None] when nothing is sent. *)
Definition form_handleSubmit {A} (schema : SurveyForm → bool)
    (onSubmit : SurveyForm → M A) (data : SurveyForm) : M (option A) :=
  if schema data
  then let! reply := onSubmit data in ret (Some reply)
  else ret None.

(** [question.options.filter(option => option.trim() !== "")] *)
Definition filled_options (options : list string) : list string :=
  List.filter (λ option, negb (String.eqb (trim option) "")) options.

(** The callback of [data.questions.map] in the builder's [onSubmit]. *)
Definition process_question (question : QuestionForm) (index : nat) : QuestionForm :=
  let processedQuestion :=
    mkQuestionForm (qf_text question) (qf_type question) (qf_required question)
      (qf_options question) (Z.of_nat index) in
  match qf_options question with
  | Some options =>
      if decide (qf_type question = "multiple-choice")
      then mkQuestionForm (qf_text processedQuestion) (qf_type processedQuestion)
             (qf_required processedQuestion) (Some (filled_options options))
             (qf_order processedQuestion)
      else processedQuestion
  | None => processedQuestion
  end.

(** The values the builder's form is reset to when the survey has been
    fetched: [survey.description || ""], [q.options || []],
    [order: index]. *)
Definition form_reset (survey : SurveyWithQuestions) : SurveyForm :=
  mkSurveyForm
    (surveys.title (survey_of survey))
    (Some (match surveys.description (survey_of survey) with
           | Some description =>
               if String.eqb description "" then "" else description
           | None => ""
           end))
    (surveys.anonymous (survey_of survey))
    (surveys.multipleResponses (survey_of survey))
    (surveys.status (survey_of survey))
    (imap (λ index q,
             mkQuestionForm (questions.text q) (questions.type q)
               (questions.required q)
               (Some (default [] (questions.options q)))
               (Z.of_nat index))
       (questions_of survey)).

(** The builder's [onSubmit]: what it passes to [saveSurveyMutation]. *)
Definition builder_onSubmit (data : SurveyForm) : SurveyForm :=
  let processedQuestions :=
    imap (λ index question, process_question question index) (sf_questions data) in
  mkSurveyForm (sf_title data) (sf_description data) (sf_anonymous data)
    (sf_multipleResponses data) (sf_status data) processedQuestions.

(** The dialog's [onSubmit]; its questions carry no [order] (the field is
    ignored here), and [isDraft] is the value of the state variable that
    this [onSubmit] reads. *)
Definition dialog_process_question (question : QuestionForm) : QuestionForm :=
  match qf_options question with
  | Some options =>
      if decide (qf_type question = "multiple-choice")
      then mkQuestionForm (qf_text question) (qf_type question)
             (qf_required question) (Some (filled_options options))
             (qf_order question)
      else question
  | None => question
  end.

Definition dialog_onSubmit (isDraft : bool) (data : SurveyForm) : SurveyForm :=
  let processedQuestions := dialog_process_question <$> sf_questions data in
  mkSurveyForm (sf_title data) (sf_description data) (sf_anonymous data)
    (sf_multipleResponses data) (if isDraft then "draft" else "active")
    processedQuestions.



(** The request body, as JSON. *)
Definition question_json (q : QuestionForm) : QuestionFields :=
  mkQuestionFields (JString (qf_text q)) (JString (qf_type q))
    (JBool (qf_required q)) (Some <$> qf_options q).

Definition survey_json (data : SurveyForm) : SurveyBody :=
  mkSurveyBody
    (mkSurveyFields (JString (sf_title data))
       (from_option JString JUndefined (sf_description data))
       (JString (sf_status data))
       (JBool (sf_anonymous data))
       (JBool (sf_multipleResponses data)))
    (Some (question_json <$> sf_questions data)).

(** Saving a new survey from the builder: the resolver, [onSubmit], then
    the mutation's [POST /api/surveys]. *)
Definition builder_save_new (now : nat) (userId : string) (data : SurveyForm)
    : M (option (Reply Survey)) :=
  form_handleSubmit builder_surveySchema
    (λ data, POST_api_surveys now userId (survey_json (builder_onSubmit data)))
    data.

(** Saving an existing survey: [PUT /api/surveys/:id] with the same
    body, of which the route reads the survey's own fields. *)
Definition builder_save_existing (now : nat) (userId surveyId : string)
    (data : SurveyForm) : M (option (Reply (option Survey))) :=
  form_handleSubmit builder_surveySchema
    (λ data, PUT_api_surveys_id now userId surveyId
               (b_survey (survey_json (builder_onSubmit data))))
    data.

(** Creating a survey from the dialog. *)
Definition dialog_create (now : nat) (userId : string) (isDraft : bool)
    (data : SurveyForm) : M (option (Reply Survey)) :=
  form_handleSubmit dialog_surveySchema
    (λ data, POST_api_surveys now userId
               (survey_json (dialog_onSubmit isDraft data)))
    data.

(** ** Users: [getUser], [upsertUser] and [GET /api/auth/user]

    These act on the [users] table alone. *)

(** [.set(values)]: columns left [undefined] keep their value. *)
Definition set_user (u : UpsertUser) (r : User) : User :=
  users.mk
    (default (users.id r) (users.i_id u))
    (default (users.email r) (users.i_email u))
    (default (users.firstName r) (users.i_firstName u))
    (default (users.lastName r) (users.i_lastName u))
    (default (users.profileImageUrl r) (users.i_profileImageUrl u))
    (default (users.createdAt r) (users.i_createdAt u))
    (default (users.updatedAt r) (users.i_updatedAt u)).

(** [{ ...userData, updatedAt: new Date() }] *)
Definition spread_user_updatedAt (userData : UpsertUser) (now : nat) : UpsertUser :=
  users.mk_insert
    (users.i_id userData) (users.i_email userData) (users.i_firstName userData)
    (users.i_lastName userData) (users.i_profileImageUrl userData)
    (users.i_createdAt userData) (Some (Some now)).

(** An identifier that finds no row and holds U+0000 is refused as a
    parameter, as for the surveys. *)
Definition getUser (id : string) (db : UserDb) : Outcome (option User) * UserDb :=
  match head (Drizzle.from (tbl_users db)
              .> Drizzle.where_ (Drizzle.eq users.id id)
              .> Drizzle.rows) with
  | Some user => (Returns (Some user), db)
  | None =>
      if pg_text id then (Returns None, db)
      else (Throws (DbError "invalid parameter value"), db)
  end.

(** One statement on [users]: installed when the constraints hold. *)
Definition commit_users {A} (result : A) (rows : list User) (seed : nat)
    (db : UserDb) : Outcome A * UserDb :=
  if decide (user_constraints (mkUserDb rows seed))
  then (Returns result, mkUserDb rows seed)
  else (Throws (DbError "constraint violation"), mkUserDb (tbl_users db) seed).

(** [insert(users).values(userData).onConflictDoUpdate({ target: users.id,
    set: { ...userData, updatedAt: new Date() } }).returning()]: a row
    with the proposed [id] is updated, else the proposed row is
    inserted. *)
Definition upsertUser (now : nat) (userData : UpsertUser) (db : UserDb)
    : Outcome User * UserDb :=
  let '(id, seed) :=
    match users.i_id userData with
    | Some id => (id, user_seed db)
    | None => (gen_random_uuid (user_seed db), S (user_seed db))
    end in
  let hit := Drizzle.eq users.id id in
  match head (List.filter hit (tbl_users db)) with
  | Some existing =>
      let values := spread_user_updatedAt userData now in
      commit_users (set_user values existing)
        ((λ r, if hit r then set_user values r else r) <$> tbl_users db) seed db
  | None =>
      let user :=
        users.mk id
          (default None (users.i_email userData))
          (default None (users.i_firstName userData))
          (default None (users.i_lastName userData))
          (default None (users.i_profileImageUrl userData))
          (default (Some now) (users.i_createdAt userData))
          (default (Some now) (users.i_updatedAt userData)) in
      commit_users user (tbl_users db ++ [user]) seed db
  end.

(** [app.get('/api/auth/user', isAuthenticated, ...)]; [None] is the
    [undefined] passed to [res.json] when the user has no row. *)
Definition GET_api_auth_user (userId : string) (db : UserDb)
    : Outcome (Reply (option User)) * UserDb :=
  match getUser userId db with
  | (Returns user, db') => (Returns (json user), db')
  | (Throws _, db') => (Returns (status_json 500 "Failed to fetch user"), db')
  end.

(** ** The analytics page: [exportData] *)

Section exportData.
(** How a timestamp reads in the JSON the page received. *)
Variable toJSON : nat → string.

(** [survey?.questions?.find(q => q.id === answer.questionId)] *)
Definition find_question (survey : option SurveyWithQuestions) (answer : Answer)
    : option Question :=
  survey ≫= λ survey,
    head (List.filter
            (λ q, bool_decide (questions.id q = answers.questionId answer))
            (questions_of survey)).

(** One element of [csvData]: the row of a response, its values strings
    or [null]. *)
Definition export_row (survey : option SurveyWithQuestions)
    (answers : list Answer) (response : Response) : JsObject.t (option string) :=
  foldl (λ row answer,
           if decide (answers.responseId answer = responses.id response) then
             match find_question survey answer with
             | Some question =>
                 JsObject.assign (questions.text question)
                   (Some (answers.value answer)) row
             | None => row
             end
           else row)
    [ ("responseId", Some (responses.id response));
      ("submittedAt", toJSON <$> responses.createdAt response) ]
    answers.

(** An element in [Array.prototype.join]: [null] reads as the empty
    string. *)
Definition cell (v : option string) : string := default "" v.

(** The text of the CSV file, [None] when nothing is downloaded. *)
Definition exportData (responseData : option ResponseData)
    (survey : option SurveyWithQuestions) : option string :=
  match responseData with
  | None => None
  | Some responseData =>
      let csvData :=
        export_row survey (rd_answers responseData)
        <$> rd_responses responseData in
      match csvData with
      | [] => None
      | first :: _ =>
          let headers := String.concat "," (JsObject.entries first).*1 in
          let csv :=
            String.concat (String "010"%char "")
              (headers ::
               ((λ row, String.concat "," (cell <$> (JsObject.entries row).*2))
                <$> csvData)) in
          Some csv
      end
  end.
End exportData.

(** ** Vocabulary of the statements, and sample data *)

(** The answers given to one question. *)
Definition answers_of (question : Question) (responseData : ResponseData)
    : list Answer :=
  List.filter (λ answer,
    bool_decide (answers.questionId answer = questions.id question))
    (rd_answers responseData).

(** How many of the answers carry the value [v]. *)
Definition count_value (v : string) (l : list Answer) : nat :=
  length (List.filter (λ answer, bool_decide (answers.value answer = v)) l).

(** Adding [n k] to the counter of every key [k]. *)
Definition add_counts (n : string → nat) (o : JsObject.t nat) : JsObject.t nat :=
  (λ kv, (kv.1, kv.2 + n kv.1)) <$> o.

(** Sample questions and answers. *)
Definition sample_answer (questionId value : string) : Answer :=
  answers.mk "a" "r" questionId value None.
Definition sample_choice (options : list string) : Question :=
  questions.mk "q" "s" "Pick one" "multiple-choice" false (Some options) 0 None.
Definition sample_rating : Question :=
  questions.mk "q" "s" "Rate us" "rating" true None 1 None.

(** The label of a bar for an option: the option itself when it has at
    most 20 characters, and else its first 20 characters followed by
    three dots. *)
Definition labelled (option name : string) : Prop :=
  if decide (String.length option ≤ 20) then name = option
  else ∃ shown rest,
         option = shown +:+ rest ∧ String.length shown = 20
         ∧ name = shown +:+ "...".

(** What the text of the specification promises for a multiple-choice
    question: one point per declared option, in declaration order. *)
Definition declared_order_chart (options : list string) (question : Question)
    (responseData : ResponseData) : Analytics :=
  Chart ((λ option,
            mkChartPoint (short_name option)
              (count_value option (answers_of question responseData))
              (Some option)) <$> options).

(** The ten rating buckets. *)
Definition rating_chart (question : Question) (responseData : ResponseData)
    : Analytics :=
  Chart ((λ i : nat,
            mkChartPoint (pretty i)
              (count_value (pretty i) (answers_of question responseData))
              None) <$> seq 1 10).

Definition sample_votes : ResponseData :=
  mkResponseData []
    [ sample_answer "q" "A"; sample_answer "q" "A"; sample_answer "q" "B";
      sample_answer "q" "C"; sample_answer "other" "A" ].

(** Identifiers still to be drawn occur nowhere in the store. *)
Definition uuid_fresh (db : Db) : Prop :=
  ∀ n, uuid_seed db ≤ n →
    gen_random_uuid n ∉
      survey_ids db ++ share_tokens db ++ question_ids db ++
      response_ids db ++ answer_ids db.

(** The questions of a survey, as stored. *)
Definition questions_in (surveyId : string) (db : Db) : list Question :=
  List.filter (Drizzle.eq questions.surveyId surveyId) (tbl_questions db).
Definition responses_in (surveyId : string) (db : Db) : list Response :=
  List.filter (Drizzle.eq responses.surveyId surveyId) (tbl_responses db).

(** A key that is no text of the database: it ends in the character
    U+0000. *)
Definition token_with_nul : string := "tok1" +:+ String "000"%char "".

Definition not_found_or_inactive {A} : Reply A :=
  status_json 404 "Survey not found or inactive".
Definition not_found {A} : Reply A := status_json 404 "Survey not found".

(** The reply for a key that no row carries: 404, unless the database
    refuses the key, which the route reports as its failure. *)
Definition absent_reply {A} (key message : string) : Reply A :=
  if pg_text key then status_json 404 "Survey not found"
  else status_json 500 message.

(** Forms the resolver rejects: one without title, and for the dialog,
    one without questions. *)
Definition form_without_title : SurveyForm :=
  mkSurveyForm "" None true false "draft" [].
Definition form_without_questions : SurveyForm :=
  mkSurveyForm "Lunch" None true false "draft" [].

(** Registered users: two with an e-mail address, one without. *)
Definition sample_users : UserDb :=
  mkUserDb
    [ users.mk "u" (Some "ann@example.org") (Some "Ann") None None (Some 1) (Some 1);
      users.mk "v" (Some "bob@example.org") None None None (Some 2) (Some 2);
      users.mk "w" None None None None (Some 3) (Some 3) ]
    0.

(** A store with two owners. *)
Definition survey_u1 : Survey :=
  surveys.mk "s1" "Lunch" None "u" "active" true false "tok1" (Some 1) (Some 1).
Definition survey_u2 : Survey :=
  surveys.mk "s2" "Dinner" None "u" "draft" true false "tok2" (Some 2) (Some 2).
Definition survey_v : Survey :=
  surveys.mk "s3" "Travel" None "v" "active" false false "tok3" (Some 3) (Some 3).
Definition question_q1 : Question :=
  questions.mk "q1" "s1" "Dish?" "multiple-choice" true (Some ["A"; "B"]) 0 (Some 1).
Definition question_q2 : Question :=
  questions.mk "q2" "s1" "Drink?" "text" false None 1 (Some 1).
Definition question_q3 : Question :=
  questions.mk "q3" "s3" "Where?" "text" false None 0 (Some 3).
Definition sample_db : Db :=
  mkDb
    [ survey_u1; survey_u2; survey_v ]
    [ question_q2; question_q1; question_q3 ]
    [ responses.mk "r1" "s1" None (Some 4);
      responses.mk "r2" "s1" (Some "bob") (Some 5);
      responses.mk "r3" "s1" None (Some 6);
      responses.mk "r4" "s2" None (Some 7);
      responses.mk "r5" "s2" None (Some 8);
      responses.mk "r6" "s3" None (Some 9) ]
    [ answers.mk "a1" "r1" "q1" "A" (Some 4);
      answers.mk "a2" "r2" "q1" "B" (Some 5);
      answers.mk "a3" "r2" "q2" "tea" (Some 5);
      answers.mk "a4" "r6" "q3" "Rome" (Some 9) ]
    0 sample_users.

(** The surveys a user owns. *)
Definition owned_by (userId : string) (db : Db) : list Survey :=
  List.filter (Drizzle.eq surveys.createdBy userId) (tbl_surveys db).

(** Merge semantics, column by column: a column present in the payload
    takes the payload's value, an absent one keeps its value. *)
Definition merges {A} (payload : option A) (previous updated : A) : Prop :=
  match payload with
  | Some v => updated = v
  | None => updated = previous
  end.

(** [updatedAt] is not merged: it is set to the time of the update. *)
Definition merged_survey (now : nat) (updates : InsertSurvey)
    (previous updated : Survey) : Prop :=
  merges (surveys.i_id updates) (surveys.id previous) (surveys.id updated)
  ∧ merges (surveys.i_title updates) (surveys.title previous) (surveys.title updated)
  ∧ merges (surveys.i_description updates)
      (surveys.description previous) (surveys.description updated)
  ∧ merges (surveys.i_createdBy updates)
      (surveys.createdBy previous) (surveys.createdBy updated)
  ∧ merges (surveys.i_status updates) (surveys.status previous) (surveys.status updated)
  ∧ merges (surveys.i_anonymous updates)
      (surveys.anonymous previous) (surveys.anonymous updated)
  ∧ merges (surveys.i_multipleResponses updates)
      (surveys.multipleResponses previous) (surveys.multipleResponses updated)
  ∧ merges (surveys.i_shareToken updates)
      (surveys.shareToken previous) (surveys.shareToken updated)
  ∧ merges (surveys.i_createdAt updates)
      (surveys.createdAt previous) (surveys.createdAt updated)
  ∧ surveys.updatedAt updated = Some now.

Definition merged_question (updates : InsertQuestion)
    (previous updated : Question) : Prop :=
  merges (questions.i_id updates) (questions.id previous) (questions.id updated)
  ∧ merges (questions.i_surveyId updates)
      (questions.surveyId previous) (questions.surveyId updated)
  ∧ merges (questions.i_text updates) (questions.text previous) (questions.text updated)
  ∧ merges (questions.i_type updates) (questions.type previous) (questions.type updated)
  ∧ merges (questions.i_required updates)
      (questions.required previous) (questions.required updated)
  ∧ merges (questions.i_options updates)
      (questions.options previous) (questions.options updated)
  ∧ merges (questions.i_order updates) (questions.order previous) (questions.order updated)
  ∧ merges (questions.i_createdAt updates)
      (questions.createdAt previous) (questions.createdAt updated).

(** The table after an update of the rows with key [id]. *)
Definition rows_updated {R} (key : R → string) (id : string)
    (merged : R → R → Prop) (before after : list R) : Prop :=
  Forall2 (λ r r', if decide (key r = id) then merged r r' else r' = r)
    before after.

Definition rename_question : InsertQuestion :=
  questions.mk_insert None None (Some "Main dish?") None None None None None.
Definition close_survey : InsertSurvey :=
  surveys.mk_insert None None None None (Some "closed") None None None None None.

(** Payloads the database refuses: an [order] of 2^31, and a creator
    without a row in [users]. *)
Definition order_beyond_int4 : InsertQuestion :=
  questions.mk_insert None None None None None None (Some 2147483648%Z) None.
Definition creator_ghost : InsertSurvey :=
  surveys.mk_insert None None None (Some "ghost") None None None None None None.
Definition title_with_nul : InsertSurvey :=
  surveys.mk_insert None (Some ("Lunch" +:+ String "000"%char "")) None None None
    None None None None None.

Definition all_ids (db : Db) : list string :=
  survey_ids db ++ share_tokens db ++ question_ids db ++
  response_ids db ++ answer_ids db.

(** The question and value of a well-formed element of [answers]. *)
Definition answer_fields (a : AnswerFields) : option (string * string) :=
  match f_questionId a, f_value a with
  | JString questionId, JString value => Some (questionId, value)
  | _, _ => None
  end.

(** The elements before the first malformed one. *)
Fixpoint parsed_prefix (l : list AnswerFields) : list (string * string) :=
  match l with
  | [] => []
  | a :: l' =>
      match answer_fields a with
      | Some qv => qv :: parsed_prefix l'
      | None => []
      end
  end.

Definition question_exists (db : Db) (qv : string * string) : bool :=
  bool_decide (qv.1 ∈ question_ids db).

(** An answer the database takes: its question exists, and its value is
    a text. *)
Definition answer_kept (db : Db) (qv : string * string) : bool :=
  question_exists db qv && pg_text qv.2.

(** What an answer row says, its key and creation time aside. *)
Definition answer_content (a : Answer) : string * string * string :=
  (answers.responseId a, answers.questionId a, answers.value a).

(** The callbacks of the route's [answers.map]. *)
Definition answer_callbacks (now : nat) (responseId : string)
    (l : list AnswerFields) : list (Outcome (M Answer)) :=
  (λ a, let? answerData := insertAnswerSchema_parse a responseId in
        Returns (createAnswer now answerData)) <$> l.

(** What the route stores as [respondentId]. *)
Definition stored_respondentId (respondentId : JsValue) : option string :=
  match respondentId with
  | JString s => if decide (s = "") then None else Some s
  | _ => None
  end.

(** A body whose [respondentId] passes the schema: a string or a falsy
    value. *)
Definition respondentId_accepted (respondentId : JsValue) : bool :=
  match respondentId with
  | JString _ => true
  | v => negb (truthy v)
  end.

Definition submitted : Reply string := json "Response submitted successfully".

(** The reply to a submission that got past the first insert. *)
Definition answers_reply (db : Db) (l : list AnswerFields) : Reply string :=
  if decide (length (parsed_prefix l) < length l)
  then status_json 400 "Invalid response data"
  else if forallb (answer_kept db) (parsed_prefix l)
  then submitted
  else status_json 500 "Failed to submit response".

Definition error_reply (e : Error) : Reply string :=
  match e with
  | ZodError => status_json 400 "Invalid response data"
  | _ => status_json 500 "Failed to submit response"
  end.

(** The response row the route inserts. *)
Definition new_response (now : nat) (survey : Survey) (body : ResponseBody)
    (db : Db) : Response :=
  responses.mk (gen_random_uuid (uuid_seed db)) (surveys.id survey)
    (stored_respondentId (b_respondentId body)) (Some now).

(** What the caller supplied as [respondentId], [None] when nothing was. *)
Definition supplied_respondentId (respondentId : JsValue) : option string :=
  match respondentId with
  | JString s => Some s
  | _ => None
  end.


Definition three_answers_second_dangling : ResponseBody :=
  mkResponseBody (JString "bob")
    (Some [ mkAnswerFields (JString "q1") (JString "A");
            mkAnswerFields (JString "gone") (JString "x");
            mkAnswerFields (JString "q2") (JString "tea") ]).

Definition one_answer_with_nul : ResponseBody :=
  mkResponseBody JUndefined
    (Some [ mkAnswerFields (JString "q1") (JString ("A" +:+ String "000"%char "")) ]).

(** The survey as the public page received it. *)
Definition fetched_s1 : SurveyWithQuestions :=
  mkSurveyWithQuestions survey_u1 [question_q1; question_q2].

(** The text, type and [required] flag of a well-formed element of
    [questions]. *)
Definition question_fields (q : QuestionFields)
    : option (string * string * option bool) :=
  match f_text q, f_type q, Zod.optional Zod.boolean (f_required q) with
  | JString text, JString type, Returns required => Some (text, type, required)
  | _, _, _ => None
  end.

(** The survey fields of a body pass the schema and hold texts the
    database takes. *)
Definition survey_storable (b : SurveyFields) : bool :=
  match insertSurveySchema_parse b with
  | Returns surveyData => pg_survey_values surveyData
  | Throws _ => false
  end.

(** A well-formed element whose text, type and options the database
    takes. *)
Definition question_storable (q : QuestionFields) : bool :=
  match question_fields q with
  | Some (text, type, _) =>
      pg_text text && pg_text type && pg_jsonb (default None (f_options q))
  | None => false
  end.

(** A list of elements the database takes: the positions are within
    [integer], too. *)
Definition questions_storable (l : list QuestionFields) : Prop :=
  Forall (λ q, question_storable q = true) l
  ∧ (Z.of_nat (length l) ≤ 2147483648)%Z.

(** The row stored for the element at position [index], under the
    identifier drawn at [seed]. *)
Definition new_question (now : nat) (surveyId : string) (seed index : nat)
    (q : QuestionFields) : Question :=
  match question_fields q with
  | Some (text, type, required) =>
      questions.mk (gen_random_uuid seed) surveyId text type
        (default false required) (default None (f_options q))
        (Z.of_nat index) (Some now)
  | None => questions.mk "" "" "" "" false None 0 None
  end.

Fixpoint new_questions (now : nat) (surveyId : string) (seed index : nat)
    (l : list QuestionFields) : list Question :=
  match l with
  | [] => []
  | q :: l' =>
      new_question now surveyId seed index q
      :: new_questions now surveyId (S seed) (S index) l'
  end.

(** The callbacks of the route's [questions.map]. *)
Definition question_callback (now : nat) (surveyId : string) (index : nat)
    (q : QuestionFields) : Outcome (M Question) :=
  let? questionData := insertQuestionSchema_parse q index in
  Returns (createQuestion now (spread_surveyId questionData surveyId)).

(** The [order] values of a survey's questions, in ascending order. *)
Definition survey_orders (surveyId : string) (db : Db) : list Z :=
  questions.order <$> Drizzle.orderBy questions.order (questions_in surveyId db).

(** Dense and zero-based: 0, 1, ..., N-1. *)
Definition dense (orders : list Z) : Prop :=
  orders = Z.of_nat <$> seq 0 (length orders).

Definition three_question_fields : list QuestionFields :=
  [ mkQuestionFields (JString "Dish?") (JString "multiple-choice")
      (JBool true) (Some (Some ["A"; "B"]));
    mkQuestionFields (JString "Drink?") (JString "text") JUndefined None;
    mkQuestionFields (JString "Stars?") (JString "rating") JUndefined None ].
Definition three_questions_second_nul : SurveyBody :=
  mkSurveyBody
    (mkSurveyFields (JString "Lunch") JUndefined JUndefined JUndefined JUndefined)
    (Some
       [ mkQuestionFields (JString "a") (JString "text") JUndefined None;
         mkQuestionFields (JString ("b" +:+ String "000"%char "")) (JString "text")
           JUndefined None;
         mkQuestionFields (JString "c") (JString "text") JUndefined None ]).
Definition three_questions : SurveyBody :=
  mkSurveyBody
    (mkSurveyFields (JString "Lunch") JUndefined JUndefined JUndefined JUndefined)
    (Some three_question_fields).

(** No survey yet. *)
Definition db0 : Db := mkDb [] [] [] [] 0 sample_users.

(** The well-formed elements before the first malformed one. *)
Fixpoint valid_questions (l : list QuestionFields) : list QuestionFields :=
  match l with
  | [] => []
  | q :: l' =>
      match question_fields q with
      | Some _ => q :: valid_questions l'
      | None => []
      end
  end.

(** Every survey has its questions numbered 0, 1, ..., N-1. *)
Definition orders_dense (db : Db) : Prop :=
  ∀ surveyId, dense (survey_orders surveyId db).

Record store_ok (db : Db) : Prop := mkStoreOk {
  ok_constraints : constraints db;
  ok_fresh : uuid_fresh db;
  ok_dense : orders_dense db }.

(** The requests served by [registerRoutes] that read or write surveys,
    questions, responses and answers. *)
Inductive Request :=
  | get_survey (userId id : string)
  | post_survey (now : nat) (userId : string) (body : SurveyBody)
  | put_survey (now : nat) (userId id : string) (body : SurveyFields)
  | delete_survey (userId id : string)
  | get_public_survey (shareToken : string)
  | post_public_response (now : nat) (shareToken : string) (body : ResponseBody)
  | get_stats (userId : string).

(** The questions sent with a new survey, up to the first malformed
    one, hold values the database takes. *)
Definition request_storable (request : Request) : Prop :=
  match request with
  | post_survey _ _ body =>
      questions_storable (valid_questions (default [] (b_questions body)))
  | _ => True
  end.

(** The store after a request has been served. *)
Definition serve (db : Db) (request : Request) : Db :=
  match request with
  | get_survey userId id => snd (GET_api_surveys_id userId id db)
  | post_survey now userId body => snd (POST_api_surveys now userId body db)
  | put_survey now userId id body => snd (PUT_api_surveys_id now userId id body db)
  | delete_survey userId id => snd (DELETE_api_surveys_id userId id db)
  | get_public_survey shareToken => snd (GET_api_public_surveys shareToken db)
  | post_public_response now shareToken body =>
      snd (POST_api_public_surveys_responses now shareToken body db)
  | get_stats userId => snd (GET_api_stats userId db)
  end.

Definition serve_all (db : Db) (requests : list Request) : Db :=
  foldl serve db requests.

(** The tables of two stores agree; the stores may differ in the
    identifiers still to be drawn. *)
Definition same_tables (db db' : Db) : Prop :=
  tbl_surveys db' = tbl_surveys db ∧ tbl_questions db' = tbl_questions db
  ∧ tbl_responses db' = tbl_responses db ∧ tbl_answers db' = tbl_answers db.

(** The form state after the respondent's inputs, the first one first; an
    input is a question and the value entered or chosen for it. *)
Definition form_after (inputs : list (string * string)) : JsObject.t string :=
  foldl (λ prev input, handleInputChange input.1 input.2 prev) [] inputs.

(** The last value entered for a question, if any. *)
Definition last_input (questionId : string) (inputs : list (string * string))
    : option string :=
  snd <$> last (List.filter (λ input, bool_decide (input.1 = questionId)) inputs).

(** A string made of white space only (the empty string is one). *)
Definition blank (s : string) : bool :=
  forallb is_white (String.list_ascii_of_string s).

(** The options a question of the form is saved with: a multiple-choice
    question loses its blank options, any other question keeps what it
    has. *)
Definition saved_options (question : QuestionForm) : option (list string) :=
  if decide (qf_type question = "multiple-choice")
  then List.filter (λ option, negb (blank option)) <$> qf_options question
  else qf_options question.

(** What a question row says, its keys and creation time aside. *)
Definition question_content (q : Question)
    : string * string * bool * option (list string) * Z :=
  (questions.text q, questions.type q, questions.required q,
   questions.options q, questions.order q).

(** What the form says about its questions, numbered by position. *)
Definition form_content (data : SurveyForm)
    : list (string * string * bool * option (list string) * Z) :=
  imap (λ index question,
          (qf_text question, qf_type question, qf_required question,
           saved_options question, Z.of_nat index))
    (sf_questions data).

(** The form holds texts the database takes: the survey's own fields,
    and the questions with their options; the positions of the questions
    are within [integer]. *)
Definition survey_fields_storable (data : SurveyForm) : bool :=
  pg_text (sf_title data) && pg_null pg_text (sf_description data)
  && pg_text (sf_status data).

Definition question_form_storable (question : QuestionForm) : bool :=
  pg_text (qf_text question) && pg_text (qf_type question)
  && pg_jsonb (qf_options question).

Definition form_storable (data : SurveyForm) : bool :=
  survey_fields_storable data
  && forallb question_form_storable (sf_questions data)
  && bool_decide (Z.of_nat (length (sf_questions data)) ≤ 2147483648)%Z.

Definition sample_form : SurveyForm :=
  mkSurveyForm "Lunch" (Some "Weekly") true false "draft"
    [ mkQuestionForm "Dish?" "multiple-choice" true (Some ["A"; " "; "B"; ""]) 7;
      mkQuestionForm "Drink?" "text" false (Some [""]) 7;
      mkQuestionForm "Stars?" "rating" false None 0 ].

(** A user whose first name holds the character U+0000. *)
Definition user_with_nul : UpsertUser :=
  users.mk_insert (Some "x") None (Some (Some ("Al" +:+ String "000"%char "")))
    None None None None.

(** The e-mail address of [userData], if it gives one, is held by no
    user other than [id]. *)
Definition email_available (userData : UpsertUser) (id : string) (db : UserDb)
    : Prop :=
  ∀ address other,
    users.i_email userData = Some (Some address) →
    other ∈ tbl_users db → users.email other = Some address →
    users.id other = id.

(** Whether the store has a user [id]. *)
Definition registered (id : string) (db : UserDb) : Prop :=
  id ∈ users.id <$> tbl_users db.

(** The answers of a response that the export files under a question
    text. *)
Definition exported_under (survey : option SurveyWithQuestions)
    (response : Response) (text : string) (answers : list Answer) : list Answer :=
  List.filter
    (λ answer,
       bool_decide (answers.responseId answer = responses.id response
                    ∧ questions.text <$> find_question survey answer = Some text))
    answers.

(** The columns every export row starts with. *)
Definition fixed_columns : list string := ["responseId"; "submittedAt"].

(** Timestamps as decimal numbers, for the examples. *)
Definition sample_toJSON (t : nat) : string := pretty t.

(** * Proofs *)

(** Closed decidable facts are settled by evaluation. *)
Ltac by_compute :=
  lazymatch goal with
  | |- ?P => apply (bool_decide_unpack P); vm_compute; exact I
  end.

(** * Aggregation on the analytics page *)

Section tally.
Implicit Types (o : JsObject.t nat) (l : list Answer) (k : string).

Lemma hasOwn_true k o : JsObject.hasOwn k o = true ↔ k ∈ o.*1.
Proof. unfold JsObject.hasOwn. by rewrite bool_decide_eq_true. Qed.

Lemma hasOwn_false k o : JsObject.hasOwn k o = false ↔ k ∉ o.*1.
Proof. unfold JsObject.hasOwn. by rewrite bool_decide_eq_false. Qed.

Lemma replace_increment k o :
  NoDup o.*1 →
  JsObject.replace k (S (default 0 (JsObject.getOwn k o))) o
  = add_counts (λ k', if decide (k' = k) then 1 else 0) o.
Proof.
  unfold add_counts. induction o as [|[k' v] o IH]; intros Hnd; [done|].
  apply NoDup_cons in Hnd as [Hk' Hnd]. simpl.
  destruct (decide (k' = k)) as [->|Hne]; simpl.
  - f_equal; [f_equal; lia|].
    rewrite <-(list_fmap_id o) at 1. apply list_fmap_ext.
    intros i [k'' v'] Hi. simpl. destruct (decide (k'' = k)) as [->|]; [|f_equal; lia].
    destruct Hk'. apply list_elem_of_fmap. exists (k, v').
    split; [done|]. by eapply list_elem_of_lookup_2.
  - f_equal; [f_equal; lia|]. by apply IH.
Qed.

Lemma add_counts_keys n o : (add_counts n o).*1 = o.*1.
Proof. unfold add_counts. rewrite <-list_fmap_compose. done. Qed.

Lemma add_counts_add n m o :
  add_counts m (add_counts n o) = add_counts (λ k, n k + m k) o.
Proof.
  unfold add_counts. rewrite <-list_fmap_compose. apply list_fmap_ext.
  intros i [k v] _. simpl. f_equal. lia.
Qed.

Lemma add_counts_ext_keys n m o :
  (∀ k, k ∈ o.*1 → n k = m k) → add_counts n o = add_counts m o.
Proof.
  intros H. apply list_fmap_ext. intros i [k v] Hi. simpl. f_equal. f_equal.
  apply H, list_elem_of_fmap. exists (k, v). split; [done|].
  by eapply list_elem_of_lookup_2.
Qed.

(** The loop over the answers adds, to each counter, the number of
    answers whose value is the counter's key. *)
Lemma tally_counts name o l :
  NoDup o.*1 → "hasOwnProperty" ∉ o.*1 → "__proto__" ∉ o.*1 →
  tally name o l = Returns (add_counts (λ k, count_value k l) o).
Proof.
  revert o. induction l as [|a l IH]; intros o Hnd Hh Hp.
  - simpl. f_equal. unfold add_counts. rewrite <-(list_fmap_id o) at 1.
    apply list_fmap_ext. intros i [k v] _. simpl. f_equal.
    unfold count_value. simpl. lia.
  - simpl. unfold JsObject.call_hasOwnProperty.
    rewrite (proj2 (hasOwn_false _ _) Hh). simpl.
    destruct (JsObject.hasOwn (answers.value a) o) eqn:Hown.
    + apply hasOwn_true in Hown.
      unfold JsObject.assign, JsObject.define.
      rewrite decide_False by (intros E; rewrite E in Hown; done).
      apply hasOwn_true in Hown as Hown'. rewrite Hown'.
      rewrite replace_increment by done.
      rewrite IH by (rewrite add_counts_keys; done).
      rewrite add_counts_add. f_equal. apply add_counts_ext_keys.
      intros k _. unfold count_value. simpl.
      destruct (decide (k = answers.value a)) as [->|Hne].
      * by rewrite bool_decide_eq_true_2.
      * by rewrite bool_decide_eq_false_2.
    + apply hasOwn_false in Hown. rewrite IH by done. f_equal.
      apply add_counts_ext_keys. intros k Hk. unfold count_value. simpl.
      rewrite bool_decide_eq_false_2; [done|].
      intros E. by rewrite E in Hown.
Qed.

(** Declaring fresh, ordinary keys appends them with a zero counter. *)
Lemma declare_counters (keys : list string) o :
  NoDup (o.*1 ++ keys) → "__proto__" ∉ keys →
  foldl (λ counts key, JsObject.assign key 0 counts) o keys
  = o ++ ((λ key, (key, 0)) <$> keys).
Proof.
  revert o. induction keys as [|key keys IH]; intros o Hnd Hp; simpl.
  - by rewrite app_nil_r.
  - apply not_elem_of_cons in Hp as [Hne Hp].
    unfold JsObject.assign at 2. rewrite decide_False by done.
    unfold JsObject.define.
    assert (key ∉ o.*1) as Hfresh.
    { apply NoDup_app in Hnd as (_ & Hd & _). intros Hin.
      apply (Hd _ Hin). by left. }
    apply hasOwn_false in Hfresh as ->.
    rewrite IH; [by rewrite <-app_assoc|..|done].
    rewrite fmap_app, <-app_assoc. done.
Qed.

(** Keys that are not array indices are enumerated in creation order. *)
Lemma entries_named o :
  Forall (λ k, JsObject.array_index k = None) o.*1 → JsObject.entries o = o.
Proof.
  intros H. unfold JsObject.entries.
  assert (JsObject.indexed o = []) as ->.
  { induction o as [|[k v] o IH]; [done|]. apply Forall_cons in H as [Hk H].
    unfold JsObject.indexed in *. simpl in *. rewrite Hk. simpl. by apply IH. }
  assert (JsObject.named o = o) as ->; [|done].
  induction o as [|[k v] o IH]; [done|]. apply Forall_cons in H as [Hk H].
  unfold JsObject.named in *. simpl in *. rewrite Hk. simpl. f_equal. by apply IH.
Qed.
End tally.

(** C5, as amended: for a multiple-choice question whose declared options
    are pairwise distinct, are not array-index strings and are neither
    [__proto__] nor [hasOwnProperty], the aggregation returns one point per
    declared option, in declaration order, counting the answers to that
    question whose value is the option; answers with any other value are
    counted nowhere and raise no error. *)
Theorem C5_multiple_choice_counts
    (responseData : ResponseData) (question : Question) (options : list string) :
  questions.type question = "multiple-choice" →
  questions.options question = Some options →
  NoDup options →
  Forall (λ option, JsObject.array_index option = None) options →
  "__proto__" ∉ options →
  "hasOwnProperty" ∉ options →
  getQuestionAnalytics (Some responseData) question
  = Returns (Some (declared_order_chart options question responseData)).
Proof.
  intros Htype Hopts Hnd Hidx Hproto Hhas.
  unfold getQuestionAnalytics, declared_order_chart.
  rewrite Htype, Hopts. rewrite decide_True by done. simpl default.
  rewrite declare_counters by done. simpl app.
  fold (answers_of question responseData).
  assert (((λ key : string, (key, 0)) <$> options).*1 = options) as Hkeys.
  { rewrite <-list_fmap_compose. apply list_fmap_id. }
  rewrite tally_counts by (rewrite Hkeys; done). simpl.
  rewrite entries_named by (rewrite add_counts_keys, Hkeys; done).
  unfold add_counts. rewrite <-!list_fmap_compose. done.
Qed.

(** The example of the specification: options A, B and answers A, A, B, C
    give A:2 and B:1. *)
Lemma C5_multiple_choice_counts_witness :
  getQuestionAnalytics (Some sample_votes) (sample_choice ["A"; "B"])
  = Returns (Some (Chart [ mkChartPoint "A" 2 (Some "A");
                           mkChartPoint "B" 1 (Some "B") ])).
Proof.
  apply (C5_multiple_choice_counts sample_votes (sample_choice ["A"; "B"])
           ["A"; "B"]).
  - reflexivity.
  - reflexivity.
  - by_compute.
  - by_compute.
  - by_compute.
  - by_compute.
Defined.

(** C5, as stated, fails on options that read as array indices: declared
    as 2, 1 they are reported as 1, 2. *)
Lemma C5_integer_options_reordered :
  let question := sample_choice ["2"; "1"] in
  let responseData := mkResponseData [] [sample_answer "q" "2"] in
  getQuestionAnalytics (Some responseData) question
  = Returns (Some (Chart [ mkChartPoint "1" 0 (Some "1");
                           mkChartPoint "2" 1 (Some "2") ]))
  ∧ getQuestionAnalytics (Some responseData) question
    ≠ Returns (Some (declared_order_chart ["2"; "1"] question responseData)).
Proof. split; [vm_compute; reflexivity | vm_compute; discriminate]. Qed.

(** Further departures from the declared list: a repeated option has one
    bucket, [__proto__] has none, and an option named [hasOwnProperty]
    makes the loop over the answers throw. *)
Lemma multiple_choice_special_options :
  getQuestionAnalytics (Some sample_votes) (sample_choice ["A"; "B"; "A"; "__proto__"])
  = Returns (Some (Chart [ mkChartPoint "A" 2 (Some "A");
                           mkChartPoint "B" 1 (Some "B") ]))
  ∧ getQuestionAnalytics (Some sample_votes) (sample_choice ["A"; "hasOwnProperty"])
    = Throws (TypeError "optionCounts.hasOwnProperty is not a function").
Proof. split; vm_compute; reflexivity. Qed.

Lemma entries_rating (c1 c2 c3 c4 c5 c6 c7 c8 c9 c10 : nat) :
  let ratingCounts :=
    [ ("1", c1); ("2", c2); ("3", c3); ("4", c4); ("5", c5);
      ("6", c6); ("7", c7); ("8", c8); ("9", c9); ("10", c10) ] in
  JsObject.entries ratingCounts = ratingCounts.
Proof. vm_compute. reflexivity. Qed.

(** C9: for a rating question the aggregation returns exactly the ten
    buckets 1 to 10, in that order, each with the number of answers to the
    question whose value is the bucket. *)
Theorem C9_rating_buckets (responseData : ResponseData) (question : Question) :
  questions.type question = "rating" →
  getQuestionAnalytics (Some responseData) question
  = Returns (Some (rating_chart question responseData)).
Proof.
  intros Htype. unfold getQuestionAnalytics, rating_chart.
  rewrite Htype. rewrite decide_False by done. rewrite decide_True by done.
  fold (answers_of question responseData).
  set (ratingCounts := foldl _ _ _).
  assert (ratingCounts =
    [ ("1", 0); ("2", 0); ("3", 0); ("4", 0); ("5", 0);
      ("6", 0); ("7", 0); ("8", 0); ("9", 0); ("10", 0) ]) as ->
    by (vm_compute; reflexivity).
  rewrite tally_counts; [|by_compute..].
  unfold add_counts. cbn [fmap list_fmap fst snd obind].
  rewrite entries_rating. reflexivity.
Qed.

(** With no responses at all the ten buckets are there, each at zero. *)
Lemma C9_rating_buckets_witness :
  getQuestionAnalytics (Some (mkResponseData [] [])) sample_rating
  = Returns (Some (Chart
      [ mkChartPoint "1" 0 None; mkChartPoint "2" 0 None; mkChartPoint "3" 0 None;
        mkChartPoint "4" 0 None; mkChartPoint "5" 0 None; mkChartPoint "6" 0 None;
        mkChartPoint "7" 0 None; mkChartPoint "8" 0 None; mkChartPoint "9" 0 None;
        mkChartPoint "10" 0 None ])).
Proof.
  apply (C9_rating_buckets (mkResponseData [] []) sample_rating).
  reflexivity.
Defined.

(** * The store *)

Global Instance gen_random_uuid_inj : Inj (=) (=) gen_random_uuid.
Proof.
  intros n m H. unfold gen_random_uuid in H.
  apply String.app_inj in H. by apply (inj pretty) in H.
Qed.

Section store.
Implicit Types (db : Db).

Lemma uuid_fresh_empty n users : uuid_fresh (mkDb [] [] [] [] n users).
Proof. intros m _ H. simpl in H. by apply elem_of_nil in H. Qed.

Lemma draw_uuid_run db :
  draw_uuid db
  = (Returns (gen_random_uuid (uuid_seed db)), with_seed (S (uuid_seed db)) db).
Proof. done. Qed.

Lemma constraints_with_seed n db : constraints db ↔ constraints (with_seed n db).
Proof. split; intros []; by constructor. Qed.

Lemma uuid_fresh_with_seed db :
  uuid_fresh db → uuid_fresh (with_seed (S (uuid_seed db)) db).
Proof. intros H n Hn. simpl in Hn. apply (H n). lia. Qed.

Lemma uuid_fresh_now db :
  uuid_fresh db →
  gen_random_uuid (uuid_seed db) ∉
    survey_ids db ++ share_tokens db ++ question_ids db ++
    response_ids db ++ answer_ids db.
Proof. intros H. by apply H. Qed.

Lemma pg_rows_spec db :
  pg_rows db = true
  ↔ forallb pg_survey (tbl_surveys db) = true
    ∧ forallb pg_question (tbl_questions db) = true
    ∧ forallb pg_response (tbl_responses db) = true
    ∧ forallb pg_answer (tbl_answers db) = true.
Proof. unfold pg_rows. rewrite !andb_true_iff. tauto. Qed.

Lemma forallb_snoc {R} (p : R → bool) (l : list R) (x : R) :
  forallb p (l ++ [x]) = true ↔ forallb p l = true ∧ p x = true.
Proof. rewrite forallb_app, andb_true_iff. simpl. by rewrite andb_true_r. Qed.

Lemma forallb_elem_of {R} (p : R → bool) (l : list R) (x : R) :
  forallb p l = true → x ∈ l → p x = true.
Proof.
  intros H Hx. apply list_elem_of_In in Hx.
  by apply (proj1 (forallb_forall p l) H).
Qed.

Lemma forallb_filter {R} (p keep : R → bool) (l : list R) :
  forallb p l = true → forallb p (List.filter keep l) = true.
Proof.
  intros H. apply forallb_forall. intros x Hx.
  apply List.filter_In in Hx as [Hx _]. by apply (proj1 (forallb_forall p l) H).
Qed.

(** The stored keys are texts the database takes. *)
Lemma stored_survey_text (s : Survey) db :
  constraints db → s ∈ tbl_surveys db →
  pg_text (surveys.id s) = true ∧ pg_text (surveys.shareToken s) = true.
Proof.
  intros Hc Hs. apply pg_values, pg_rows_spec in Hc as (Hpg & _).
  apply (forallb_elem_of _ _ _ Hpg) in Hs. unfold pg_survey in Hs.
  rewrite !andb_true_iff in Hs. tauto.
Qed.

Lemma stored_question_text (q : Question) db :
  constraints db → q ∈ tbl_questions db → pg_text (questions.id q) = true.
Proof.
  intros Hc Hq. apply pg_values, pg_rows_spec in Hc as (_ & Hpg & _).
  apply (forallb_elem_of _ _ _ Hpg) in Hq. unfold pg_question in Hq.
  rewrite !andb_true_iff in Hq. tauto.
Qed.

Lemma stored_response_text (r : Response) db :
  constraints db → r ∈ tbl_responses db → pg_text (responses.id r) = true.
Proof.
  intros Hc Hr. apply pg_values, pg_rows_spec in Hc as (_ & _ & Hpg & _).
  apply (forallb_elem_of _ _ _ Hpg) in Hr. unfold pg_response in Hr.
  rewrite !andb_true_iff in Hr. tauto.
Qed.

Lemma user_id_text x db : constraints db → x ∈ user_ids db → pg_text x = true.
Proof.
  intros Hc (u & -> & Hu)%list_elem_of_fmap.
  apply users_constraints, pg_users in Hc.
  apply (forallb_elem_of _ _ _ Hc) in Hu. unfold pg_user in Hu.
  rewrite !andb_true_iff in Hu. tauto.
Qed.

Lemma survey_id_text x db : constraints db → x ∈ survey_ids db → pg_text x = true.
Proof.
  intros Hc (s & -> & Hs)%list_elem_of_fmap. by apply (stored_survey_text s db).
Qed.

Lemma question_id_text x db : constraints db → x ∈ question_ids db → pg_text x = true.
Proof.
  intros Hc (q & -> & Hq)%list_elem_of_fmap. by apply (stored_question_text q db).
Qed.

Lemma response_id_text x db : constraints db → x ∈ response_ids db → pg_text x = true.
Proof.
  intros Hc (r & -> & Hr)%list_elem_of_fmap. by apply (stored_response_text r db).
Qed.

(** The identifiers drawn are texts. *)
Lemma pg_text_cons c s :
  pg_text (String c s) = negb (Ascii.eqb c "000"%char) && pg_text s.
Proof. reflexivity. Qed.

Lemma pg_text_pretty_N_go x s :
  pg_text s = true → pg_text (pretty_N_go x s) = true.
Proof.
  revert s. induction (N.lt_wf_0 x) as [x _ IH]; intros s Hs.
  assert (x = 0 ∨ 0 < x)%N as [->|?] by lia.
  - by rewrite pretty_N_go_0.
  - rewrite pretty_N_go_step by done. apply IH.
    { by apply N.div_lt. }
    rewrite pg_text_cons, Hs, andb_true_r.
    unfold pretty_N_char. by repeat case_match.
Qed.

Lemma pg_text_pretty (n : nat) : pg_text (pretty n) = true.
Proof.
  unfold pretty, pretty_nat, pretty, pretty_N.
  destruct (decide _); [done|]. by apply pg_text_pretty_N_go.
Qed.

Lemma pg_text_app s t : pg_text (s +:+ t) = pg_text s && pg_text t.
Proof.
  induction s as [|c s IH]; [done|].
  change (String c s +:+ t) with (String c (s +:+ t)).
  by rewrite !pg_text_cons, IH, andb_assoc.
Qed.

Lemma pg_text_uuid n : pg_text (gen_random_uuid n) = true.
Proof. unfold gen_random_uuid. by rewrite pg_text_app, pg_text_pretty. Qed.

(** Appending a row whose key is new, whose references exist and whose
    values are of the columns' types keeps the constraints. *)
Lemma constraints_add_survey (s : Survey) db :
  constraints db →
  surveys.id s ∉ survey_ids db →
  surveys.shareToken s ∉ share_tokens db →
  surveys.createdBy s ∈ user_ids db →
  pg_survey s = true →
  constraints (with_surveys (tbl_surveys db ++ [s]) db).
Proof.
  intros [? ? ? ? ? ? ? ? ? ? Hpg ?] Hid Htok Huser Hs.
  apply pg_rows_spec in Hpg as (? & ? & ? & ?).
  assert (∀ x, x ∈ survey_ids db → x ∈ (surveys.id <$> tbl_surveys db ++ [s])).
  { intros x Hx. rewrite fmap_app. apply elem_of_app. by left. }
  constructor; [..|by apply pg_rows_spec; split_and!; [apply forallb_snoc|..]|done];
    unfold survey_ids, share_tokens, user_ids in *; simpl; try done.
  - rewrite fmap_app. apply NoDup_app. split_and!; [done| |apply NoDup_singleton].
    intros x Hx Hx'. apply list_elem_of_singleton in Hx' as ->. done.
  - rewrite fmap_app. apply NoDup_app. split_and!; [done| |apply NoDup_singleton].
    intros x Hx Hx'. apply list_elem_of_singleton in Hx' as ->. done.
  - eapply Forall_impl; [done|]. simpl. auto.
  - eapply Forall_impl; [done|]. simpl. auto.
  - apply Forall_app. split; [done|]. by apply Forall_singleton.
Qed.

Lemma constraints_add_question (q : Question) db :
  constraints db →
  questions.id q ∉ question_ids db →
  questions.surveyId q ∈ survey_ids db →
  pg_question q = true →
  constraints (with_questions (tbl_questions db ++ [q]) db).
Proof.
  intros [? ? ? ? ? ? ? ? Haq ? Hpg ?] Hid Hfk Hq.
  apply pg_rows_spec in Hpg as (? & ? & ? & ?).
  constructor; [..|by apply pg_rows_spec; split_and!; [|apply forallb_snoc|..]|done];
    unfold survey_ids, share_tokens, question_ids, response_ids, answer_ids in *;
    simpl; try done.
  - rewrite fmap_app. apply NoDup_app. split_and!; [done| |apply NoDup_singleton].
    intros x Hx Hx'. apply list_elem_of_singleton in Hx' as ->. done.
  - apply Forall_app. split; [done|]. by apply Forall_singleton.
  - eapply Forall_impl; [exact Haq|]. simpl. intros a Ha.
    rewrite fmap_app. apply elem_of_app. by left.
Qed.

Lemma constraints_add_response (r : Response) db :
  constraints db →
  responses.id r ∉ response_ids db →
  responses.surveyId r ∈ survey_ids db →
  pg_response r = true →
  constraints (with_responses (tbl_responses db ++ [r]) db).
Proof.
  intros [? ? ? ? ? ? ? Har ? ? Hpg ?] Hid Hfk Hr.
  apply pg_rows_spec in Hpg as (? & ? & ? & ?).
  constructor; [..|by apply pg_rows_spec; split_and!; [| |apply forallb_snoc|]|done];
    unfold survey_ids, share_tokens, question_ids, response_ids, answer_ids in *;
    simpl; try done.
  - rewrite fmap_app. apply NoDup_app. split_and!; [done| |apply NoDup_singleton].
    intros x Hx Hx'. apply list_elem_of_singleton in Hx' as ->. done.
  - apply Forall_app. split; [done|]. by apply Forall_singleton.
  - eapply Forall_impl; [exact Har|]. simpl. intros a Ha.
    rewrite fmap_app. apply elem_of_app. by left.
Qed.

Lemma constraints_add_answer (a : Answer) db :
  constraints db →
  answers.id a ∉ answer_ids db →
  answers.responseId a ∈ response_ids db →
  answers.questionId a ∈ question_ids db →
  pg_answer a = true →
  constraints (with_answers (tbl_answers db ++ [a]) db).
Proof.
  intros [? ? ? ? ? ? ? ? ? ? Hpg ?] Hid Hr Hq Ha.
  apply pg_rows_spec in Hpg as (? & ? & ? & ?).
  constructor; [..|by apply pg_rows_spec; split_and!; [..|apply forallb_snoc]|done];
    unfold survey_ids, share_tokens, question_ids, response_ids, answer_ids in *;
    simpl; try done.
  - rewrite fmap_app. apply NoDup_app. split_and!; [done| |apply NoDup_singleton].
    intros x Hx Hx'. apply list_elem_of_singleton in Hx' as ->. done.
  - apply Forall_app. split; [done|]. by apply Forall_singleton.
  - apply Forall_app. split; [done|]. by apply Forall_singleton.
Qed.

(** An answer to a question that does not exist is refused. *)
Lemma constraints_answer_question (a : Answer) db :
  constraints (with_answers (tbl_answers db ++ [a]) db) →
  answers.questionId a ∈ question_ids db.
Proof.
  intros [_ _ _ _ _ _ _ _ H _ _ _]. simpl in H.
  apply Forall_app in H as [_ H]. by apply (proj1 (Forall_singleton _ _)) in H.
Qed.
End store.

(** * Queries *)

Section queries.
Context {R : Type}.
Implicit Types (p : R → bool) (l : list R).

Lemma elem_of_List_filter p l x : x ∈ List.filter p l ↔ x ∈ l ∧ p x = true.
Proof. rewrite !list_elem_of_In. apply List.filter_In. Qed.

Lemma head_filter_Some p l x :
  head (List.filter p l) = Some x → x ∈ l ∧ p x = true.
Proof.
  intros H. apply elem_of_List_filter.
  destruct (List.filter p l); simplify_eq/=. by left.
Qed.

Lemma head_filter_None p l :
  head (List.filter p l) = None → ∀ x, x ∈ l → p x = false.
Proof.
  intros H x Hx. destruct (p x) eqn:Hp; [|done].
  assert (x ∈ List.filter p l) as Hin by by apply elem_of_List_filter.
  destruct (List.filter p l); [by apply elem_of_nil in Hin|done].
Qed.

(** A lookup on a column without repetitions finds the row itself. *)
Lemma head_filter_unique `{EqDecision A} (col : R → A) l x :
  NoDup (col <$> l) → x ∈ l →
  head (List.filter (Drizzle.eq col (col x)) l) = Some x.
Proof.
  intros Hnd Hx. induction l as [|y l IH]; [by apply elem_of_nil in Hx|].
  simpl in Hnd. apply NoDup_cons in Hnd as [Hy Hnd]. simpl.
  unfold Drizzle.eq at 1. apply elem_of_cons in Hx as [->|Hx].
  - by rewrite bool_decide_eq_true_2.
  - rewrite bool_decide_eq_false_2; [by apply IH|].
    intros E. apply Hy. rewrite E. by apply list_elem_of_fmap_2.
Qed.

Lemma filter_unique `{EqDecision A} (col : R → A) l x :
  NoDup (col <$> l) → x ∈ l →
  List.filter (Drizzle.eq col (col x)) l = [x].
Proof.
  intros Hnd Hx. induction l as [|y l IH]; [by apply elem_of_nil in Hx|].
  simpl in Hnd. apply NoDup_cons in Hnd as [Hy Hnd]. simpl.
  unfold Drizzle.eq at 1.
  assert (∀ l', col x ∉ col <$> l' → List.filter (Drizzle.eq col (col x)) l' = [])
    as Hnone.
  { intros l' H. induction l' as [|z l' IH']; [done|]. simpl.
    apply not_elem_of_cons in H as [Hne H]. unfold Drizzle.eq at 1.
    rewrite bool_decide_eq_false_2 by done. by apply IH'. }
  destruct (decide (col y = col x)) as [E|Hne].
  - rewrite bool_decide_eq_true_2 by done.
    apply elem_of_cons in Hx as [->|Hx].
    + f_equal. by apply Hnone.
    + destruct Hy. rewrite E. by apply list_elem_of_fmap_2.
  - rewrite bool_decide_eq_false_2 by done.
    apply elem_of_cons in Hx as [->|Hx]; [done|]. by apply IH.
Qed.

(** Two rows agreeing on a column without repetitions are the same row. *)
Lemma NoDup_column_inj {A} (col : R → A) l x y :
  NoDup (col <$> l) → x ∈ l → y ∈ l → col x = col y → x = y.
Proof.
  intros Hnd Hx Hy E. induction l as [|z l IH]; [by apply elem_of_nil in Hx|].
  simpl in Hnd. apply NoDup_cons in Hnd as [Hz Hnd].
  apply elem_of_cons in Hx as [->|Hx]; apply elem_of_cons in Hy as [->|Hy].
  - done.
  - destruct Hz. rewrite E. by apply list_elem_of_fmap_2.
  - destruct Hz. rewrite <-E. by apply list_elem_of_fmap_2.
  - by apply IH.
Qed.

Global Instance key_le_total (key : R → Z) : Total (Drizzle.key_le key).
Proof. intros a b. unfold Drizzle.key_le. lia. Qed.

Global Instance key_le_trans (key : R → Z) : Transitive (Drizzle.key_le key).
Proof. intros a b c. unfold Drizzle.key_le. lia. Qed.

Lemma orderBy_Sorted (key : R → Z) l :
  Sorted (Drizzle.key_le key) (Drizzle.orderBy key l).
Proof. apply Sorted_merge_sort, _. Qed.

Lemma orderBy_Permutation (key : R → Z) l : Drizzle.orderBy key l ≡ₚ l.
Proof. apply merge_sort_Permutation. Qed.
End queries.

Lemma sample_db_constraints : constraints sample_db.
Proof. by_compute. Qed.

Lemma bind_params_ok db : bind_params true db = (Returns (), db).
Proof. reflexivity. Qed.

Lemma bind_params_refused db :
  bind_params false db = (Throws (DbError "invalid parameter value"), db).
Proof. reflexivity. Qed.

(** A lookup by key either finds a row carrying the key, or no row
    carries it; then the key is the parameter that decides. *)
Lemma by_text_key_cases {R} (col : R → string) key (l : list R) db :
  (∃ r, r ∈ l ∧ col r = key
     ∧ by_text_key key (head (List.filter (Drizzle.eq col key) l)) db
       = (Returns (Some r), db))
  ∨ ((∀ r, r ∈ l → col r ≠ key)
     ∧ by_text_key key (head (List.filter (Drizzle.eq col key) l)) db
       = if pg_text key then (Returns None, db)
         else (Throws (DbError "invalid parameter value"), db)).
Proof.
  destruct (head _) as [r|] eqn:Hhead.
  - left. exists r. apply head_filter_Some in Hhead as [Hin Hhit].
    apply bool_decide_eq_true in Hhit. done.
  - right. split.
    + intros r Hr E. apply (head_filter_None _ _ Hhead) in Hr.
      by apply bool_decide_eq_false in Hr.
    + unfold by_text_key, bind. by destruct (pg_text key).
Qed.

Lemma getSurvey_cases id db :
  (∃ survey, survey ∈ tbl_surveys db ∧ surveys.id survey = id
     ∧ getSurvey id db = (Returns (Some survey), db))
  ∨ ((∀ survey, survey ∈ tbl_surveys db → surveys.id survey ≠ id)
     ∧ getSurvey id db
       = if pg_text id then (Returns None, db)
         else (Throws (DbError "invalid parameter value"), db)).
Proof. apply (by_text_key_cases surveys.id). Qed.

Lemma getSurveyByShareToken_cases shareToken db :
  (∃ survey, survey ∈ tbl_surveys db ∧ surveys.shareToken survey = shareToken
     ∧ getSurveyByShareToken shareToken db = (Returns (Some survey), db))
  ∨ ((∀ survey, survey ∈ tbl_surveys db → surveys.shareToken survey ≠ shareToken)
     ∧ getSurveyByShareToken shareToken db
       = if pg_text shareToken then (Returns None, db)
         else (Throws (DbError "invalid parameter value"), db)).
Proof. apply (by_text_key_cases surveys.shareToken). Qed.

(** A stored key finds its row. *)
Lemma getSurvey_run (survey : Survey) db :
  NoDup (survey_ids db) → survey ∈ tbl_surveys db →
  getSurvey (surveys.id survey) db = (Returns (Some survey), db).
Proof.
  intros Hnd Hin. unfold getSurvey, bind, get_db. cbn [Drizzle.rows
    Drizzle.where_ Drizzle.from Drizzle.sel_where Drizzle.sel_from].
  by rewrite head_filter_unique.
Qed.

Lemma getSurveyByShareToken_run (survey : Survey) db :
  NoDup (share_tokens db) → survey ∈ tbl_surveys db →
  getSurveyByShareToken (surveys.shareToken survey) db
  = (Returns (Some survey), db).
Proof.
  intros Hnd Hin. unfold getSurveyByShareToken, bind, get_db. cbn [Drizzle.rows
    Drizzle.where_ Drizzle.from Drizzle.sel_where Drizzle.sel_from].
  by rewrite head_filter_unique.
Qed.

(** A key that no row carries. *)
Lemma getSurvey_absent id db :
  id ∉ survey_ids db →
  getSurvey id db
  = if pg_text id then (Returns None, db)
    else (Throws (DbError "invalid parameter value"), db).
Proof.
  intros Hid. destruct (getSurvey_cases id db) as [(s & Hs & <- & _)|[_ ->]]; [|done].
  destruct Hid. by apply list_elem_of_fmap_2.
Qed.

Lemma getSurveyByShareToken_absent shareToken db :
  shareToken ∉ share_tokens db →
  getSurveyByShareToken shareToken db
  = if pg_text shareToken then (Returns None, db)
    else (Throws (DbError "invalid parameter value"), db).
Proof.
  intros Hid.
  destruct (getSurveyByShareToken_cases shareToken db) as [(s & Hs & <- & _)|[_ ->]];
    [|done].
  destruct Hid. by apply list_elem_of_fmap_2.
Qed.

Lemma getQuestionsBySurvey_run surveyId db :
  getQuestionsBySurvey surveyId db
  = (Returns (Drizzle.orderBy questions.order (questions_in surveyId db)), db).
Proof. reflexivity. Qed.

(** * Public access by share token *)

(** C6, as amended: with share tokens unique, the public fetch returns the
    survey carrying the token when that survey is active, together with
    its questions in ascending [order]; it answers 404 when the survey
    with that token is not active, and when no survey carries the token
    and the token is a text the database takes.  A token that holds the
    character U+0000 is refused by the database, and the fetch answers
    500. *)
Theorem C6_public_fetch (shareToken : string) (db : Db) :
  NoDup (share_tokens db) →
  (∀ survey, survey ∈ tbl_surveys db →
     surveys.shareToken survey = shareToken →
     surveys.status survey = "active" →
     ∃ questions,
       GET_api_public_surveys shareToken db
       = (Returns (json (mkSurveyWithQuestions survey questions)), db)
       ∧ Sorted (λ a b, (questions.order a ≤ questions.order b)%Z) questions
       ∧ questions ≡ₚ questions_in (surveys.id survey) db)
  ∧ (∀ survey, survey ∈ tbl_surveys db →
       surveys.shareToken survey = shareToken →
       surveys.status survey ≠ "active" →
       GET_api_public_surveys shareToken db = (Returns not_found_or_inactive, db))
  ∧ ((∀ survey, survey ∈ tbl_surveys db →
        surveys.shareToken survey ≠ shareToken) →
     GET_api_public_surveys shareToken db
     = (Returns (if pg_text shareToken then not_found_or_inactive
                 else status_json 500 "Failed to fetch survey"), db)).
Proof.
  intros Hnd.
  unfold GET_api_public_surveys, try_catch, bind.
  split_and!.
  - intros survey Hin <- Hact.
    rewrite getSurveyByShareToken_run by done.
    rewrite bool_decide_eq_true_2 by done. cbn [negb].
    rewrite getQuestionsBySurvey_run.
    eexists. split_and!; [reflexivity|apply orderBy_Sorted|apply orderBy_Permutation].
  - intros survey Hin <- Hact.
    rewrite getSurveyByShareToken_run by done.
    by rewrite bool_decide_eq_false_2.
  - intros Hnone.
    destruct (getSurveyByShareToken_cases shareToken db)
      as [(survey & Hin & Htok & _)|[_ ->]]; [by destruct (Hnone survey)|].
    by destruct (pg_text shareToken).
Qed.

Lemma C6_public_fetch_witness :
  NoDup (share_tokens sample_db)
  ∧ (∃ questions,
       GET_api_public_surveys "tok1" sample_db
       = (Returns (json (mkSurveyWithQuestions survey_u1 questions)), sample_db)
       ∧ Sorted (λ a b, (questions.order a ≤ questions.order b)%Z) questions
       ∧ questions ≡ₚ questions_in "s1" sample_db)
  ∧ GET_api_public_surveys "tok2" sample_db = (Returns not_found_or_inactive, sample_db)
  ∧ GET_api_public_surveys "nope" sample_db = (Returns not_found_or_inactive, sample_db).
Proof.
  assert (NoDup (share_tokens sample_db)) as Hnd by by_compute.
  destruct (C6_public_fetch "tok1" sample_db Hnd) as (H1 & _ & _).
  destruct (C6_public_fetch "tok2" sample_db Hnd) as (_ & H2 & _).
  destruct (C6_public_fetch "nope" sample_db Hnd) as (_ & _ & H3).
  split_and!.
  - exact Hnd.
  - apply (H1 survey_u1); [by_compute|reflexivity|reflexivity].
  - apply (H2 survey_u2); [by_compute|reflexivity|discriminate].
  - apply H3. intros survey Hin.
    repeat (apply elem_of_cons in Hin as [->|Hin]; [discriminate|]).
    by apply elem_of_nil in Hin.
Defined.

(** C6, as stated, fails for a token that is no text of the database: no
    survey carries it, and the fetch fails with a server error instead of
    NotFound. *)
Lemma C6_token_refused_by_database :
  (token_with_nul ∉ share_tokens sample_db)
  ∧ GET_api_public_surveys token_with_nul sample_db
    = (Returns (status_json 500 "Failed to fetch survey"), sample_db)
  ∧ GET_api_public_surveys token_with_nul sample_db
    ≠ (Returns not_found_or_inactive, sample_db).
Proof. split_and!; [by_compute|vm_compute; reflexivity|vm_compute; discriminate]. Qed.

Example public_fetch_sample :
  fst (GET_api_public_surveys "tok1" sample_db)
  = Returns (json (mkSurveyWithQuestions survey_u1
      [ question_q1; question_q2 ])).
Proof. vm_compute. reflexivity. Qed.

(** * Deleting a survey *)

Section cascade.
Implicit Types (db : Db) (id : string).

Lemma gone_survey_ids id db x :
  x ∈ surveys.id <$> List.filter (Drizzle.eq surveys.id id) (tbl_surveys db)
  ↔ x = id ∧ id ∈ survey_ids db.
Proof.
  unfold survey_ids. rewrite !list_elem_of_fmap. split.
  - intros (s & -> & Hs). apply elem_of_List_filter in Hs as [Hs Hid].
    apply bool_decide_eq_true in Hid. split; [done|]. exists s. by rewrite Hid.
  - intros (-> & s & -> & Hs). exists s. split; [done|].
    apply elem_of_List_filter. split; [done|]. by apply bool_decide_eq_true.
Qed.

Lemma deleteSurvey_run id db :
  deleteSurvey id db = (Returns (), cascade_surveys (Drizzle.eq surveys.id id) db).
Proof. reflexivity. Qed.

Lemma cascade_surveys_surveys id db s :
  s ∈ tbl_surveys (cascade_surveys (Drizzle.eq surveys.id id) db)
  ↔ s ∈ tbl_surveys db ∧ surveys.id s ≠ id.
Proof.
  simpl. rewrite elem_of_List_filter. unfold Drizzle.eq.
  rewrite negb_true_iff, bool_decide_eq_false. done.
Qed.

Lemma cascade_surveys_questions id db q :
  id ∈ survey_ids db →
  q ∈ tbl_questions (cascade_surveys (Drizzle.eq surveys.id id) db)
  ↔ q ∈ tbl_questions db ∧ questions.surveyId q ≠ id.
Proof.
  intros Hid. simpl. rewrite elem_of_List_filter.
  rewrite negb_true_iff, bool_decide_eq_false, gone_survey_ids. naive_solver.
Qed.

Lemma cascade_surveys_responses id db r :
  id ∈ survey_ids db →
  r ∈ tbl_responses (cascade_surveys (Drizzle.eq surveys.id id) db)
  ↔ r ∈ tbl_responses db ∧ responses.surveyId r ≠ id.
Proof.
  intros Hid. simpl. rewrite elem_of_List_filter.
  rewrite negb_true_iff, bool_decide_eq_false, gone_survey_ids. naive_solver.
Qed.

Lemma cascade_surveys_answers id db a :
  id ∈ survey_ids db →
  a ∈ tbl_answers (cascade_surveys (Drizzle.eq surveys.id id) db)
  ↔ a ∈ tbl_answers db
    ∧ (answers.questionId a ∉ (questions.id <$> questions_in id db))
    ∧ (answers.responseId a ∉ (responses.id <$> responses_in id db)).
Proof.
  intros Hid. simpl. rewrite elem_of_List_filter.
  rewrite negb_true_iff, orb_false_iff, !bool_decide_eq_false.
  assert (∀ x, x ∈ questions.id <$> List.filter (λ q,
              bool_decide (questions.surveyId q ∈ surveys.id <$>
                List.filter (Drizzle.eq surveys.id id) (tbl_surveys db)))
              (tbl_questions db)
            ↔ x ∈ questions.id <$> questions_in id db) as Hq.
  { intros x. unfold questions_in. rewrite !list_elem_of_fmap.
    setoid_rewrite elem_of_List_filter. unfold Drizzle.eq.
    setoid_rewrite bool_decide_eq_true. setoid_rewrite gone_survey_ids.
    naive_solver. }
  assert (∀ x, x ∈ responses.id <$> List.filter (λ r,
              bool_decide (responses.surveyId r ∈ surveys.id <$>
                List.filter (Drizzle.eq surveys.id id) (tbl_surveys db)))
              (tbl_responses db)
            ↔ x ∈ responses.id <$> responses_in id db) as Hr.
  { intros x. unfold responses_in. rewrite !list_elem_of_fmap.
    setoid_rewrite elem_of_List_filter. unfold Drizzle.eq.
    setoid_rewrite bool_decide_eq_true. setoid_rewrite gone_survey_ids.
    naive_solver. }
  rewrite Hq, Hr. done.
Qed.
End cascade.

(** C7: deleting a survey through the owner's route removes the survey,
    its questions, its responses and every answer to one of those
    questions or within one of those responses, and leaves the rows of the
    other surveys in place; afterwards the fetch by its id answers 404 for
    every caller and so does the public fetch by its former share token. *)
Theorem C7_delete_survey_cascades (survey : Survey) (db : Db) :
  constraints db →
  survey ∈ tbl_surveys db →
  ∃ db',
    DELETE_api_surveys_id (surveys.createdBy survey) (surveys.id survey) db
    = (Returns (status_send 204), db')
    ∧ (∀ s, s ∈ tbl_surveys db' ↔ s ∈ tbl_surveys db ∧ s ≠ survey)
    ∧ (∀ q, q ∈ tbl_questions db' ↔
         q ∈ tbl_questions db ∧ questions.surveyId q ≠ surveys.id survey)
    ∧ (∀ r, r ∈ tbl_responses db' ↔
         r ∈ tbl_responses db ∧ responses.surveyId r ≠ surveys.id survey)
    ∧ (∀ a, a ∈ tbl_answers db' ↔
         a ∈ tbl_answers db
         ∧ (answers.questionId a ∉ (questions.id <$> questions_in (surveys.id survey) db))
         ∧ (answers.responseId a ∉ (responses.id <$> responses_in (surveys.id survey) db)))
    ∧ (∀ userId,
         GET_api_surveys_id userId (surveys.id survey) db' = (Returns not_found, db'))
    ∧ GET_api_public_surveys (surveys.shareToken survey) db'
      = (Returns not_found_or_inactive, db').
Proof.
  intros Hc Hin.
  assert (surveys.id survey ∈ survey_ids db) as Hid
    by by apply list_elem_of_fmap_2.
  exists (cascade_surveys (Drizzle.eq surveys.id (surveys.id survey)) db).
  split_and!.
  - unfold DELETE_api_surveys_id, try_catch, bind.
    rewrite getSurvey_run by (done || apply Hc).
    rewrite bool_decide_eq_true_2 by done. cbn [negb].
    by rewrite deleteSurvey_run.
  - intros s. rewrite cascade_surveys_surveys. split; intros [Hs Hne].
    + split; [done|]. by intros ->.
    + split; [done|]. intros E. apply Hne.
      destruct Hc as [Hpk _ _ _ _ _ _ _ _ _ _ _].
      by eapply (NoDup_column_inj surveys.id).
  - intros q. by apply cascade_surveys_questions.
  - intros r. by apply cascade_surveys_responses.
  - intros a. by apply cascade_surveys_answers.
  - intros userId. unfold GET_api_surveys_id, try_catch, bind.
    destruct (getSurvey_cases (surveys.id survey)
                (cascade_surveys (Drizzle.eq surveys.id (surveys.id survey)) db))
      as [(s & Hs & Hhit & _)|[_ ->]].
    + by apply cascade_surveys_surveys in Hs as [_ Hne].
    + by rewrite (proj1 (stored_survey_text survey db Hc Hin)).
  - unfold GET_api_public_surveys, try_catch, bind.
    destruct (getSurveyByShareToken_cases (surveys.shareToken survey)
                (cascade_surveys (Drizzle.eq surveys.id (surveys.id survey)) db))
      as [(s & Hs & Hhit & _)|[_ ->]].
    + apply cascade_surveys_surveys in Hs as [Hs Hne]. destruct Hne.
      destruct Hc as [_ _ _ _ Htok _ _ _ _ _ _ _].
      f_equal. by eapply (NoDup_column_inj surveys.shareToken).
    + by rewrite (proj2 (stored_survey_text survey db Hc Hin)).
Qed.

Lemma C7_delete_survey_cascades_witness :
  let survey := survey_u1 in
  let db := sample_db in
  constraints db
  ∧ survey ∈ tbl_surveys db
  ∧ ∃ db',
      DELETE_api_surveys_id (surveys.createdBy survey) (surveys.id survey) db
      = (Returns (status_send 204), db')
      ∧ (∀ s, s ∈ tbl_surveys db' ↔ s ∈ tbl_surveys db ∧ s ≠ survey)
      ∧ (∀ q, q ∈ tbl_questions db' ↔
           q ∈ tbl_questions db ∧ questions.surveyId q ≠ surveys.id survey)
      ∧ (∀ r, r ∈ tbl_responses db' ↔
           r ∈ tbl_responses db ∧ responses.surveyId r ≠ surveys.id survey)
      ∧ (∀ a, a ∈ tbl_answers db' ↔
           a ∈ tbl_answers db
           ∧ (answers.questionId a ∉ (questions.id <$> questions_in (surveys.id survey) db))
           ∧ (answers.responseId a ∉ (responses.id <$> responses_in (surveys.id survey) db)))
      ∧ (∀ userId,
           GET_api_surveys_id userId (surveys.id survey) db' = (Returns not_found, db'))
      ∧ GET_api_public_surveys (surveys.shareToken survey) db'
        = (Returns not_found_or_inactive, db').
Proof.
  intros survey db.
  assert (constraints db) as Hc by by_compute.
  assert (survey ∈ tbl_surveys db) as Hin by by_compute.
  split_and!; [exact Hc|exact Hin|].
  exact (C7_delete_survey_cascades survey db Hc Hin).
Defined.

(** On the sample store: the first survey goes with its two questions,
    three responses and three answers. *)
Example delete_sample :
  snd (DELETE_api_surveys_id "u" "s1" sample_db)
  = mkDb
      [ survey_u2; survey_v ]
      [ question_q3 ]
      [ responses.mk "r4" "s2" None (Some 7);
        responses.mk "r5" "s2" None (Some 8);
        responses.mk "r6" "s3" None (Some 9) ]
      [ answers.mk "a4" "r6" "q3" "Rome" (Some 9) ]
      0 sample_users.
Proof. vm_compute. reflexivity. Qed.

(** * Owner statistics *)

Section stats.
Implicit Types (db : Db) (userId : string).

Lemma filter_absent_id (x : string) (l : list Survey) :
  x ∉ surveys.id <$> l →
  List.filter (λ s, bool_decide (x = surveys.id s)) l = [].
Proof.
  induction l as [|s l IH]; [done|]. simpl. intros H.
  apply not_elem_of_cons in H as [Hne H].
  rewrite bool_decide_eq_false_2 by done. by apply IH.
Qed.

(** With [id] a key, a response is joined with at most one survey. *)
Lemma join_one_response userId (r : Response) (l : list Survey) :
  NoDup (surveys.id <$> l) →
  length (List.filter (Drizzle.eq (surveys.createdBy ∘ snd) userId)
            ((λ s, (r, s)) <$>
             List.filter (λ s, bool_decide (responses.surveyId r = surveys.id s)) l))
  = if bool_decide (responses.surveyId r ∈
         surveys.id <$> List.filter (Drizzle.eq surveys.createdBy userId) l)
    then 1 else 0.
Proof.
  unfold Drizzle.eq. induction l as [|s l IH]; intros Hnd; [done|].
  simpl in Hnd. apply NoDup_cons in Hnd as [Hs Hnd]. specialize (IH Hnd).
  simpl in IH |- *.
  destruct (decide (responses.surveyId r = surveys.id s)) as [E|Hne].
  - rewrite (bool_decide_eq_true_2 _ E). rewrite E in *.
    rewrite filter_absent_id by done. simpl.
    destruct (decide (surveys.createdBy s = userId)) as [Ho|Ho].
    + rewrite !(bool_decide_eq_true_2 _ Ho). simpl.
      rewrite bool_decide_eq_true_2; [done|]. by left.
    + rewrite !(bool_decide_eq_false_2 _ Ho). simpl.
      rewrite bool_decide_eq_false_2; [done|].
      intros Hin. apply Hs. apply list_elem_of_fmap in Hin as (s' & -> & Hin).
      apply elem_of_List_filter in Hin as [Hin _]. by apply list_elem_of_fmap_2.
  - rewrite (bool_decide_eq_false_2 _ Hne). rewrite IH.
    destruct (bool_decide (surveys.createdBy s = userId)); [|done].
    simpl. destruct (decide (responses.surveyId r ∈
        surveys.id <$> List.filter
          (λ s, bool_decide (surveys.createdBy s = userId)) l)) as [Hin|Hin].
    + rewrite !bool_decide_eq_true_2; [done|by right|done].
    + rewrite !bool_decide_eq_false_2; [done| |done].
      by intros [?|?]%elem_of_cons.
Qed.

Lemma join_count userId (rs : list Response) (l : list Survey) :
  NoDup (surveys.id <$> l) →
  length (List.filter (Drizzle.eq (surveys.createdBy ∘ snd) userId)
            (r ← rs;
             (λ s, (r, s)) <$>
             List.filter (λ s, bool_decide (responses.surveyId r = surveys.id s)) l))
  = length (List.filter (λ r, bool_decide (responses.surveyId r ∈
              surveys.id <$> List.filter (Drizzle.eq surveys.createdBy userId) l))
              rs).
Proof.
  intros Hnd. induction rs as [|r rs IH]; [done|].
  change ((r :: rs) ≫= ?f) with (f r ++ (rs ≫= f)).
  rewrite List.filter_app, length_app, IH, join_one_response by done.
  simpl. by destruct (bool_decide _).
Qed.

(** What [getSurveyStats] computes: the surveys of the caller, the
    responses to them, and, since the second [where] replaces the first,
    the active surveys of every owner. *)
Lemma getSurveyStats_run userId db :
  NoDup (survey_ids db) →
  getSurveyStats userId db
  = (Returns (mkStats
       (length (owned_by userId db))
       (length (List.filter (λ r, bool_decide
          (responses.surveyId r ∈ surveys.id <$> owned_by userId db))
          (tbl_responses db)))
       (length (List.filter (Drizzle.eq surveys.status "active") (tbl_surveys db)))
       "78.5"), db).
Proof.
  intros Hnd. unfold getSurveyStats, reads. do 3 f_equal.
  by apply join_count.
Qed.
End stats.

(** C3, at a store where another user owns an active survey: the caller
    "u" owns two surveys, one active and one draft, with five responses
    across both, and is told of two active surveys. *)
Theorem C3_stats_count_active_surveys_of_all_owners :
  owned_by "u" sample_db = [survey_u1; survey_u2]
  ∧ GET_api_stats "u" sample_db
    = (Returns (json (mkStats 2 5 2 "78.5")), sample_db).
Proof. split; vm_compute; reflexivity. Qed.

(** Without surveys of other owners the three counts are the specified
    ones. *)
Example stats_single_owner :
  fst (GET_api_stats "u" (cascade_surveys (Drizzle.eq surveys.id "s3") sample_db))
  = Returns (json (mkStats 2 5 1 "78.5")).
Proof. vm_compute. reflexivity. Qed.

(** * Partial updates *)

Section updates.
Implicit Types (db : Db) (id : string).

Lemma merges_default {A} (payload : option A) (previous : A) :
  merges payload previous (default previous payload).
Proof. by destruct payload. Qed.

Lemma set_survey_merged now updates previous :
  merged_survey now updates previous
    (set_survey (spread_updatedAt updates now) previous).
Proof. repeat split; try apply merges_default. Qed.

Lemma set_question_merged updates previous :
  merged_question updates previous (set_question updates previous).
Proof. repeat split; apply merges_default. Qed.

Lemma rows_updated_fmap {R} (key : R → string) id (merged : R → R → Prop)
    (f : R → R) (l : list R) :
  (∀ r, merged r (f r)) →
  rows_updated key id merged l
    ((λ r, if Drizzle.eq key id r then f r else r) <$> l).
Proof.
  intros Hf. unfold rows_updated, Drizzle.eq.
  induction l as [|r l IH]; simpl; constructor; [|done].
  destruct (decide (key r = id)) as [E|E].
  - by rewrite bool_decide_eq_true_2.
  - by rewrite bool_decide_eq_false_2.
Qed.

Lemma updateSurvey_run now id updates db :
  let values := spread_updatedAt updates now in
  let db' := with_surveys
    ((λ r, if Drizzle.eq surveys.id id r then set_survey values r else r)
       <$> tbl_surveys db) db in
  updateSurvey now id updates db
  = if pg_text id && pg_survey_values updates
    then if decide (constraints db')
         then (Returns (head (set_survey values <$>
                          List.filter (Drizzle.eq surveys.id id) (tbl_surveys db))), db')
         else (Throws (DbError "constraint violation"), db)
    else (Throws (DbError "invalid parameter value"), db).
Proof.
  simpl. unfold updateSurvey, bind, get_db, commit, ret.
  change (pg_survey_values (spread_updatedAt updates now))
    with (pg_survey_values updates).
  destruct (pg_text id && pg_survey_values updates); [|done].
  simpl. by destruct (decide _).
Qed.

Lemma updateQuestion_run id updates db :
  no_values updates = false →
  let db' := with_questions
    ((λ r, if Drizzle.eq questions.id id r then set_question updates r else r)
       <$> tbl_questions db) db in
  updateQuestion id updates db
  = if pg_text id && pg_question_values updates
    then if decide (constraints db')
         then (Returns (head (set_question updates <$>
                          List.filter (Drizzle.eq questions.id id) (tbl_questions db))), db')
         else (Throws (DbError "constraint violation"), db)
    else (Throws (DbError "invalid parameter value"), db).
Proof.
  intros Hv. simpl. unfold updateQuestion, bind, get_db, commit, ret.
  rewrite Hv. destruct (pg_text id && pg_question_values updates); [|done].
  simpl. by destruct (decide _).
Qed.

Lemma head_fmap_filter_Some {R} (f : R → R) p (l : list R) y :
  head (f <$> List.filter p l) = Some y →
  ∃ x, x ∈ l ∧ p x = true ∧ y = f x.
Proof.
  intros H. destruct (List.filter p l) as [|x l'] eqn:E; simplify_eq/=.
  exists x. assert (x ∈ List.filter p l) as Hx by (rewrite E; by left).
  apply elem_of_List_filter in Hx as [??]. done.
Qed.

(** Whenever [updateSurvey] returns a row, the row is the merge of the
    payload into a stored row with the given id, stamped with the time
    of the update, and the table holds the merged rows. *)
Lemma updateSurvey_merges now id updates db updated db' :
  updateSurvey now id updates db = (Returns (Some updated), db') →
  (∃ previous, previous ∈ tbl_surveys db ∧ surveys.id previous = id
     ∧ merged_survey now updates previous updated)
  ∧ rows_updated surveys.id id (merged_survey now updates)
      (tbl_surveys db) (tbl_surveys db')
  ∧ tbl_questions db' = tbl_questions db
  ∧ tbl_responses db' = tbl_responses db
  ∧ tbl_answers db' = tbl_answers db.
Proof.
  rewrite updateSurvey_run. cbv zeta.
  destruct (pg_text id && pg_survey_values updates); [|done].
  destruct (decide _); [|done].
  intros [= Hhead <-]. split_and!; try done.
  - apply head_fmap_filter_Some in Hhead as (previous & Hin & Hhit & ->).
    exists previous. split_and!; [done| |apply set_survey_merged].
    by apply bool_decide_eq_true in Hhit.
  - apply rows_updated_fmap. intros r. apply set_survey_merged.
Qed.

Lemma updateQuestion_merges id updates db updated db' :
  updateQuestion id updates db = (Returns (Some updated), db') →
  (∃ previous, previous ∈ tbl_questions db ∧ questions.id previous = id
     ∧ merged_question updates previous updated)
  ∧ rows_updated questions.id id (merged_question updates)
      (tbl_questions db) (tbl_questions db')
  ∧ tbl_surveys db' = tbl_surveys db
  ∧ tbl_responses db' = tbl_responses db
  ∧ tbl_answers db' = tbl_answers db.
Proof.
  destruct (no_values updates) eqn:Hv.
  { unfold updateQuestion. by rewrite Hv. }
  rewrite updateQuestion_run by done. cbv zeta.
  destruct (pg_text id && pg_question_values updates); [|done].
  destruct (decide _); [|done].
  intros [= Hhead <-]. split_and!; try done.
  - apply head_fmap_filter_Some in Hhead as (previous & Hin & Hhit & ->).
    exists previous. split_and!; [done| |apply set_question_merged].
    by apply bool_decide_eq_true in Hhit.
  - apply rows_updated_fmap. intros r. apply set_question_merged.
Qed.
End updates.

Section updates_succeed.
Implicit Types (db : Db).

Lemma fmap_conditional_column {R A} (col : R → A) (hit : R → bool)
    (f : R → R) (l : list R) :
  (∀ r, col (f r) = col r) →
  col <$> ((λ r, if hit r then f r else r) <$> l) = col <$> l.
Proof.
  intros Hf. rewrite <-list_fmap_compose. apply list_fmap_ext.
  intros i r _. simpl. by destruct (hit r).
Qed.

Lemma pg_null_default {A} (p : A → bool) (previous : A) (given : option A) :
  p previous = true → pg_null p given = true →
  p (default previous given) = true.
Proof. by destruct given. Qed.

Lemma pg_survey_set values (r : Survey) :
  pg_survey_values values = true → pg_survey r = true →
  pg_survey (set_survey values r) = true.
Proof.
  unfold pg_survey_values, pg_survey. rewrite !andb_true_iff.
  intros (((((?&?)&?)&?)&?)&?) (((((?&?)&?)&?)&?)&?).
  cbn [set_survey surveys.id surveys.title surveys.description surveys.createdBy
       surveys.status surveys.shareToken].
  split_and!; by apply pg_null_default.
Qed.

Lemma pg_question_set values (r : Question) :
  pg_question_values values = true → pg_question r = true →
  pg_question (set_question values r) = true.
Proof.
  unfold pg_question_values, pg_question. rewrite !andb_true_iff.
  intros (((((?&?)&?)&?)&?)&?) (((((?&?)&?)&?)&?)&?).
  cbn [set_question questions.id questions.surveyId questions.text questions.type
       questions.options questions.order].
  split_and!; by apply pg_null_default.
Qed.

Lemma forallb_conditional {R} (p hit : R → bool) (f : R → R) (l : list R) :
  (∀ r, p r = true → p (f r) = true) →
  forallb p l = true →
  forallb p ((λ r, if hit r then f r else r) <$> l) = true.
Proof.
  intros Hf H. induction l as [|r l IH]; [done|]. csimpl.
  apply andb_true_iff in H as [Hr H]. apply andb_true_iff. split; [|by apply IH].
  destruct (hit r); auto.
Qed.

(** An update that leaves the keys alone, sets values of the columns'
    types and names no creator who is not a user meets the constraints. *)
Lemma updateSurvey_constraints (hit : Survey → bool) values db :
  surveys.i_id values = None → surveys.i_shareToken values = None →
  pg_survey_values values = true →
  (∀ userId, surveys.i_createdBy values = Some userId → userId ∈ user_ids db) →
  constraints db →
  constraints (with_surveys
    ((λ r, if hit r then set_survey values r else r) <$> tbl_surveys db) db).
Proof.
  intros Hid Htok Hv Huser [? ? ? ? ? ? ? ? ? Hfk Hpg ?].
  apply pg_rows_spec in Hpg as (? & ? & ? & ?).
  assert (∀ r, surveys.id (set_survey values r) = surveys.id r) as Hkey1
    by (intros r; simpl; by rewrite Hid).
  assert (∀ r, surveys.shareToken (set_survey values r) = surveys.shareToken r) as Hkey2
    by (intros r; simpl; by rewrite Htok).
  constructor; unfold survey_ids, share_tokens, question_ids, response_ids,
    answer_ids in *; simpl; rewrite ?fmap_conditional_column by done; try done.
  - apply Forall_fmap. eapply Forall_impl; [exact Hfk|].
    intros r Hr. simpl. destruct (hit r); [|done]. simpl.
    destruct (surveys.i_createdBy values); [by apply Huser|done].
  - apply pg_rows_spec. split_and!; try done. simpl.
    apply forallb_conditional; [|done]. intros r. by apply pg_survey_set.
Qed.

Lemma updateQuestion_constraints (hit : Question → bool) values db :
  questions.i_id values = None → questions.i_surveyId values = None →
  pg_question_values values = true →
  constraints db →
  constraints (with_questions
    ((λ r, if hit r then set_question values r else r) <$> tbl_questions db) db).
Proof.
  intros Hid Hsid Hv [? ? ? ? ? Hfk ? ? ? ? Hpg ?].
  apply pg_rows_spec in Hpg as (? & ? & ? & ?).
  assert (∀ r, questions.id (set_question values r) = questions.id r) as Hkey1
    by (intros r; simpl; by rewrite Hid).
  constructor; unfold survey_ids, share_tokens, question_ids, response_ids,
    answer_ids in *; simpl; rewrite ?fmap_conditional_column by done; try done.
  - apply Forall_fmap. eapply Forall_impl; [exact Hfk|].
    intros r Hr. simpl. destruct (hit r); [|done]. simpl. by rewrite Hsid.
  - apply pg_rows_spec. split_and!; try done. simpl.
    apply forallb_conditional; [|done]. intros r. by apply pg_question_set.
Qed.

End updates_succeed.

(** C8, as amended: [updateSurvey] and [updateQuestion] merge the payload
    into the stored row (a column absent from the payload keeps its value)
    and return the merged row; [updateSurvey] also sets [updatedAt] to the
    time of the update.  Stated for payloads that leave the keys alone,
    hold values of the columns' types and name no creator who is not a
    user (and, for a question, name at least one column), on which both
    succeed.  A payload with a value that is not of its column's type is
    refused, whatever row is addressed, and so is a creator who is not a
    user; the store stays as it was. *)
Theorem C8_updates_merge (now : nat) (db : Db) :
  constraints db →
  (∀ survey updates,
     survey ∈ tbl_surveys db →
     surveys.i_id updates = None → surveys.i_shareToken updates = None →
     pg_survey_values updates = true →
     (∀ userId, surveys.i_createdBy updates = Some userId → userId ∈ user_ids db) →
     ∃ updated db',
       updateSurvey now (surveys.id survey) updates db = (Returns (Some updated), db')
       ∧ merged_survey now updates survey updated
       ∧ rows_updated surveys.id (surveys.id survey) (merged_survey now updates)
           (tbl_surveys db) (tbl_surveys db')
       ∧ tbl_questions db' = tbl_questions db
       ∧ tbl_responses db' = tbl_responses db
       ∧ tbl_answers db' = tbl_answers db)
  ∧ (∀ question updates,
       question ∈ tbl_questions db →
       questions.i_id updates = None → questions.i_surveyId updates = None →
       no_values updates = false →
       pg_question_values updates = true →
       ∃ updated db',
         updateQuestion (questions.id question) updates db
         = (Returns (Some updated), db')
         ∧ merged_question updates question updated
         ∧ questions.timestamps updated
           = [default (questions.createdAt question) (questions.i_createdAt updates)]
         ∧ rows_updated questions.id (questions.id question) (merged_question updates)
             (tbl_questions db) (tbl_questions db')
         ∧ tbl_surveys db' = tbl_surveys db
         ∧ tbl_responses db' = tbl_responses db
         ∧ tbl_answers db' = tbl_answers db)
  ∧ (∀ id updates,
       pg_survey_values updates = false →
       ∃ e, updateSurvey now id updates db = (Throws e, db))
  ∧ (∀ id updates,
       pg_question_values updates = false →
       ∃ e, updateQuestion id updates db = (Throws e, db))
  ∧ (∀ survey updates userId,
       survey ∈ tbl_surveys db →
       surveys.i_createdBy updates = Some userId → userId ∉ user_ids db →
       ∃ e, updateSurvey now (surveys.id survey) updates db = (Throws e, db)).
Proof.
  intros Hc. split_and!.
  - intros survey updates Hin Hid Htok Hv Huser.
    pose proof (updateSurvey_run now (surveys.id survey) updates db) as Hrun.
    cbv zeta in Hrun.
    rewrite (proj1 (stored_survey_text survey db Hc Hin)), Hv in Hrun.
    cbn [andb] in Hrun.
    rewrite decide_True in Hrun by by apply updateSurvey_constraints.
    rewrite filter_unique in Hrun by (done || apply Hc).
    simpl head in Hrun. do 2 eexists. split; [exact Hrun|].
    split; [apply set_survey_merged|].
    eapply updateSurvey_merges. exact Hrun.
  - intros question updates Hin Hid Hsid Hv Hpg.
    pose proof (updateQuestion_run (questions.id question) updates db Hv) as Hrun.
    cbv zeta in Hrun.
    rewrite (stored_question_text question db Hc Hin), Hpg in Hrun.
    cbn [andb] in Hrun.
    rewrite decide_True in Hrun by by apply updateQuestion_constraints.
    rewrite filter_unique in Hrun by (done || apply Hc).
    simpl head in Hrun. do 2 eexists. split; [exact Hrun|].
    split; [apply set_question_merged|]. split; [done|].
    eapply updateQuestion_merges. exact Hrun.
  - intros id updates Hv. rewrite updateSurvey_run. cbv zeta.
    rewrite Hv, andb_false_r. by eexists.
  - intros id updates Hv. destruct (no_values updates) eqn:Hno.
    + unfold updateQuestion. rewrite Hno. by eexists.
    + rewrite updateQuestion_run by done. cbv zeta.
      rewrite Hv, andb_false_r. by eexists.
  - intros survey updates userId Hin Hby Huser. rewrite updateSurvey_run.
    cbv zeta. destruct (_ && _); [|by eexists].
    rewrite decide_False; [by eexists|]. intros Hc'.
    apply fk_survey_user in Hc'. cbn [tbl_surveys with_surveys] in Hc'.
    apply Forall_fmap in Hc'.
    apply (proj1 (Forall_forall _ _) Hc') in Hin. cbn in Hin.
    unfold Drizzle.eq in Hin. rewrite bool_decide_eq_true_2 in Hin by done.
    cbn in Hin. rewrite Hby in Hin. done.
Qed.

Lemma C8_updates_merge_witness :
  constraints sample_db
  ∧ (∃ updated db',
       updateSurvey 50 "s1" close_survey sample_db = (Returns (Some updated), db')
       ∧ merged_survey 50 close_survey survey_u1 updated)
  ∧ (∃ updated db',
       updateQuestion "q1" rename_question sample_db = (Returns (Some updated), db')
       ∧ questions.text updated = "Main dish?"
       ∧ questions.timestamps updated = [Some 1])
  ∧ (∃ e, updateQuestion "nope" order_beyond_int4 sample_db = (Throws e, sample_db))
  ∧ (∃ e, updateSurvey 50 "s1" creator_ghost sample_db = (Throws e, sample_db)).
Proof.
  assert (constraints sample_db) as Hc by by_compute.
  destruct (C8_updates_merge 50 sample_db Hc) as (Hs & Hq & _ & Hq' & Hs').
  split_and!; [exact Hc| | | |].
  - destruct (Hs survey_u1 close_survey ltac:(by_compute) eq_refl eq_refl eq_refl)
      as (updated & db' & Hrun & Hm & _); [intros userId; discriminate|].
    by exists updated, db'.
  - destruct (Hq question_q1 rename_question ltac:(by_compute)
                eq_refl eq_refl eq_refl eq_refl)
      as (updated & db' & Hrun & Hm & Ht & _).
    exists updated, db'. split_and!; [exact Hrun| |exact Ht].
    by destruct Hm as (_ & _ & Htext & _).
  - apply (Hq' "nope" order_beyond_int4). reflexivity.
  - apply (Hs' survey_u1 creator_ghost "ghost"); [by_compute|reflexivity|by_compute].
Defined.

(** C8, as stated, fails for questions: the table has no [updatedAt]
    column and an update leaves the only timestamp of the row, its
    creation time, as it was. *)
Lemma C8_question_update_refreshes_no_timestamp :
  ∃ updated db',
    question_q1 ∈ tbl_questions sample_db
    ∧ updateQuestion "q1" rename_question sample_db = (Returns (Some updated), db')
    ∧ questions.text updated ≠ questions.text question_q1
    ∧ questions.timestamps updated = questions.timestamps question_q1
    ∧ questions.timestamps question_q1 = [Some 1].
Proof.
  do 2 eexists. split_and!.
  - by_compute.
  - vm_compute. reflexivity.
  - discriminate.
  - reflexivity.
  - reflexivity.
Qed.

Example update_sample :
  fst (updateSurvey 50 "s1" close_survey sample_db)
  = Returns (Some (surveys.mk "s1" "Lunch" None "u" "closed" true false "tok1"
                     (Some 1) (Some 50)))
  ∧ fst (updateQuestion "q1" questions.empty sample_db)
    = Throws (DbError "No values to set").
Proof. split; vm_compute; reflexivity. Qed.

(** * Inserting rows *)

Section inserts.
Implicit Types (db : Db) (now : nat).

Lemma uuid_fresh_extend db db' :
  uuid_fresh db →
  uuid_seed db ≤ uuid_seed db' →
  (∀ x, x ∈ all_ids db' →
     x ∈ all_ids db ∨ ∃ m, m < uuid_seed db' ∧ x = gen_random_uuid m) →
  uuid_fresh db'.
Proof.
  intros Hf Hle Hids n Hn Hin. apply Hids in Hin as [Hin|(m & Hm & E)].
  - apply (Hf n); [lia|done].
  - apply (inj gen_random_uuid) in E. lia.
Qed.

Lemma createResponse_run now surveyId respondentId db :
  let response :=
    responses.mk (gen_random_uuid (uuid_seed db)) surveyId
      (default None respondentId) (Some now) in
  let db1 := with_seed (S (uuid_seed db)) db in
  let db2 := with_responses (tbl_responses db ++ [response]) db1 in
  createResponse now
    (responses.mk_insert None (Some surveyId) respondentId None) db
  = if decide (constraints db2) then (Returns response, db2)
    else (Throws (DbError "constraint violation"), db1).
Proof.
  simpl. unfold createResponse, bind, default_uuid, draw_uuid, not_null,
    get_db, commit, ret. simpl. by destruct (decide _).
Qed.

Lemma createAnswer_run now responseId questionId value db :
  let answer :=
    answers.mk (gen_random_uuid (uuid_seed db)) responseId questionId value
      (Some now) in
  let db1 := with_seed (S (uuid_seed db)) db in
  let db2 := with_answers (tbl_answers db ++ [answer]) db1 in
  createAnswer now
    (answers.mk_insert None (Some responseId) (Some questionId) (Some value) None)
    db
  = if decide (constraints db2) then (Returns answer, db2)
    else (Throws (DbError "constraint violation"), db1).
Proof.
  simpl. unfold createAnswer, bind, default_uuid, draw_uuid, not_null,
    get_db, commit, ret. simpl. by destruct (decide _).
Qed.

Lemma createQuestion_run now surveyId text type required options order db :
  let question :=
    questions.mk (gen_random_uuid (uuid_seed db)) surveyId text type
      (default false required) (default None options) order (Some now) in
  let db1 := with_seed (S (uuid_seed db)) db in
  let db2 := with_questions (tbl_questions db ++ [question]) db1 in
  createQuestion now
    (questions.mk_insert None (Some surveyId) (Some text) (Some type)
       required options (Some order) None) db
  = if decide (constraints db2) then (Returns question, db2)
    else (Throws (DbError "constraint violation"), db1).
Proof.
  simpl. unfold createQuestion, bind, default_uuid, draw_uuid, not_null,
    get_db, commit, ret. simpl. by destruct (decide _).
Qed.

Lemma createSurvey_run now title description createdBy status anonymous
    multipleResponses db :
  let survey :=
    surveys.mk (gen_random_uuid (uuid_seed db)) title
      (default None description) createdBy (default "draft" status)
      (default true anonymous) (default false multipleResponses)
      (gen_random_uuid (S (uuid_seed db))) (Some now) (Some now) in
  let db1 := with_seed (S (S (uuid_seed db))) db in
  let db2 := with_surveys (tbl_surveys db ++ [survey]) db1 in
  createSurvey now
    (surveys.mk_insert None (Some title) description (Some createdBy) status
       anonymous multipleResponses None None None) db
  = if decide (constraints db2) then (Returns survey, db2)
    else (Throws (DbError "constraint violation"), db1).
Proof.
  simpl. unfold createSurvey, bind, default_uuid, draw_uuid, not_null,
    get_db, commit, ret. simpl. by destruct (decide _).
Qed.

Lemma elem_of_all_ids x db :
  x ∈ all_ids db ↔
  x ∈ survey_ids db ∨ x ∈ share_tokens db ∨ x ∈ question_ids db ∨
  x ∈ response_ids db ∨ x ∈ answer_ids db.
Proof. unfold all_ids. by rewrite !elem_of_app. Qed.

Lemma fresh_now_not_in db (f : Db → list string) :
  uuid_fresh db → (∀ x, x ∈ f db → x ∈ all_ids db) →
  gen_random_uuid (uuid_seed db) ∉ f db.
Proof. intros Hf Hsub Hin. by apply (Hf (uuid_seed db)), Hsub. Qed.

(** The store after a response was added under a drawn identifier. *)
Lemma add_response_invariants now surveyId respondentId db :
  let response :=
    responses.mk (gen_random_uuid (uuid_seed db)) surveyId respondentId (Some now) in
  let db2 := with_responses (tbl_responses db ++ [response])
               (with_seed (S (uuid_seed db)) db) in
  constraints db → uuid_fresh db → surveyId ∈ survey_ids db →
  pg_null pg_text respondentId = true →
  constraints db2 ∧ uuid_fresh db2.
Proof.
  intros response db2 Hc Hf Hs Hpg. split.
  - apply (constraints_add_response response (with_seed _ db)).
    + by apply constraints_with_seed.
    + apply (fresh_now_not_in db response_ids); [done|].
      intros x Hx. apply elem_of_all_ids. auto.
    + done.
    + unfold pg_response. rewrite !andb_true_iff.
      split_and!; [apply pg_text_uuid|by apply (survey_id_text surveyId db)|done].
  - apply (uuid_fresh_extend db); [done|simpl; lia|].
    intros x Hx. apply elem_of_all_ids in Hx.
    unfold response_ids in Hx. simpl in Hx. rewrite fmap_app, elem_of_app in Hx.
    rewrite elem_of_all_ids.
    destruct Hx as [?|[?|[?|[[?|Hx]|?]]]]; auto 10.
    apply list_elem_of_singleton in Hx. right. exists (uuid_seed db).
    split; [simpl; lia|done].
Qed.

Lemma add_answer_invariants now responseId questionId value db :
  let answer :=
    answers.mk (gen_random_uuid (uuid_seed db)) responseId questionId value
      (Some now) in
  let db2 := with_answers (tbl_answers db ++ [answer])
               (with_seed (S (uuid_seed db)) db) in
  constraints db → uuid_fresh db →
  responseId ∈ response_ids db → questionId ∈ question_ids db →
  pg_text value = true →
  constraints db2 ∧ uuid_fresh db2.
Proof.
  intros answer db2 Hc Hf Hr Hq Hpg. split.
  - apply (constraints_add_answer answer (with_seed _ db)).
    + by apply constraints_with_seed.
    + apply (fresh_now_not_in db answer_ids); [done|].
      intros x Hx. apply elem_of_all_ids. auto 10.
    + done.
    + done.
    + unfold pg_answer. rewrite !andb_true_iff.
      split_and!; [apply pg_text_uuid|by apply (response_id_text responseId db)
                  |by apply (question_id_text questionId db)|done].
  - apply (uuid_fresh_extend db); [done|simpl; lia|].
    intros x Hx. apply elem_of_all_ids in Hx.
    unfold answer_ids in Hx. simpl in Hx. rewrite fmap_app, elem_of_app in Hx.
    rewrite elem_of_all_ids.
    destruct Hx as [?|[?|[?|[?|[?|Hx]]]]]; auto 10.
    apply list_elem_of_singleton in Hx. right. exists (uuid_seed db).
    split; [simpl; lia|done].
Qed.

Lemma add_question_invariants now surveyId text type required options order db :
  let question :=
    questions.mk (gen_random_uuid (uuid_seed db)) surveyId text type
      required options order (Some now) in
  let db2 := with_questions (tbl_questions db ++ [question])
               (with_seed (S (uuid_seed db)) db) in
  constraints db → uuid_fresh db → surveyId ∈ survey_ids db →
  pg_text text && pg_text type && pg_jsonb options && pg_int4 order = true →
  constraints db2 ∧ uuid_fresh db2.
Proof.
  intros question db2 Hc Hf Hs Hpg. split.
  - apply (constraints_add_question question (with_seed _ db)).
    + by apply constraints_with_seed.
    + apply (fresh_now_not_in db question_ids); [done|].
      intros x Hx. apply elem_of_all_ids. auto 10.
    + done.
    + unfold pg_question. rewrite !andb_true_iff in Hpg. rewrite !andb_true_iff.
      destruct Hpg as [[[? ?] ?] ?].
      split_and!; [apply pg_text_uuid|by apply (survey_id_text surveyId db)|done..].
  - apply (uuid_fresh_extend db); [done|simpl; lia|].
    intros x Hx. apply elem_of_all_ids in Hx.
    unfold question_ids in Hx. simpl in Hx. rewrite fmap_app, elem_of_app in Hx.
    rewrite elem_of_all_ids.
    destruct Hx as [?|[?|[[?|Hx]|[?|?]]]]; auto 10.
    apply list_elem_of_singleton in Hx. right. exists (uuid_seed db).
    split; [simpl; lia|done].
Qed.

Lemma add_survey_invariants (survey : Survey) db :
  let db2 := with_surveys (tbl_surveys db ++ [survey])
               (with_seed (S (S (uuid_seed db))) db) in
  surveys.id survey = gen_random_uuid (uuid_seed db) →
  surveys.shareToken survey = gen_random_uuid (S (uuid_seed db)) →
  constraints db → uuid_fresh db →
  surveys.createdBy survey ∈ user_ids db → pg_survey survey = true →
  constraints db2 ∧ uuid_fresh db2.
Proof.
  intros db2 Hid Htok Hc Hf Huser Hpg. split.
  - apply (constraints_add_survey survey (with_seed _ db)).
    + by apply constraints_with_seed.
    + rewrite Hid. apply (fresh_now_not_in db survey_ids); [done|].
      intros x Hx. apply elem_of_all_ids. auto 10.
    + rewrite Htok. intros Hin. apply (Hf (S (uuid_seed db))); [lia|].
      apply elem_of_all_ids. auto.
    + done.
    + done.
  - apply (uuid_fresh_extend db); [done|simpl; lia|].
    intros x Hx. apply elem_of_all_ids in Hx.
    unfold survey_ids, share_tokens in Hx. simpl in Hx.
    rewrite !fmap_app, !elem_of_app in Hx.
    rewrite elem_of_all_ids.
    destruct Hx as [[?|Hx]|[[?|Hx]|[?|[?|?]]]]; auto 10;
      apply list_elem_of_singleton in Hx; right.
    + exists (uuid_seed db). split; [simpl; lia|congruence].
    + exists (S (uuid_seed db)). split; [simpl; lia|congruence].
Qed.

(** Fresh identifiers stay fresh, whether or not the row is taken. *)
Lemma add_response_fresh now surveyId respondentId db :
  let response :=
    responses.mk (gen_random_uuid (uuid_seed db)) surveyId respondentId (Some now) in
  uuid_fresh db →
  uuid_fresh (with_responses (tbl_responses db ++ [response])
                (with_seed (S (uuid_seed db)) db)).
Proof.
  intros response Hf. apply (uuid_fresh_extend db); [done|simpl; lia|].
  intros x Hx. apply elem_of_all_ids in Hx.
  unfold response_ids in Hx. simpl in Hx. rewrite fmap_app, elem_of_app in Hx.
  rewrite elem_of_all_ids.
  destruct Hx as [?|[?|[?|[[?|Hx]|?]]]]; auto 10.
  apply list_elem_of_singleton in Hx. right. exists (uuid_seed db).
  split; [simpl; lia|done].
Qed.

Lemma add_survey_fresh (survey : Survey) db :
  surveys.id survey = gen_random_uuid (uuid_seed db) →
  surveys.shareToken survey = gen_random_uuid (S (uuid_seed db)) →
  uuid_fresh db →
  uuid_fresh (with_surveys (tbl_surveys db ++ [survey])
                (with_seed (S (S (uuid_seed db))) db)).
Proof.
  intros Hid Htok Hf. apply (uuid_fresh_extend db); [done|simpl; lia|].
  intros x Hx. apply elem_of_all_ids in Hx.
  unfold survey_ids, share_tokens in Hx. simpl in Hx.
  rewrite !fmap_app, !elem_of_app in Hx.
  rewrite elem_of_all_ids.
  destruct Hx as [[?|Hx]|[[?|Hx]|[?|[?|?]]]]; auto 10;
    apply list_elem_of_singleton in Hx; right.
  - exists (uuid_seed db). split; [simpl; lia|congruence].
  - exists (S (uuid_seed db)). split; [simpl; lia|congruence].
Qed.

(** A row that is not of the columns' types is refused. *)
Lemma constraints_answer_text (a : Answer) db :
  constraints (with_answers (tbl_answers db ++ [a]) db) → pg_answer a = true.
Proof.
  intros Hc. apply pg_values, pg_rows_spec in Hc as (_ & _ & _ & Hpg).
  cbn [tbl_answers with_answers] in Hpg. by apply forallb_snoc in Hpg as [_ ?].
Qed.

Lemma constraints_question_text (q : Question) db :
  constraints (with_questions (tbl_questions db ++ [q]) db) → pg_question q = true.
Proof.
  intros Hc. apply pg_values, pg_rows_spec in Hc as (_ & Hpg & _).
  cbn [tbl_questions with_questions] in Hpg. by apply forallb_snoc in Hpg as [_ ?].
Qed.

Lemma constraints_response_text (r : Response) db :
  constraints (with_responses (tbl_responses db ++ [r]) db) → pg_response r = true.
Proof.
  intros Hc. apply pg_values, pg_rows_spec in Hc as (_ & _ & Hpg & _).
  cbn [tbl_responses with_responses] in Hpg. by apply forallb_snoc in Hpg as [_ ?].
Qed.

Lemma constraints_survey_text (s : Survey) db :
  constraints (with_surveys (tbl_surveys db ++ [s]) db) →
  pg_survey s = true ∧ surveys.createdBy s ∈ user_ids db.
Proof.
  intros Hc. split.
  - apply pg_values, pg_rows_spec in Hc as (Hpg & _).
    cbn [tbl_surveys with_surveys] in Hpg. by apply forallb_snoc in Hpg as [_ ?].
  - apply fk_survey_user in Hc. cbn [tbl_surveys with_surveys] in Hc.
    apply Forall_app in Hc as [_ Hc]. by apply (proj1 (Forall_singleton _ _)) in Hc.
Qed.
End inserts.

(** * Submitting a response *)

Section answers_loop.
Implicit Types (db : Db) (now : nat) (l : list AnswerFields).

Lemma answer_callbacks_cons now responseId a l :
  answer_callbacks now responseId (a :: l)
  = match answer_fields a with
    | Some (questionId, value) =>
        Returns (createAnswer now
          (answers.mk_insert None (Some responseId) (Some questionId)
             (Some value) None))
    | None => Throws ZodError
    end :: answer_callbacks now responseId l.
Proof.
  unfold answer_callbacks, answer_fields, insertAnswerSchema_parse. simpl.
  f_equal. destruct a as [[] []]; reflexivity.
Qed.

(** The loop over the answers touches the answers table only. *)
Lemma answers_loop_frame now responseId l db outcome db' :
  start_all (answer_callbacks now responseId l) db = (outcome, db') →
  tbl_surveys db' = tbl_surveys db
  ∧ tbl_questions db' = tbl_questions db
  ∧ tbl_responses db' = tbl_responses db.
Proof.
  revert db outcome db'. induction l as [|a l IH]; intros db outcome db'.
  - intros [= <- <-]. done.
  - rewrite answer_callbacks_cons.
    destruct (answer_fields a) as [[questionId value]|]; simpl.
    + rewrite createAnswer_run. cbv zeta.
      destruct (decide _);
        (destruct (start_all _ _) as [o db''] eqn:Hrest;
         apply IH in Hrest as (H1 & H2 & H3);
         destruct o; intros [= <- <-]; by rewrite H1, H2, H3).
    + intros [= <- <-]. done.
Qed.

(** The loop over the answers, on a store that meets its constraints:
    the elements before the first malformed one are processed, and each
    of them that names an existing question and gives a text adds its
    row. *)
Lemma answers_loop now responseId l db :
  constraints db → uuid_fresh db → responseId ∈ response_ids db →
  ∃ outcome db' new,
    start_all (answer_callbacks now responseId l) db = (outcome, db')
    ∧ constraints db' ∧ uuid_fresh db'
    ∧ tbl_answers db' = tbl_answers db ++ new
    ∧ answer_content <$> new
      = (λ qv, (responseId, qv.1, qv.2))
        <$> List.filter (answer_kept db) (parsed_prefix l)
    ∧ match outcome with
      | Throws e => e = ZodError ∧ length (parsed_prefix l) < length l
      | Returns settled =>
          length (parsed_prefix l) = length l
          ∧ if forallb (answer_kept db) (parsed_prefix l)
            then ∃ rows, Promise_all settled = Returns rows
            else ∃ msg, Promise_all settled = Throws (DbError msg)
      end.
Proof.
  revert db. induction l as [|a l IH]; intros db Hc Hf Hr.
  - exists (Returns []), db, []. simpl. rewrite app_nil_r.
    split_and!; try done. by exists [].
  - rewrite answer_callbacks_cons. cbn [parsed_prefix].
    destruct (answer_fields a) as [[questionId value]|]; cbn [start_all].
    + rewrite createAnswer_run. cbv zeta.
      pose (answer := answers.mk (gen_random_uuid (uuid_seed db)) responseId
                        questionId value (Some now)).
      cbn [List.filter forallb].
      destruct (answer_kept db (questionId, value)) eqn:Hq.
      * apply andb_true_iff in Hq as [Hq Hv]. apply bool_decide_eq_true in Hq.
        cbn [fst snd] in Hq, Hv.
        destruct (add_answer_invariants now responseId questionId value db)
          as [Hc2 Hf2]; try done.
        rewrite decide_True by done.
        destruct (IH _ Hc2 Hf2 Hr)
          as (outcome & db' & new & Hrun & ? & ? & Hnew & Hcontent & Hout).
        change (answer_kept (with_answers _ _)) with (answer_kept db)
          in Hcontent, Hout.
        rewrite Hrun. cbn [andb].
        exists (match outcome with
                | Returns settled => Returns (Returns answer :: settled)
                | Throws e => Throws e
                end), db', (answer :: new).
        split_and!; try done.
        -- by destruct outcome.
        -- rewrite Hnew. cbn [tbl_answers with_answers]. by rewrite <-app_assoc.
        -- rewrite !fmap_cons. f_equal. exact Hcontent.
        -- destruct outcome as [settled|e].
           ++ destruct Hout as [Hlen Hall]. split; [cbn [length]; by rewrite Hlen|].
              cbn [Promise_all]. destruct (forallb _ _).
              ** destruct Hall as [rows ->]. by eexists.
              ** destruct Hall as [msg ->]. by eexists.
           ++ destruct Hout as [-> Hlen]. split; [done|]. cbn [length]. lia.
      * rewrite decide_False.
        2:{ intros Hc2.
            pose proof (constraints_answer_question answer
                          (with_seed (S (uuid_seed db)) db) Hc2) as Hin.
            apply (constraints_answer_text answer
                     (with_seed (S (uuid_seed db)) db)) in Hc2.
            unfold pg_answer in Hc2. rewrite !andb_true_iff in Hc2.
            destruct Hc2 as [_ Hv]. unfold answer_kept, question_exists in Hq.
            cbn [fst snd] in Hq.
            assert (questionId ∈ question_ids db) as Hin' by exact Hin.
            assert (pg_text value = true) as Hv' by exact Hv.
            by rewrite bool_decide_eq_true_2, Hv' in Hq. }
        destruct (IH (with_seed (S (uuid_seed db)) db))
          as (outcome & db' & new & Hrun & ? & ? & Hnew & Hcontent & Hout);
          [by apply constraints_with_seed|by apply uuid_fresh_with_seed|done|].
        change (answer_kept (with_seed _ _)) with (answer_kept db)
          in Hcontent, Hout.
        rewrite Hrun. cbn [andb].
        exists (match outcome with
                | Returns settled =>
                    Returns (Throws (DbError "constraint violation") :: settled)
                | Throws e => Throws e
                end), db', new.
        split_and!; try done.
        -- by destruct outcome.
        -- destruct outcome as [settled|e].
           ++ destruct Hout as [Hlen Hall]. split; [cbn [length]; by rewrite Hlen|].
              by eexists.
           ++ destruct Hout as [-> Hlen]. split; [done|]. cbn [length]. lia.
    + exists (Throws ZodError), db, []. rewrite app_nil_r.
      split_and!; try done. cbn [length]. lia.
Qed.
End answers_loop.

Section submission.
Implicit Types (db : Db) (now : nat) (body : ResponseBody).

Lemma insertResponseSchema_parse_or_null surveyId (v : JsValue) :
  insertResponseSchema_parse surveyId (or_null v)
  = if respondentId_accepted v
    then Returns (responses.mk_insert None (Some surveyId)
                    (Some (stored_respondentId v)) None)
    else Throws ZodError.
Proof.
  destruct v as [| |[]|n|s|]; try reflexivity.
  - unfold or_null. simpl. by destruct (n =? 0)%Z.
  - by destruct s.
Qed.

(** The route, step by step. *)
Lemma POST_responses_run now shareToken body db :
  POST_api_public_surveys_responses now shareToken body db
  = match head (List.filter (Drizzle.eq surveys.shareToken shareToken)
                  (tbl_surveys db)) with
    | None =>
        (Returns (if pg_text shareToken then not_found_or_inactive
                  else error_reply (DbError "invalid parameter value")), db)
    | Some survey =>
        if negb (bool_decide (surveys.status survey = "active"))
        then (Returns not_found_or_inactive, db)
        else if negb (respondentId_accepted (b_respondentId body))
        then (Returns (error_reply ZodError), db)
        else
          let response := new_response now survey body db in
          let db1 := with_seed (S (uuid_seed db)) db in
          let db2 := with_responses (tbl_responses db ++ [response]) db1 in
          if decide (constraints db2) then
            match b_answers body with
            | None => (Returns submitted, db2)
            | Some answers =>
                match start_all
                        (answer_callbacks now (responses.id response) answers)
                        db2 with
                | (Returns settled, db3) =>
                    match Promise_all settled with
                    | Returns _ => (Returns submitted, db3)
                    | Throws e => (Returns (error_reply e), db3)
                    end
                | (Throws e, db3) => (Returns (error_reply e), db3)
                end
            end
          else (Returns (error_reply (DbError "constraint violation")), db1)
    end.
Proof.
  unfold POST_api_public_surveys_responses, try_catch at 1, bind at 1.
  unfold getSurveyByShareToken, bind at 1, get_db.
  cbn [Drizzle.rows Drizzle.where_ Drizzle.from Drizzle.sel_where Drizzle.sel_from].
  destruct (head _) as [survey|];
    [|unfold by_text_key, bind, bind_params; by destruct (pg_text shareToken)].
  cbn [by_text_key ret].
  destruct (negb (bool_decide _)); [done|].
  unfold bind at 1, lift. rewrite insertResponseSchema_parse_or_null.
  destruct (respondentId_accepted _); [|done]. cbn [negb].
  unfold bind at 1. rewrite createResponse_run. cbv zeta.
  fold (new_response now survey body db).
  destruct (decide _); [|done].
  destruct (b_answers body) as [answers|]; [|done].
  unfold bind at 1. fold (answer_callbacks now
    (responses.id (new_response now survey body db)) answers).
  destruct (start_all _ _) as [[settled|e] db3]; [|by destruct e].
  unfold bind, lift, ret.
  destruct (Promise_all settled) as [rows|e]; [done|by destruct e].
Qed.
End submission.

Lemma sample_db_uuid_fresh : uuid_fresh sample_db.
Proof.
  intros n _ Hin. unfold gen_random_uuid in Hin. vm_compute in Hin.
  repeat (apply elem_of_cons in Hin as [Hin|Hin]; [discriminate Hin|]).
  by apply elem_of_nil in Hin.
Qed.




(** The same with an answer the database refuses: the reply is 500, the
    Response and the two other Answers are stored. *)
Example refused_answer_leaves_rows :
  ∃ db',
    POST_api_public_surveys_responses 10 "tok1" three_answers_second_dangling sample_db
    = (Returns (status_json 500 "Failed to submit response"), db')
    ∧ tbl_responses db'
      = tbl_responses sample_db ++ [responses.mk "uuid-0" "s1" (Some "bob") (Some 10)]
    ∧ tbl_answers db'
      = tbl_answers sample_db
        ++ [ answers.mk "uuid-1" "uuid-0" "q1" "A" (Some 10);
             answers.mk "uuid-3" "uuid-0" "q2" "tea" (Some 10) ].
Proof. eexists. split_and!; [vm_compute; reflexivity..]. Qed.

(** The same with a value that holds the character U+0000: the reply is
    500, the Response is stored and the Answer is not. *)
Example refused_value_leaves_response :
  ∃ db',
    POST_api_public_surveys_responses 10 "tok1" one_answer_with_nul sample_db
    = (Returns (status_json 500 "Failed to submit response"), db')
    ∧ tbl_responses db'
      = tbl_responses sample_db ++ [responses.mk "uuid-0" "s1" None (Some 10)]
    ∧ tbl_answers db' = tbl_answers sample_db.
Proof. eexists. split_and!; [vm_compute; reflexivity..]. Qed.

(** Nothing is written when the survey is not found or not active, or
    when [respondentId] fails the schema. *)
Lemma rejected_before_any_write now shareToken body db reply db' :
  POST_api_public_surveys_responses now shareToken body db = (Returns reply, db') →
  reply = not_found_or_inactive
  ∨ (reply = error_reply ZodError ∧ respondentId_accepted (b_respondentId body) = false) →
  db' = db.
Proof.
  rewrite POST_responses_run.
  destruct (head _) as [survey|]; [|by intros [= _ <-]].
  destruct (negb (bool_decide _)); [by intros [= _ <-]|].
  destruct (respondentId_accepted _) eqn:Hacc; cbn [negb]; [|by intros [= _ <-]].
  cbv zeta. intros Hrun [->|[_ ?]]; [|done]. exfalso.
  destruct (decide _); [|by simplify_eq].
  destruct (b_answers body); [|by simplify_eq].
  destruct (start_all _ _) as [[settled|e] db3].
  - destruct (Promise_all settled) as [|e]; [by simplify_eq|].
    destruct e; simplify_eq.
  - destruct e; simplify_eq.
Qed.

(** C10, as amended: for every accepted submission the stored
    [respondentId] is the supplied one when that is a non-empty string and
    null when it is absent, null, the empty string or another falsy value;
    the survey's [anonymous] flag plays no part. *)
Theorem C10_respondentId_stored
    (now : nat) (shareToken : string) (body : ResponseBody) (db db' : Db)
    (message : string) :
  POST_api_public_surveys_responses now shareToken body db
  = (Returns (json message), db') →
  ∃ survey response,
    survey ∈ tbl_surveys db
    ∧ surveys.shareToken survey = shareToken
    ∧ tbl_responses db' = tbl_responses db ++ [response]
    ∧ responses.surveyId response = surveys.id survey
    ∧ responses.respondentId response = stored_respondentId (b_respondentId body)
    ∧ (∀ s, b_respondentId body = JString s → s ≠ "" →
         responses.respondentId response = Some s).
Proof.
  rewrite POST_responses_run.
  destruct (head _) as [survey|] eqn:Hhead;
    [|by destruct (pg_text shareToken); intros [=]].
  apply head_filter_Some in Hhead as [Hin Htok]. apply bool_decide_eq_true in Htok.
  destruct (negb (bool_decide _)); [by intros [=]|].
  destruct (respondentId_accepted _); cbn [negb]; [|by intros [=]].
  cbv zeta. destruct (decide _); [|by intros [=]].
  intros Hrun. exists survey, (new_response now survey body db).
  assert (tbl_responses db'
          = tbl_responses db ++ [new_response now survey body db]) as Hrows.
  { destruct (b_answers body) as [answers|]; [|by simplify_eq].
    destruct (start_all _ _) as [[settled|e] db3] eqn:Hloop.
    - apply answers_loop_frame in Hloop as (_ & _ & Hr).
      destruct (Promise_all settled) as [|e]; [by simplify_eq|].
      destruct e; simplify_eq.
    - destruct e; simplify_eq. }
  split_and!; try done.
  intros s E Hs. simpl. rewrite E. simpl. by rewrite decide_False.
Qed.

Lemma C10_respondentId_stored_witness :
  ∃ survey response,
    survey ∈ tbl_surveys sample_db
    ∧ surveys.shareToken survey = "tok1"
    ∧ tbl_responses
        (snd (POST_api_public_surveys_responses 10 "tok1"
                (mkResponseBody (JString "bob") None) sample_db))
      = tbl_responses sample_db ++ [response]
    ∧ responses.surveyId response = surveys.id survey
    ∧ responses.respondentId response = stored_respondentId (JString "bob")
    ∧ (∀ s, JString "bob" = JString s → s ≠ "" →
         responses.respondentId response = Some s).
Proof.
  apply (C10_respondentId_stored 10 "tok1" (mkResponseBody (JString "bob") None)
           sample_db _ "Response submitted successfully").
  vm_compute. reflexivity.
Defined.

(** C10, as stated, fails on the empty string: it is supplied, the
    submission is accepted, and null is stored. *)
Lemma C10_empty_respondentId_stored_as_null :
  let body := mkResponseBody (JString "") None in
  supplied_respondentId (b_respondentId body) = Some ""
  ∧ ∃ db',
      POST_api_public_surveys_responses 10 "tok1" body sample_db
      = (Returns submitted, db')
      ∧ tbl_responses db'
        = tbl_responses sample_db ++ [responses.mk "uuid-0" "s1" None (Some 10)].
Proof. split; [reflexivity|]. eexists. split; [vm_compute; reflexivity..]. Qed.

(** The flag is not consulted: an anonymous survey keeps the respondent's
    name just the same. *)
Example anonymous_survey_keeps_respondentId :
  surveys.anonymous survey_u1 = true
  ∧ tbl_responses
      (snd (POST_api_public_surveys_responses 10 "tok1"
              (mkResponseBody (JString "bob") None) sample_db))
    = tbl_responses sample_db ++ [responses.mk "uuid-0" "s1" (Some "bob") (Some 10)].
Proof. split; vm_compute; reflexivity. Qed.

(** * Required questions *)

(** C1, as stated, fails at the route: the first survey of the sample
    store is active and its question [q1] is required, and a body without
    any answer is accepted and stored. *)
Lemma C1_route_accepts_missing_required_answer :
  let body := mkResponseBody JNull (Some []) in
  question_q1 ∈ questions_in "s1" sample_db
  ∧ questions.required question_q1 = true
  ∧ ∃ db',
      POST_api_public_surveys_responses 10 "tok1" body sample_db
      = (Returns submitted, db')
      ∧ tbl_responses db'
        = tbl_responses sample_db ++ [responses.mk "uuid-0" "s1" None (Some 10)].
Proof.
  split_and!; [by_compute|reflexivity|].
  eexists. split; [vm_compute; reflexivity..].
Qed.

Section form.
Implicit Types (responses : JsObject.t string) (question : Question).

(** A required question without a non-empty value is reported missing. *)
Lemma truthy_at_missing question responses :
  questions.id question ∉ JsObject.Object_prototype →
  JsObject.getOwn (questions.id question) responses = None
  ∨ JsObject.getOwn (questions.id question) responses = Some "" →
  JsObject.truthy_at (questions.id question) responses = false.
Proof.
  intros Hproto [H|H]; unfold JsObject.truthy_at; rewrite H; [|done].
  by apply bool_decide_eq_false.
Qed.
End form.

(** C1, as amended: the check of required questions is the one of the
    public page.  When the form holds no non-empty value for some required
    question of the fetched survey, [handleSubmit] returns without posting,
    so the store is left as it was: no Response row and no Answer row is
    added.  (Question ids are database identifiers, never the name of a
    property that every object inherits.) *)
Theorem C1_form_rejects_missing_required
    (now : nat) (shareToken : string) (survey : SurveyWithQuestions)
    (responses : JsObject.t string) (question : Question) (db : Db) :
  question ∈ questions_of survey →
  questions.required question = true →
  questions.id question ∉ JsObject.Object_prototype →
  JsObject.getOwn (questions.id question) responses = None
  ∨ JsObject.getOwn (questions.id question) responses = Some "" →
  handleSubmit now (Some survey) responses = None
  ∧ submit_form now shareToken (Some survey) responses db = (Returns None, db).
Proof.
  intros Hin Hreq Hproto Hmissing.
  assert (handleSubmit now (Some survey) responses = None) as Hnone.
  { unfold handleSubmit.
    set (missingRequired := List.filter _ (List.filter _ _)).
    assert (question ∈ missingRequired) as Hq.
    { apply elem_of_List_filter. split.
      - apply elem_of_List_filter. by split.
      - by rewrite truthy_at_missing. }
    rewrite decide_True; [done|].
    destruct missingRequired; [by apply elem_of_nil in Hq|simpl; lia]. }
  split; [done|]. unfold submit_form. by rewrite Hnone.
Qed.

Lemma C1_form_rejects_missing_required_witness :
  let responses := handleInputChange "q2" "tea" (handleInputChange "q1" "" []) in
  handleSubmit 10 (Some fetched_s1) responses = None
  ∧ submit_form 10 "tok1" (Some fetched_s1) responses sample_db
    = (Returns None, sample_db).
Proof.
  apply (C1_form_rejects_missing_required 10 "tok1" fetched_s1 _ question_q1).
  - by_compute.
  - reflexivity.
  - by_compute.
  - right. reflexivity.
Defined.

(** With every required question filled in, the form posts its answers
    and the route stores them. *)
Example form_submits_complete :
  let responses := handleInputChange "q2" "tea" (handleInputChange "q1" "B" []) in
  ∃ db',
    submit_form 10 "tok1" (Some fetched_s1) responses sample_db
    = (Returns (Some submitted), db')
    ∧ tbl_responses db'
      = tbl_responses sample_db
        ++ [responses.mk "uuid-0" "s1" (Some "anonymous_10") (Some 10)]
    ∧ tbl_answers db'
      = tbl_answers sample_db
        ++ [ answers.mk "uuid-1" "uuid-0" "q1" "B" (Some 10);
             answers.mk "uuid-2" "uuid-0" "q2" "tea" (Some 10) ].
Proof. eexists. split_and!; [vm_compute; reflexivity..]. Qed.

(** * Question order *)

Section question_order.
Implicit Types (db : Db) (now : nat) (l : list QuestionFields).

Lemma question_callback_fields now surveyId index q :
  question_callback now surveyId index q
  = match question_fields q with
    | Some (text, type, required) =>
        Returns (createQuestion now
          (questions.mk_insert None (Some surveyId) (Some text) (Some type)
             required (f_options q) (Some (Z.of_nat index)) None))
    | None => Throws ZodError
    end.
Proof.
  unfold question_callback, insertQuestionSchema_parse, question_fields.
  destruct q as [[] [] req opts]; try reflexivity.
  simpl. destruct req as [| |[]| | |]; reflexivity.
Qed.

Lemma Promise_all_Returns {R} (rows : list R) :
  Promise_all (Returns <$> rows) = Returns rows.
Proof.
  induction rows as [|r rows IH]; [done|].
  rewrite fmap_cons. cbn [Promise_all]. by rewrite IH.
Qed.

Lemma new_questions_length now surveyId seed index l :
  length (new_questions now surveyId seed index l) = length l.
Proof. revert seed index. induction l; intros; simpl; auto. Qed.

Lemma new_questions_order now surveyId seed index l :
  Forall (λ q, is_Some (question_fields q)) l →
  questions.order <$> new_questions now surveyId seed index l
  = Z.of_nat <$> seq index (length l).
Proof.
  revert seed index. induction l as [|q l IH]; intros seed index Hl; [done|].
  apply Forall_cons in Hl as [[[[text type] required] Hq] Hl]. simpl.
  f_equal; [|by apply IH]. unfold new_question. by rewrite Hq.
Qed.

Lemma new_questions_surveyId now surveyId seed index l :
  Forall (λ q, is_Some (question_fields q)) l →
  Forall (λ q, questions.surveyId q = surveyId)
    (new_questions now surveyId seed index l).
Proof.
  revert seed index. induction l as [|q l IH]; intros seed index Hl; [done|].
  apply Forall_cons in Hl as [[[[text type] required] Hq] Hl]. simpl.
  constructor; [|by apply IH]. unfold new_question. by rewrite Hq.
Qed.

(** The loop over well-formed questions stores one row per element, in
    the order of the body, each under the position of its element. *)
Lemma questions_loop now surveyId l :
  ∀ offset db,
    constraints db → uuid_fresh db → surveyId ∈ survey_ids db →
    Forall (λ q, question_storable q = true) l →
    (Z.of_nat (offset + length l) ≤ 2147483648)%Z →
    let rows := new_questions now surveyId (uuid_seed db) offset l in
    let db' := with_questions (tbl_questions db ++ rows)
                 (with_seed (uuid_seed db + length l) db) in
    start_all (imap (λ index, question_callback now surveyId (index + offset)) l) db
    = (Returns (Returns <$> rows), db')
    ∧ constraints db' ∧ uuid_fresh db'.
Proof.
  induction l as [|q l IH]; intros offset db Hc Hf Hs Hl Hlen.
  - simpl. rewrite app_nil_r, Nat.add_0_r.
    replace (with_questions (tbl_questions db) (with_seed (uuid_seed db) db))
      with db by (by destruct db).
    done.
  - apply Forall_cons in Hl as [Hpg Hl]. unfold question_storable in Hpg.
    destruct (question_fields q) as [[[text type] required]|] eqn:Hq; [|done].
    cbn [length] in Hlen.
    cbn [imap start_all new_questions]. rewrite question_callback_fields.
    assert (new_question now surveyId (uuid_seed db) offset q
            = questions.mk (gen_random_uuid (uuid_seed db)) surveyId text type
                (default false required) (default None (f_options q))
                (Z.of_nat offset) (Some now)) as ->
      by (unfold new_question; by rewrite Hq).
    rewrite Hq. cbn [Nat.add].
    rewrite createQuestion_run. cbv zeta.
    destruct (add_question_invariants now surveyId text type
                (default false required) (default None (f_options q))
                (Z.of_nat offset) db) as [Hc2 Hf2]; try done.
    { rewrite Hpg. apply bool_decide_eq_true. lia. }
    rewrite decide_True by done.
    rewrite (imap_ext _ (λ index, question_callback now surveyId (index + S offset)))
      by (intros i x _; simpl; f_equal; lia).
    destruct (IH (S offset) _ Hc2 Hf2 Hs Hl) as (Hrun & Hc3 & Hf3).
    { cbn [uuid_seed]. lia. }
    rewrite Hrun. cbn [uuid_seed with_questions with_seed tbl_questions] in *.
    rewrite <-app_assoc in *. cbn [app] in *.
    replace (S (uuid_seed db) + length l) with (uuid_seed db + S (length l))
      in * by lia.
    cbn [length]. split_and!; [reflexivity|exact Hc3|exact Hf3].
Qed.
End question_order.

Section sorted_rows.
Context {R : Type}.
Implicit Types (l : list R) (p : R → bool).

Lemma filter_none p l : Forall (λ x, p x = false) l → List.filter p l = [].
Proof.
  induction 1 as [|x l Hx _ IH]; [done|]. simpl. by rewrite Hx.
Qed.

Lemma filter_all p l : Forall (λ x, p x = true) l → List.filter p l = l.
Proof.
  induction 1 as [|x l Hx _ IH]; [done|]. simpl. by rewrite Hx, IH.
Qed.

(** Rows whose keys count up from [i] are sorted and have distinct keys. *)
Lemma counting_keys_Sorted (key : R → Z) l i :
  key <$> l = Z.of_nat <$> seq i (length l) →
  Sorted (Drizzle.key_le key) l.
Proof.
  revert i. induction l as [|a l IH]; intros i H; [constructor|].
  simpl in H. injection H as Ha Hl. constructor; [by eapply IH|].
  destruct l as [|b l]; constructor.
  simpl in Hl. injection Hl as Hb _. unfold Drizzle.key_le. lia.
Qed.

Lemma counting_keys_NoDup (key : R → Z) l i :
  key <$> l = Z.of_nat <$> seq i (length l) → NoDup (key <$> l).
Proof. intros ->. apply NoDup_fmap_2; [apply _|apply NoDup_seq]. Qed.

(** Sorting rows that are sorted on distinct keys changes nothing. *)
Lemma orderBy_sorted (key : R → Z) l :
  Sorted (Drizzle.key_le key) l → NoDup (key <$> l) →
  Drizzle.orderBy key l = l.
Proof.
  intros Hs Hnd. apply (Sorted_unique_strong (Drizzle.key_le key));
    [|apply orderBy_Sorted|done|apply orderBy_Permutation].
  intros x y Hx Hy Hxy Hyx. rewrite orderBy_Permutation in Hx.
  apply (NoDup_column_inj key l); try done.
  unfold Drizzle.key_le in *. lia.
Qed.
End sorted_rows.

Section survey_creation.
Implicit Types (db : Db) (now : nat).

Lemma insertSurveySchema_parse_shape (b : SurveyFields) surveyData :
  insertSurveySchema_parse b = Returns surveyData →
  ∃ title description status anonymous multipleResponses,
    surveyData = surveys.mk_insert None (Some title) description None status
                   anonymous multipleResponses None None None.
Proof.
  unfold insertSurveySchema_parse, obind.
  destruct (Zod.string_ (f_title b)) as [title|]; [|by intros [=]].
  destruct (Zod.optional _ (f_description b)) as [description|]; [|by intros [=]].
  destruct (Zod.optional _ (f_status b)) as [status|]; [|by intros [=]].
  destruct (Zod.optional _ (f_anonymous b)) as [anonymous|]; [|by intros [=]].
  destruct (Zod.optional _ (f_multipleResponses b)) as [multipleResponses|];
    [|by intros [=]].
  intros [= <-]. by do 5 eexists.
Qed.

(** The row of a new survey holds texts when the parsed fields do. *)
Lemma new_survey_text id title description userId status anonymous
    multipleResponses shareToken createdAt updatedAt flag flag' :
  pg_survey_values (surveys.mk_insert None (Some title) description None status
                      anonymous multipleResponses None None None) = true →
  pg_text id = true → pg_text userId = true → pg_text shareToken = true →
  pg_survey (surveys.mk id title (default None description) userId
               (default "draft" status) flag flag' shareToken
               createdAt updatedAt) = true.
Proof.
  unfold pg_survey_values, pg_survey.
  cbn [surveys.i_id surveys.i_title surveys.i_description surveys.i_createdBy
       surveys.i_status surveys.i_shareToken surveys.id surveys.title
       surveys.description surveys.createdBy surveys.status surveys.shareToken
       pg_null from_option].
  rewrite !andb_true_iff.
  intros [[[[[_ ?] Hd] _] Hs] _] ? ? ?. split_and!; try done.
  - by destruct description as [[]|].
  - by destruct status.
Qed.

Lemma question_storable_valid (q : QuestionFields) :
  question_storable q = true → is_Some (question_fields q).
Proof. unfold question_storable. destruct (question_fields q); [by eexists|done]. Qed.

Lemma questions_storable_valid (l : list QuestionFields) :
  Forall (λ q, question_storable q = true) l →
  Forall (λ q, is_Some (question_fields q)) l.
Proof. intros H. eapply Forall_impl; [exact H|]. apply question_storable_valid. Qed.
End survey_creation.

(** Directly after [POST /api/surveys] has created a survey from a body
    with N well-formed questions, the questions of the survey are those of
    the body, in the order of the body, and their [order] values are
    0, 1, ..., N-1. *)
Lemma created_survey_orders
    (now : nat) (userId : string) (body : SurveyBody)
    (l : list QuestionFields) (db : Db) :
  constraints db → uuid_fresh db →
  userId ∈ user_ids db →
  survey_storable (b_survey body) = true →
  b_questions body = Some l →
  questions_storable l →
  ∃ survey db' stored,
    POST_api_surveys now userId body db = (Returns (json survey), db')
    ∧ getQuestionsBySurvey (surveys.id survey) db' = (Returns stored, db')
    ∧ questions.order <$> stored = Z.of_nat <$> seq 0 (length l)
    ∧ dense (survey_orders (surveys.id survey) db')
    ∧ Forall2 (λ q row, f_text q = JString (questions.text row)
                        ∧ f_type q = JString (questions.type row))
        l stored.
Proof.
  intros Hc Hf Huser Hparse Hqs [Hpg Hlen].
  pose proof (questions_storable_valid l Hpg) as Hl.
  unfold survey_storable in Hparse.
  destruct (insertSurveySchema_parse (b_survey body)) as [surveyData|] eqn:Hp;
    [|done].
  destruct (insertSurveySchema_parse_shape _ _ Hp)
    as (title & description & status & anonymous & multipleResponses & ->).
  set (survey := surveys.mk (gen_random_uuid (uuid_seed db)) title
        (default None description) userId (default "draft" status)
        (default true anonymous) (default false multipleResponses)
        (gen_random_uuid (S (uuid_seed db))) (Some now) (Some now)).
  destruct (add_survey_invariants survey db eq_refl eq_refl Hc Hf) as [Hc2 Hf2];
    [done
    |eapply new_survey_text;
       [exact Hparse|apply pg_text_uuid|by apply (user_id_text userId db)
       |apply pg_text_uuid]|].
  set (db2 := with_surveys _ _) in Hc2, Hf2.
  assert (surveys.id survey ∈ survey_ids db2) as Hin.
  { unfold survey_ids, db2. cbn [tbl_surveys with_surveys].
    rewrite fmap_app. apply elem_of_app. right. by left. }
  destruct (questions_loop now (surveys.id survey) l 0 db2 Hc2 Hf2 Hin Hpg)
    as (Hloop & Hc3 & Hf3); [done|].
  set (rows := new_questions now (surveys.id survey) (uuid_seed db2) 0 l) in *.
  set (db3 := with_questions _ _) in Hloop, Hc3, Hf3.
  exists survey, db3, rows.
  assert (questions.order <$> rows = Z.of_nat <$> seq 0 (length l)) as Horder
    by by apply new_questions_order.
  assert (questions_in (surveys.id survey) db3 = rows) as Hin3.
  { unfold questions_in, db3. cbn [tbl_questions with_questions with_seed].
    rewrite List.filter_app, filter_none, filter_all; [done|..].
    - eapply Forall_impl; [by apply new_questions_surveyId|].
      intros q Hq. by apply bool_decide_eq_true.
    - destruct Hc as [_ _ _ _ _ Hfk _ _ _ _ _ _]. eapply Forall_impl; [exact Hfk|].
      intros q Hq. apply bool_decide_eq_false. intros E. cbv beta in Hq.
      rewrite E in Hq.
      apply (Hf (uuid_seed db)); [done|]. apply elem_of_all_ids. by left. }
  assert (Drizzle.orderBy questions.order rows = rows) as Hsorted.
  { apply orderBy_sorted.
    - apply (counting_keys_Sorted _ _ 0).
      rewrite Horder. unfold rows. by rewrite new_questions_length.
    - apply (counting_keys_NoDup _ _ 0).
      rewrite Horder. unfold rows. by rewrite new_questions_length. }
  split_and!.
  - unfold POST_api_surveys, try_catch, bind at 1, lift. rewrite Hp.
    unfold bind at 1.
    change (spread_createdBy _ userId) with
      (surveys.mk_insert None (Some title) description (Some userId) status
         anonymous multipleResponses None None None).
    rewrite createSurvey_run. cbv zeta. fold survey. fold db2.
    rewrite decide_True by done. rewrite Hqs. unfold bind at 1.
    change (imap _ l) with (imap (question_callback now (surveys.id survey)) l).
    rewrite (imap_ext _ (λ index, question_callback now (surveys.id survey) (index + 0)))
      by (intros i x _; simpl; f_equal; lia).
    rewrite Hloop. unfold bind, lift, ret. by rewrite Promise_all_Returns.
  - by rewrite getQuestionsBySurvey_run, Hin3, Hsorted.
  - done.
  - unfold dense, survey_orders. rewrite Hin3, Hsorted, Horder.
    by rewrite length_fmap, length_seq.
  - clear -Hl. unfold rows. generalize (uuid_seed db2) 0.
    induction Hl as [|q l [[[text type] required] Hq] _ IH]; intros seed index;
      [constructor|].
    simpl. constructor; [|apply IH].
    unfold new_question. rewrite Hq. simpl.
    unfold question_fields in Hq. repeat case_match; by simplify_eq.
Qed.

Example created_survey_orders_sample :
  ∃ survey db' stored,
    POST_api_surveys 5 "u" three_questions db0 = (Returns (json survey), db')
    ∧ getQuestionsBySurvey (surveys.id survey) db' = (Returns stored, db')
    ∧ questions.order <$> stored = Z.of_nat <$> seq 0 (length three_question_fields)
    ∧ dense (survey_orders (surveys.id survey) db')
    ∧ Forall2 (λ q row, f_text q = JString (questions.text row)
                        ∧ f_type q = JString (questions.type row))
        three_question_fields stored.
Proof.
  apply (created_survey_orders 5 "u" three_questions three_question_fields db0).
  - by_compute.
  - apply uuid_fresh_empty.
  - by_compute.
  - reflexivity.
  - reflexivity.
  - split; [by repeat constructor|simpl; lia].
Qed.

(** C4, as stated, fails: deleting the second of three questions leaves
    the orders 0 and 2. *)
Lemma C4_delete_leaves_gap :
  ∃ survey db1 db2,
    POST_api_surveys 5 "u" three_questions db0 = (Returns (json survey), db1)
    ∧ survey_orders (surveys.id survey) db1 = [0; 1; 2]%Z
    ∧ deleteQuestion "uuid-3" db1 = (Returns (), db2)
    ∧ survey_orders (surveys.id survey) db2 = [0; 2]%Z
    ∧ ¬ dense (survey_orders (surveys.id survey) db2).
Proof.
  do 3 eexists. split_and!.
  - vm_compute. reflexivity.
  - vm_compute. reflexivity.
  - vm_compute. reflexivity.
  - vm_compute. reflexivity.
  - vm_compute. discriminate.
Qed.

(** Nor does [createQuestion] look at the orders already taken. *)
Example createQuestion_repeats_order :
  ∃ survey db1 question db2,
    POST_api_surveys 5 "u" three_questions db0 = (Returns (json survey), db1)
    ∧ createQuestion 6
        (questions.mk_insert None (Some (surveys.id survey)) (Some "More?")
           (Some "text") None None (Some 0%Z) None) db1
      = (Returns question, db2)
    ∧ survey_orders (surveys.id survey) db2 = [0; 0; 1; 2]%Z.
Proof. do 4 eexists. split_and!; [vm_compute; reflexivity..]. Qed.

Example createSurvey_db0 :
  fst (createSurvey 7
         (surveys.mk_insert None (Some "T") None (Some "u") None None None None
            None None) db0)
  = Returns (surveys.mk "uuid-0" "T" None "u" "draft" true false "uuid-1"
               (Some 7) (Some 7)).
Proof. vm_compute. reflexivity. Qed.

(** * The routes keep the orders dense *)

Section questions_loop_any.
Implicit Types (db : Db) (now : nat) (l : list QuestionFields).

Lemma valid_questions_valid l :
  Forall (λ q, is_Some (question_fields q)) (valid_questions l).
Proof.
  induction l as [|q l IH]; [constructor|]. simpl.
  destruct (question_fields q) eqn:Hq; constructor; [by eexists|done].
Qed.

(** The loop over the questions of any body stores the rows of the
    well-formed elements before the first malformed one. *)
Lemma questions_loop_any now surveyId l :
  ∀ offset db,
    constraints db → uuid_fresh db → surveyId ∈ survey_ids db →
    Forall (λ q, question_storable q = true) (valid_questions l) →
    (Z.of_nat (offset + length (valid_questions l)) ≤ 2147483648)%Z →
    let rows := new_questions now surveyId (uuid_seed db) offset (valid_questions l) in
    let db' := with_questions (tbl_questions db ++ rows)
                 (with_seed (uuid_seed db + length (valid_questions l)) db) in
    ∃ outcome,
      start_all (imap (λ index, question_callback now surveyId (index + offset)) l) db
      = (outcome, db')
      ∧ constraints db' ∧ uuid_fresh db'.
Proof.
  induction l as [|q l IH]; intros offset db Hc Hf Hs Hpg Hlen.
  - simpl. rewrite app_nil_r, Nat.add_0_r.
    replace (with_questions (tbl_questions db) (with_seed (uuid_seed db) db))
      with db by (by destruct db).
    by eexists.
  - cbn [imap start_all]. rewrite question_callback_fields.
    cbn [valid_questions] in Hpg, Hlen |- *.
    destruct (question_fields q) as [[[text type] required]|] eqn:Hq.
    + apply Forall_cons in Hpg as [Hq' Hpg]. unfold question_storable in Hq'.
      rewrite Hq in Hq'. cbn [length] in Hlen.
      cbn [new_questions length].
      assert (new_question now surveyId (uuid_seed db) offset q
              = questions.mk (gen_random_uuid (uuid_seed db)) surveyId text type
                  (default false required) (default None (f_options q))
                  (Z.of_nat offset) (Some now)) as ->
        by (unfold new_question; by rewrite Hq).
      cbn [Nat.add]. rewrite createQuestion_run. cbv zeta.
      destruct (add_question_invariants now surveyId text type
                  (default false required) (default None (f_options q))
                  (Z.of_nat offset) db) as [Hc2 Hf2]; try done.
      { rewrite Hq'. apply bool_decide_eq_true. lia. }
      rewrite decide_True by done.
      rewrite (imap_ext _ (λ index, question_callback now surveyId (index + S offset)))
        by (intros i x _; simpl; f_equal; lia).
      destruct (IH (S offset) _ Hc2 Hf2 Hs Hpg) as (outcome & Hrun & Hc3 & Hf3).
      { cbn [uuid_seed]. lia. }
      rewrite Hrun. cbn [uuid_seed with_questions with_seed tbl_questions] in *.
      rewrite <-app_assoc in *. cbn [app] in *.
      replace (S (uuid_seed db) + length (valid_questions l))
        with (uuid_seed db + S (length (valid_questions l))) in * by lia.
      destruct outcome; (eexists; split_and!; [reflexivity|exact Hc3|exact Hf3]).
    + simpl. rewrite app_nil_r, Nat.add_0_r.
      replace (with_questions (tbl_questions db) (with_seed (uuid_seed db) db))
        with db by (by destruct db).
      by eexists.
Qed.
End questions_loop_any.

Section routes_keep_store_ok.
Implicit Types (db : Db) (now : nat).

Lemma orders_dense_same_questions db db' :
  tbl_questions db' = tbl_questions db → orders_dense db → orders_dense db'.
Proof.
  intros H Hd surveyId. unfold survey_orders, questions_in. rewrite H. apply Hd.
Qed.

Lemma uuid_fresh_subset db db' :
  (∀ x, x ∈ all_ids db' → x ∈ all_ids db) → uuid_seed db ≤ uuid_seed db' →
  uuid_fresh db → uuid_fresh db'.
Proof. intros Hsub Hle Hf. apply (uuid_fresh_extend db); auto. Qed.

Lemma store_ok_with_seed db :
  store_ok db → store_ok (with_seed (S (uuid_seed db)) db).
Proof.
  intros []. constructor; [by apply constraints_with_seed
                          |by apply uuid_fresh_with_seed|done].
Qed.

(** The reading routes leave the store as it is. *)
Lemma GET_api_surveys_id_reads userId id db :
  snd (GET_api_surveys_id userId id db) = db.
Proof.
  unfold GET_api_surveys_id, try_catch, bind.
  destruct (getSurvey_cases id db) as [(survey & _ & _ & ->)|[_ ->]];
    [|by destruct (pg_text id)].
  destruct (negb _); [done|]. by rewrite getQuestionsBySurvey_run.
Qed.

Lemma GET_api_public_surveys_reads shareToken db :
  snd (GET_api_public_surveys shareToken db) = db.
Proof.
  unfold GET_api_public_surveys, try_catch, bind.
  destruct (getSurveyByShareToken_cases shareToken db)
    as [(survey & _ & _ & ->)|[_ ->]]; [|by destruct (pg_text shareToken)].
  destruct (negb _); [done|]. by rewrite getQuestionsBySurvey_run.
Qed.

Lemma GET_api_stats_reads userId db : snd (GET_api_stats userId db) = db.
Proof. reflexivity. Qed.

(** Submitting a response adds no question. *)
Lemma POST_responses_store_ok now shareToken body db :
  store_ok db →
  store_ok (snd (POST_api_public_surveys_responses now shareToken body db)).
Proof.
  intros Hok. pose proof Hok as [Hc Hf Hd]. rewrite POST_responses_run.
  destruct (head _) as [survey|] eqn:Hhead; [|done].
  apply head_filter_Some in Hhead as [Hin _].
  destruct (negb (bool_decide _)); [done|].
  destruct (negb (respondentId_accepted _)); [done|]. cbv zeta.
  destruct (decide (constraints _)) as [Hc2|]; [|by apply store_ok_with_seed].
  pose proof (add_response_fresh now (surveys.id survey)
                (stored_respondentId (b_respondentId body)) db Hf) as Hf2.
  fold (new_response now survey body db) in Hc2, Hf2.
  destruct (b_answers body) as [answers|].
  - edestruct (answers_loop now (responses.id (new_response now survey body db))
                 answers) as (outcome & db' & new & Hrun & Hc3 & Hf3 & _);
      [exact Hc2|exact Hf2| |].
    { unfold response_ids. cbn [tbl_responses with_responses].
      rewrite fmap_app. apply elem_of_app. right. by left. }
    rewrite Hrun. apply answers_loop_frame in Hrun as (_ & Hq & _).
    assert (store_ok db') as Hok'.
    { constructor; [done|done|]. by apply (orders_dense_same_questions db). }
    destruct outcome as [settled|e]; [destruct (Promise_all settled)|]; done.
  - constructor; [done|done|]. by apply (orders_dense_same_questions db).
Qed.

Lemma insertSurveySchema_partial_parse_keys (b : SurveyFields) surveyData :
  insertSurveySchema_partial_parse b = Returns surveyData →
  surveys.i_id surveyData = None ∧ surveys.i_shareToken surveyData = None.
Proof.
  unfold insertSurveySchema_partial_parse, obind.
  destruct (Zod.optional _ (f_title b)) as [title|]; [|by intros [=]].
  destruct (Zod.optional _ (f_description b)) as [description|]; [|by intros [=]].
  destruct (Zod.optional _ (f_status b)) as [status|]; [|by intros [=]].
  destruct (Zod.optional _ (f_anonymous b)) as [anonymous|]; [|by intros [=]].
  destruct (Zod.optional _ (f_multipleResponses b)) as [multipleResponses|];
    [|by intros [=]].
  by intros [= <-].
Qed.

(** Updating a survey touches no question and no key. *)
Lemma PUT_store_ok now userId id body db :
  store_ok db → store_ok (snd (PUT_api_surveys_id now userId id body db)).
Proof.
  intros Hok. pose proof Hok as [Hc Hf Hd].
  unfold PUT_api_surveys_id, try_catch, bind at 1.
  destruct (getSurvey_cases id db) as [(survey & _ & _ & ->)|[_ ->]];
    [|by destruct (pg_text id)].
  destruct (negb (bool_decide _)); [done|].
  unfold bind at 1, lift.
  destruct (insertSurveySchema_partial_parse body) as [surveyData|e] eqn:Hp;
    [|by destruct e].
  apply insertSurveySchema_partial_parse_keys in Hp as [Hid Htok].
  unfold bind at 1. rewrite updateSurvey_run. cbv zeta.
  destruct (_ && _); [|done].
  destruct (decide _) as [Hc2|]; [|done]. simpl.
  constructor; [done| |by apply (orders_dense_same_questions db)].
  apply (uuid_fresh_subset db); [|done|done].
  intros x. rewrite !elem_of_all_ids.
  unfold survey_ids, share_tokens, question_ids, response_ids, answer_ids.
  cbn [tbl_surveys tbl_questions tbl_responses tbl_answers with_surveys].
  rewrite !fmap_conditional_column; [done|..];
    intros r; simpl; by rewrite ?Hid, ?Htok.
Qed.
End routes_keep_store_ok.

Section delete_keeps_store_ok.
Implicit Types (db : Db) (id : string).

Lemma NoDup_fmap_filter {R A} (col : R → A) (p : R → bool) (l : list R) :
  NoDup (col <$> l) → NoDup (col <$> List.filter p l).
Proof.
  induction l as [|x l IH]; [done|]. simpl. intros [Hx Hnd]%NoDup_cons.
  destruct (p x); [|by apply IH]. simpl. apply NoDup_cons. split; [|by apply IH].
  intros (y & E & Hy)%list_elem_of_fmap. apply elem_of_List_filter in Hy as [Hy _].
  apply Hx. rewrite E. by apply list_elem_of_fmap_2.
Qed.

Lemma fmap_filter_subset {R A} (col : R → A) (p : R → bool) (l : list R) x :
  x ∈ col <$> List.filter p l → x ∈ col <$> l.
Proof.
  intros (y & -> & Hy)%list_elem_of_fmap. apply elem_of_List_filter in Hy as [Hy _].
  by apply list_elem_of_fmap_2.
Qed.

Lemma filter_filter_implied {R} (p q : R → bool) (l : list R) :
  (∀ x, x ∈ l → p x = true → q x = true) →
  List.filter p (List.filter q l) = List.filter p l.
Proof.
  induction l as [|x l IH]; intros H; [done|]. simpl.
  assert (List.filter p (List.filter q l) = List.filter p l) as IH'
    by (apply IH; intros y Hy; apply H; by right).
  destruct (q x) eqn:Hq; simpl; [by rewrite IH'|].
  destruct (p x) eqn:Hp; [|done].
  rewrite H in Hq; [done|by left|done].
Qed.

Lemma cascade_constraints id db :
  id ∈ survey_ids db → constraints db →
  constraints (cascade_surveys (Drizzle.eq surveys.id id) db).
Proof.
  intros Hid [Hs Hq Hr Ha Ht Hfq Hfr Hfar Hfaq Hfu Hpg Hu].
  apply pg_rows_spec in Hpg as (? & ? & ? & ?).
  constructor;
    [..|apply pg_rows_spec; split_and!; by apply forallb_filter|exact Hu].
  - by apply NoDup_fmap_filter.
  - by apply NoDup_fmap_filter.
  - by apply NoDup_fmap_filter.
  - by apply NoDup_fmap_filter.
  - by apply NoDup_fmap_filter.
  - apply Forall_forall. intros q Hin.
    apply cascade_surveys_questions in Hin as [Hin Hne]; [|done].
    rewrite Forall_forall in Hfq. apply Hfq in Hin.
    apply list_elem_of_fmap in Hin as (s & E & Hin). rewrite E.
    apply list_elem_of_fmap_2, cascade_surveys_surveys. split; [done|congruence].
  - apply Forall_forall. intros r Hin.
    apply cascade_surveys_responses in Hin as [Hin Hne]; [|done].
    rewrite Forall_forall in Hfr. apply Hfr in Hin.
    apply list_elem_of_fmap in Hin as (s & E & Hin). rewrite E.
    apply list_elem_of_fmap_2, cascade_surveys_surveys. split; [done|congruence].
  - apply Forall_forall. intros a Hin.
    apply cascade_surveys_answers in Hin as (Hin & _ & Hgone); [|done].
    rewrite Forall_forall in Hfar. apply Hfar in Hin.
    apply list_elem_of_fmap in Hin as (r & E & Hin). rewrite E.
    apply list_elem_of_fmap_2, cascade_surveys_responses; [done|].
    split; [done|]. intros Hsid. apply Hgone. rewrite E.
    apply list_elem_of_fmap_2, elem_of_List_filter. split; [done|].
    by apply bool_decide_eq_true.
  - apply Forall_forall. intros a Hin.
    apply cascade_surveys_answers in Hin as (Hin & Hgone & _); [|done].
    rewrite Forall_forall in Hfaq. apply Hfaq in Hin.
    apply list_elem_of_fmap in Hin as (q & E & Hin). rewrite E.
    apply list_elem_of_fmap_2, cascade_surveys_questions; [done|].
    split; [done|]. intros Hsid. apply Hgone. rewrite E.
    apply list_elem_of_fmap_2, elem_of_List_filter. split; [done|].
    by apply bool_decide_eq_true.
  - apply Forall_forall. intros s Hin.
    apply cascade_surveys_surveys in Hin as [Hin _].
    by apply (proj1 (Forall_forall _ _) Hfu).
Qed.

Lemma cascade_orders_dense id db :
  id ∈ survey_ids db → orders_dense db →
  orders_dense (cascade_surveys (Drizzle.eq surveys.id id) db).
Proof.
  intros Hid Hd surveyId. unfold survey_orders, questions_in.
  cbn [cascade_surveys tbl_questions].
  destruct (decide (surveyId = id)) as [->|Hne].
  - rewrite filter_none; [done|].
    apply Forall_forall. intros q Hq. apply bool_decide_eq_false. intros E.
    assert (q ∈ tbl_questions (cascade_surveys (Drizzle.eq surveys.id id) db))
      as Hq' by exact Hq.
    apply cascade_surveys_questions in Hq' as [_ Hq']; done.
  - rewrite filter_filter_implied; [apply Hd|].
    intros q Hq Hp. apply bool_decide_eq_true in Hp.
    apply negb_true_iff, bool_decide_eq_false. rewrite gone_survey_ids.
    intros [E _]. congruence.
Qed.

Lemma DELETE_store_ok userId id db :
  store_ok db → store_ok (snd (DELETE_api_surveys_id userId id db)).
Proof.
  intros Hok. pose proof Hok as [Hc Hf Hd].
  unfold DELETE_api_surveys_id, try_catch, bind at 1.
  destruct (getSurvey_cases id db) as [(survey & Hin & Hhit & ->)|[_ ->]];
    [|by destruct (pg_text id)].
  destruct (negb (bool_decide _)); [done|].
  unfold bind. rewrite deleteSurvey_run. simpl snd.
  assert (id ∈ survey_ids db) as Hid by (rewrite <-Hhit; by apply list_elem_of_fmap_2).
  constructor.
  - by apply cascade_constraints.
  - apply (uuid_fresh_subset db); [|done|done].
    intros x. rewrite !elem_of_all_ids.
    intros [H|[H|[H|[H|H]]]]; apply fmap_filter_subset in H; auto 10.
  - by apply cascade_orders_dense.
Qed.
End delete_keeps_store_ok.

Section creation_keeps_store_ok.
Implicit Types (db : Db) (now : nat).

(** A survey without questions receives questions numbered from 0. *)
Lemma added_questions_dense now surveyId seed (l : list QuestionFields) db db' :
  Forall (λ q, is_Some (question_fields q)) l →
  orders_dense db →
  questions_in surveyId db = [] →
  tbl_questions db' = tbl_questions db ++ new_questions now surveyId seed 0 l →
  orders_dense db'.
Proof.
  intros Hl Hd Hnone Hrows sid. unfold survey_orders, questions_in.
  rewrite Hrows, List.filter_app.
  pose proof (new_questions_surveyId now surveyId seed 0 l Hl) as Hsid.
  pose proof (new_questions_order now surveyId seed 0 l Hl) as Horder.
  destruct (decide (sid = surveyId)) as [->|Hne].
  - fold (questions_in surveyId db). rewrite Hnone. cbn [app].
    rewrite filter_all
      by (eapply Forall_impl; [exact Hsid|];
          intros q Hq; by apply bool_decide_eq_true).
    rewrite orderBy_sorted.
    + unfold dense. rewrite Horder, length_fmap, length_seq. done.
    + apply (counting_keys_Sorted _ _ 0).
      by rewrite Horder, new_questions_length.
    + apply (counting_keys_NoDup _ _ 0).
      by rewrite Horder, new_questions_length.
  - rewrite (filter_none _ (new_questions _ _ _ _ _)), app_nil_r; [apply Hd|].
    eapply Forall_impl; [exact Hsid|].
    intros q Hq. apply bool_decide_eq_false. congruence.
Qed.

(** Creating a survey numbers its questions from 0, whether or not the
    request gets through all of them, when the database takes the
    questions it gets to. *)
Lemma POST_surveys_store_ok now userId body db :
  questions_storable (valid_questions (default [] (b_questions body))) →
  store_ok db → store_ok (snd (POST_api_surveys now userId body db)).
Proof.
  intros [Hpg Hlen] Hok. pose proof Hok as [Hc Hf Hd].
  unfold POST_api_surveys, try_catch, bind at 1, lift.
  destruct (insertSurveySchema_parse (b_survey body)) as [surveyData|e] eqn:Hp;
    [|by destruct e].
  destruct (insertSurveySchema_parse_shape _ _ Hp)
    as (title & description & status & anonymous & multipleResponses & ->).
  unfold bind at 1.
  change (spread_createdBy _ userId) with
    (surveys.mk_insert None (Some title) description (Some userId) status
       anonymous multipleResponses None None None).
  rewrite createSurvey_run. cbv zeta.
  set (survey := surveys.mk _ _ _ _ _ _ _ _ _ _).
  destruct (decide (constraints _)) as [Hc2|];
    [|by apply (store_ok_with_seed (with_seed _ db)), store_ok_with_seed].
  pose proof (add_survey_fresh survey db eq_refl eq_refl Hf) as Hf2.
  set (db2 := with_surveys _ _) in *.
  assert (questions_in (surveys.id survey) db2 = []) as Hnone.
  { unfold questions_in, db2. cbn [tbl_questions with_surveys with_seed].
    apply filter_none. destruct Hc as [_ _ _ _ _ Hfk _ _ _ _ _ _].
    eapply Forall_impl; [exact Hfk|].
    intros q Hq. apply bool_decide_eq_false. intros E. cbv beta in Hq.
    rewrite E in Hq. apply (Hf (uuid_seed db)); [done|].
    apply elem_of_all_ids. by left. }
  assert (orders_dense db2) as Hd2 by by apply (orders_dense_same_questions db).
  destruct (b_questions body) as [l|]; [|done].
  unfold bind at 1.
  change (imap _ l) with (imap (question_callback now (surveys.id survey)) l).
  rewrite (imap_ext _ (λ index, question_callback now (surveys.id survey) (index + 0)))
    by (intros i x _; simpl; f_equal; lia).
  assert (surveys.id survey ∈ survey_ids db2) as Hin.
  { unfold survey_ids, db2. cbn [tbl_surveys with_surveys].
    rewrite fmap_app. apply elem_of_app. right. by left. }
  cbn [from_option id] in Hpg, Hlen.
  destruct (questions_loop_any now (surveys.id survey) l 0 db2 Hc2 Hf2 Hin Hpg)
    as (outcome & Hrun & Hc3 & Hf3); [done|].
  rewrite Hrun.
  set (db3 := with_questions _ _) in *.
  assert (store_ok db3) as Hok3.
  { constructor; [done|done|].
    eapply (added_questions_dense now (surveys.id survey) _ (valid_questions l) db2);
      [apply valid_questions_valid|done|done|reflexivity]. }
  destruct outcome as [settled|e]; [|by destruct e].
  unfold bind, lift, ret.
  destruct (Promise_all settled) as [|e]; [done|by destruct e].
Qed.

(** Every route serves its request from a good store into a good store. *)
Lemma serve_store_ok db request :
  request_storable request → store_ok db → store_ok (serve db request).
Proof.
  intros Hpg Hok. destruct request; simpl.
  - by rewrite GET_api_surveys_id_reads.
  - by apply POST_surveys_store_ok.
  - by apply PUT_store_ok.
  - by apply DELETE_store_ok.
  - by rewrite GET_api_public_surveys_reads.
  - by apply POST_responses_store_ok.
  - done.
Qed.

Lemma serve_all_store_ok db requests :
  Forall request_storable requests →
  store_ok db → store_ok (serve_all db requests).
Proof.
  revert db. induction requests as [|request requests IH]; intros db Hpg Hok;
    [done|].
  apply Forall_cons in Hpg as [Hr Hpg].
  simpl. apply IH; [done|]. by apply serve_store_ok.
Qed.

Lemma db0_store_ok : store_ok db0.
Proof.
  constructor; [by_compute|apply uuid_fresh_empty|]. intros surveyId. reflexivity.
Qed.
End creation_keeps_store_ok.

(** C4, as amended: after any sequence of requests to the routes in which
    the questions sent with a new survey hold values the database takes,
    served from a store that meets the schema's constraints and has dense
    orders (the empty store is one), the [order] values of the questions of
    any one survey are 0, 1, ..., N-1, without gap or duplicate.  The
    routes create questions only together with their survey, numbered by
    position, and delete them only with their survey; the storage
    operations [createQuestion], [updateQuestion] and [deleteQuestion] on
    their own renumber nothing, and a question the database refuses leaves
    its position unused. *)
Theorem C4_routes_keep_orders_dense
    (db : Db) (requests : list Request) (surveyId : string) :
  store_ok db →
  Forall request_storable requests →
  dense (survey_orders surveyId (serve_all db requests)).
Proof. intros Hok Hpg. by apply serve_all_store_ok. Qed.

Lemma C4_routes_keep_orders_dense_witness :
  let requests :=
    [ post_survey 5 "u" three_questions;
      put_survey 6 "u" "uuid-0"
        (mkSurveyFields JUndefined JUndefined (JString "active") JUndefined JUndefined);
      post_public_response 7 "uuid-1"
        (mkResponseBody JNull
           (Some [mkAnswerFields (JString "uuid-2") (JString "A")]));
      post_survey 8 "v" three_questions;
      delete_survey "v" "uuid-7" ] in
  store_ok db0
  ∧ Forall request_storable requests
  ∧ dense (survey_orders "uuid-0" (serve_all db0 requests))
  ∧ survey_orders "uuid-0" (serve_all db0 requests) = [0; 1; 2]%Z
  ∧ survey_ids (serve_all db0 requests) = ["uuid-0"].
Proof.
  intros requests.
  assert (Forall request_storable requests) as Hpg.
  { repeat constructor; simpl; lia. }
  split_and!.
  - exact db0_store_ok.
  - exact Hpg.
  - exact (C4_routes_keep_orders_dense db0 requests "uuid-0" db0_store_ok Hpg).
  - vm_compute. reflexivity.
  - vm_compute. reflexivity.
Defined.

(** A question the database refuses leaves a gap as well: of three
    questions the second of which holds the character U+0000, the first
    and the third are stored, under the orders 0 and 2. *)
Example refused_question_leaves_gap :
  ∃ db1,
    POST_api_surveys 5 "u" three_questions_second_nul db0
    = (Returns (status_json 500 "Failed to create survey"), db1)
    ∧ survey_ids db1 = ["uuid-0"]
    ∧ survey_orders "uuid-0" db1 = [0; 2]%Z
    ∧ ¬ dense (survey_orders "uuid-0" db1).
Proof.
  eexists. split_and!;
    [vm_compute; reflexivity..|vm_compute; discriminate].
Qed.

(** * Owner-only routes *)

(** A closed statement about every row of a table. *)
Ltac each_row :=
  lazymatch goal with
  | |- ∀ x, x ∈ ?l → @?P x => apply (proj1 (Forall_forall P l)); by_compute
  end.

Section owner_gate.
Implicit Types (db : Db) (userId id : string).

(** Whether the route's guard lets [userId] through to the survey [id]. *)
Lemma gate_closed userId id db :
  (∀ survey, survey ∈ tbl_surveys db → surveys.id survey = id →
     surveys.createdBy survey ≠ userId) →
  match head (List.filter (Drizzle.eq surveys.id id) (tbl_surveys db)) with
  | Some survey => negb (bool_decide (surveys.createdBy survey = userId)) = true
  | None => True
  end.
Proof.
  intros Hforeign. destruct (head _) as [survey|] eqn:Hhead; [|done].
  apply head_filter_Some in Hhead as [Hin Hid].
  apply bool_decide_eq_true in Hid.
  rewrite bool_decide_eq_false_2; [done|]. by apply Hforeign.
Qed.

Lemma gate_open (survey : Survey) db :
  NoDup (survey_ids db) → survey ∈ tbl_surveys db →
  head (List.filter (Drizzle.eq surveys.id (surveys.id survey)) (tbl_surveys db))
  = Some survey.
Proof. intros. by apply head_filter_unique. Qed.
End owner_gate.

(** X1.  [GET /api/surveys/:id] serves a survey to its creator only: the
    creator receives the survey with all its questions in ascending
    [order]; any other user receives the same 404 as for an identifier
    that no survey carries.  An identifier that holds the character
    U+0000 is refused by the database, and the reply is 500.  Nothing is
    written. *)
Theorem survey_read_owner_only (userId id : string) (db : Db) :
  NoDup (survey_ids db) →
  (∀ survey, survey ∈ tbl_surveys db →
     surveys.id survey = id → surveys.createdBy survey = userId →
     ∃ questions,
       GET_api_surveys_id userId id db
       = (Returns (json (mkSurveyWithQuestions survey questions)), db)
       ∧ Sorted (λ a b, (questions.order a ≤ questions.order b)%Z) questions
       ∧ questions ≡ₚ questions_in id db)
  ∧ (∀ survey, survey ∈ tbl_surveys db →
       surveys.id survey = id → surveys.createdBy survey ≠ userId →
       GET_api_surveys_id userId id db = (Returns not_found, db))
  ∧ (id ∉ survey_ids db →
     GET_api_surveys_id userId id db
     = (Returns (absent_reply id "Failed to fetch survey"), db)).
Proof.
  intros Hnd. unfold GET_api_surveys_id, try_catch, bind. split_and!.
  - intros survey Hin <- Hown.
    rewrite getSurvey_run by done.
    rewrite bool_decide_eq_true_2 by done. cbn [negb].
    rewrite getQuestionsBySurvey_run.
    eexists. split_and!; [reflexivity|apply orderBy_Sorted|apply orderBy_Permutation].
  - intros survey Hin <- Hforeign.
    rewrite getSurvey_run by done. by rewrite bool_decide_eq_false_2.
  - intros Habsent. rewrite getSurvey_absent by done.
    unfold absent_reply. by destruct (pg_text id).
Qed.

Lemma survey_read_owner_only_witness :
  NoDup (survey_ids sample_db)
  ∧ (∃ questions,
       GET_api_surveys_id "u" "s1" sample_db
       = (Returns (json (mkSurveyWithQuestions survey_u1 questions)), sample_db)
       ∧ Sorted (λ a b, (questions.order a ≤ questions.order b)%Z) questions
       ∧ questions ≡ₚ questions_in "s1" sample_db)
  ∧ GET_api_surveys_id "v" "s1" sample_db = (Returns not_found, sample_db)
  ∧ GET_api_surveys_id "v" "nope" sample_db = (Returns not_found, sample_db)
  ∧ GET_api_surveys_id "v" token_with_nul sample_db
    = (Returns (status_json 500 "Failed to fetch survey"), sample_db).
Proof.
  assert (NoDup (survey_ids sample_db)) as Hnd by by_compute.
  split_and!.
  - exact Hnd.
  - apply (proj1 (survey_read_owner_only "u" "s1" sample_db Hnd) survey_u1);
      [by_compute|reflexivity|reflexivity].
  - apply (proj1 (proj2 (survey_read_owner_only "v" "s1" sample_db Hnd)) survey_u1);
      [by_compute|reflexivity|discriminate].
  - apply (proj2 (proj2 (survey_read_owner_only "v" "nope" sample_db Hnd))).
    by_compute.
  - apply (proj2 (proj2 (survey_read_owner_only "v" token_with_nul sample_db Hnd))).
    by_compute.
Defined.

(** X2.  A user who is not the creator of a survey cannot change, delete
    or read the responses of it: [PUT /api/surveys/:id],
    [DELETE /api/surveys/:id] and [GET /api/surveys/:id/responses] reply 404
    whatever the body, and leave every table as it was.  So they do for an
    identifier that no survey carries; when such an identifier holds the
    character U+0000 the database refuses it and the reply is 500, with
    every table as it was. *)
Theorem foreign_survey_untouched
    (now : nat) (userId id : string) (body : SurveyFields) (db : Db) :
  NoDup (survey_ids db) →
  (∀ survey, survey ∈ tbl_surveys db →
     surveys.id survey = id → surveys.createdBy survey ≠ userId →
     PUT_api_surveys_id now userId id body db = (Returns not_found, db)
     ∧ DELETE_api_surveys_id userId id db = (Returns not_found, db)
     ∧ GET_api_surveys_id_responses userId id db = (Returns not_found, db))
  ∧ (id ∉ survey_ids db →
     PUT_api_surveys_id now userId id body db
     = (Returns (absent_reply id "Failed to update survey"), db)
     ∧ DELETE_api_surveys_id userId id db
       = (Returns (absent_reply id "Failed to delete survey"), db)
     ∧ GET_api_surveys_id_responses userId id db
       = (Returns (absent_reply id "Failed to fetch responses"), db)).
Proof.
  intros Hnd.
  unfold PUT_api_surveys_id, DELETE_api_surveys_id, GET_api_surveys_id_responses,
    try_catch, bind.
  split.
  - intros survey Hin <- Hforeign.
    rewrite getSurvey_run by done. by rewrite bool_decide_eq_false_2.
  - intros Habsent. rewrite getSurvey_absent by done.
    unfold absent_reply. by destruct (pg_text id).
Qed.

Lemma foreign_survey_untouched_witness :
  NoDup (survey_ids sample_db)
  ∧ (PUT_api_surveys_id 9 "v" "s1" (status_only "closed") sample_db
     = (Returns not_found, sample_db)
     ∧ DELETE_api_surveys_id "v" "s1" sample_db = (Returns not_found, sample_db)
     ∧ GET_api_surveys_id_responses "v" "s1" sample_db
       = (Returns not_found, sample_db))
  ∧ (PUT_api_surveys_id 9 "v" token_with_nul (status_only "closed") sample_db
     = (Returns (status_json 500 "Failed to update survey"), sample_db)
     ∧ DELETE_api_surveys_id "v" token_with_nul sample_db
       = (Returns (status_json 500 "Failed to delete survey"), sample_db)
     ∧ GET_api_surveys_id_responses "v" token_with_nul sample_db
       = (Returns (status_json 500 "Failed to fetch responses"), sample_db)).
Proof.
  assert (NoDup (survey_ids sample_db)) as Hnd by by_compute.
  split; [exact Hnd|split].
  - apply (proj1 (foreign_survey_untouched 9 "v" "s1" (status_only "closed")
                    sample_db Hnd) survey_u1); [by_compute|reflexivity|discriminate].
  - apply (proj2 (foreign_survey_untouched 9 "v" token_with_nul
                    (status_only "closed") sample_db Hnd)). by_compute.
Defined.

(** * Updating a survey through the route *)

Section put_route.
Implicit Types (db : Db) (survey : Survey).

Lemma insertSurveySchema_partial_parse_shape (b : SurveyFields) surveyData :
  insertSurveySchema_partial_parse b = Returns surveyData →
  ∃ title description status anonymous multipleResponses,
    surveyData = surveys.mk_insert None title description None status
                   anonymous multipleResponses None None None.
Proof.
  unfold insertSurveySchema_partial_parse, obind.
  destruct (Zod.optional _ (f_title b)) as [title|]; [|by intros [=]].
  destruct (Zod.optional _ (f_description b)) as [description|]; [|by intros [=]].
  destruct (Zod.optional _ (f_status b)) as [status|]; [|by intros [=]].
  destruct (Zod.optional _ (f_anonymous b)) as [anonymous|]; [|by intros [=]].
  destruct (Zod.optional _ (f_multipleResponses b)) as [multipleResponses|];
    [|by intros [=]].
  intros [= <-]. by do 5 eexists.
Qed.

(** The table of surveys after an update of the rows with key [id]. *)
Lemma PUT_run_owner now survey body surveyData db :
  constraints db → survey ∈ tbl_surveys db →
  insertSurveySchema_partial_parse body = Returns surveyData →
  pg_survey_values surveyData = true →
  let values := spread_updatedAt surveyData now in
  let db' := with_surveys
    ((λ r, if Drizzle.eq surveys.id (surveys.id survey) r
           then set_survey values r else r) <$> tbl_surveys db) db in
  PUT_api_surveys_id now (surveys.createdBy survey) (surveys.id survey) body db
  = (Returns (json (Some (set_survey values survey))), db')
  ∧ constraints db'
  ∧ set_survey values survey ∈ tbl_surveys db'.
Proof.
  intros Hc Hin Hp Hpg values db'.
  assert (constraints db') as Hc'.
  { pose proof Hp as Hshape.
    apply insertSurveySchema_partial_parse_shape in Hshape
      as (title & description & status & anonymous & multipleResponses & ->).
    by apply updateSurvey_constraints. }
  split_and!; [|done|].
  - unfold PUT_api_surveys_id, try_catch, bind at 1.
    rewrite getSurvey_run by (done || apply Hc).
    rewrite bool_decide_eq_true_2 by done. cbn [negb].
    unfold bind at 1, lift. rewrite Hp.
    unfold bind at 1. rewrite updateSurvey_run. cbv zeta.
    rewrite (proj1 (stored_survey_text survey db Hc Hin)), Hpg. cbn [andb].
    fold values. fold db'. rewrite decide_True by done.
    rewrite filter_unique by (done || apply Hc). done.
  - unfold db'. cbn [tbl_surveys with_surveys].
    apply list_elem_of_fmap. exists survey. split; [|done].
    unfold Drizzle.eq. by rewrite bool_decide_eq_true_2.
Qed.
(** The store after the route has answered: as it was, or with the
    addressed rows updated from the columns the schema lets through. *)
Lemma PUT_run_cases now userId id body db :
  snd (PUT_api_surveys_id now userId id body db) = db
  ∨ ∃ title description status anonymous multipleResponses,
      snd (PUT_api_surveys_id now userId id body db)
      = with_surveys
          ((λ r, if Drizzle.eq surveys.id id r
                 then set_survey
                        (spread_updatedAt
                           (surveys.mk_insert None title description None status
                              anonymous multipleResponses None None None) now) r
                 else r) <$> tbl_surveys db) db.
Proof.
  unfold PUT_api_surveys_id, try_catch, bind, lift.
  destruct (getSurvey_cases id db) as [(survey & _ & _ & ->)|[_ ->]];
    [|by destruct (pg_text id); left].
  destruct (negb (bool_decide _)); [by left|].
  destruct (insertSurveySchema_partial_parse body) as [surveyData|e] eqn:Hp;
    [|by destruct e; left].
  apply insertSurveySchema_partial_parse_shape in Hp
    as (title & description & status & anonymous & multipleResponses & ->).
  rewrite updateSurvey_run. cbv zeta.
  destruct (_ && _); [|by left].
  destruct (decide _) as [Hc2|]; [|by left].
  right. by exists title, description, status, anonymous, multipleResponses.
Qed.
End put_route.

(** X3.  Whatever the caller and the body, [PUT /api/surveys/:id] changes
    no survey other than the one addressed, never changes a survey's [id],
    creator, share token or creation time, and leaves the questions,
    responses and answers alone: the questions sent along by the survey
    builder are not stored. *)
Theorem PUT_keeps_keys_and_questions
    (now : nat) (userId id : string) (body : SurveyFields) (db : Db) :
  let db' := snd (PUT_api_surveys_id now userId id body db) in
  Forall2 (λ s s',
      surveys.id s' = surveys.id s
      ∧ surveys.createdBy s' = surveys.createdBy s
      ∧ surveys.shareToken s' = surveys.shareToken s
      ∧ surveys.createdAt s' = surveys.createdAt s
      ∧ (s' = s ∨ surveys.id s = id))
    (tbl_surveys db) (tbl_surveys db')
  ∧ tbl_questions db' = tbl_questions db
  ∧ tbl_responses db' = tbl_responses db
  ∧ tbl_answers db' = tbl_answers db.
Proof.
  assert (Forall2 (λ s s' : Survey,
      surveys.id s' = surveys.id s
      ∧ surveys.createdBy s' = surveys.createdBy s
      ∧ surveys.shareToken s' = surveys.shareToken s
      ∧ surveys.createdAt s' = surveys.createdAt s
      ∧ (s' = s ∨ surveys.id s = id)) (tbl_surveys db) (tbl_surveys db)) as Hsame.
  { apply Forall_Forall2_diag, Forall_forall. intros s _. split_and!; [done..|by left]. }
  cbv zeta.
  destruct (PUT_run_cases now userId id body db)
    as [->|(title & description & status & anonymous & multipleResponses & ->)];
    [by split_and!|].
  cbn [tbl_surveys tbl_questions tbl_responses tbl_answers with_surveys].
  split_and!; try done.
  apply Forall2_fmap_r, Forall_Forall2_diag, Forall_forall. intros s _.
  unfold compose, Drizzle.eq. case_bool_decide; (split_and!; [done..|]); [by right|by left].
Qed.

(** * The dashboard's status toggle *)

Section toggle.
Implicit Types (db : Db) (survey : Survey).

Lemma public_lookup survey db :
  constraints db → survey ∈ tbl_surveys db →
  head (List.filter (Drizzle.eq surveys.shareToken (surveys.shareToken survey))
          (tbl_surveys db)) = Some survey.
Proof. intros Hc Hin. apply head_filter_unique; [apply Hc|done]. Qed.
End toggle.

(** X4.  The dashboard's toggle, followed through its [PUT]: called for a
    survey of the signed-in user with the status the survey has, it
    changes the status and [updatedAt] and nothing else.  An active survey becomes closed, and from then on the public
    page stops serving it and its link accepts no response; a survey in
    any other status (draft or closed) becomes active and is served. *)
Theorem toggle_switches_public_access (now : nat) (survey : Survey) (db : Db) :
  constraints db → survey ∈ tbl_surveys db →
  ∃ updated db',
    handleToggleStatus now (surveys.createdBy survey) (surveys.id survey)
      (surveys.status survey) db
    = (Returns (json (Some updated)), db')
    ∧ updated
      = surveys.mk (surveys.id survey) (surveys.title survey)
          (surveys.description survey) (surveys.createdBy survey)
          (toggled (surveys.status survey)) (surveys.anonymous survey)
          (surveys.multipleResponses survey) (surveys.shareToken survey)
          (surveys.createdAt survey) (Some now)
    ∧ updated ∈ tbl_surveys db'
    ∧ (surveys.status survey = "active" →
         surveys.status updated = "closed"
         ∧ GET_api_public_surveys (surveys.shareToken survey) db'
           = (Returns not_found_or_inactive, db')
         ∧ ∀ now' body,
             POST_api_public_surveys_responses now' (surveys.shareToken survey)
               body db'
             = (Returns not_found_or_inactive, db'))
    ∧ (surveys.status survey ≠ "active" →
         surveys.status updated = "active"
         ∧ ∃ questions,
             GET_api_public_surveys (surveys.shareToken survey) db'
             = (Returns (json (mkSurveyWithQuestions updated questions)), db')
             ∧ questions ≡ₚ questions_in (surveys.id survey) db).
Proof.
  intros Hc Hin. unfold handleToggleStatus.
  destruct (PUT_run_owner now survey (status_only (toggled (surveys.status survey)))
              (surveys.mk_insert None None None None
                 (Some (toggled (surveys.status survey))) None None None None None)
              db Hc Hin eq_refl) as (Hrun & Hc' & Hin');
    [by unfold toggled; case_decide|].
  cbv zeta in Hrun, Hc', Hin'.
  set (db' := with_surveys _ db) in Hrun, Hc', Hin'.
  set (updated := set_survey _ survey) in Hrun, Hin'.
  assert (head (List.filter
                  (Drizzle.eq surveys.shareToken (surveys.shareToken survey))
                  (tbl_surveys db')) = Some updated) as Hlook
    by exact (public_lookup updated db' Hc' Hin').
  assert (getSurveyByShareToken (surveys.shareToken survey) db'
          = (Returns (Some updated), db')) as Hget
    by exact (getSurveyByShareToken_run updated db' (unique_shareToken _ Hc') Hin').
  exists updated, db'. split; [exact Hrun|]. split; [reflexivity|].
  split; [exact Hin'|].
  split.
  - intros Hact.
    assert (surveys.status updated = "closed") as Hst.
    { unfold updated. simpl. unfold toggled. by rewrite decide_True. }
    split; [exact Hst|]. split.
    + unfold GET_api_public_surveys, try_catch, bind.
      rewrite Hget, Hst. reflexivity.
    + intros now' body. rewrite POST_responses_run, Hlook, Hst. reflexivity.
  - intros Hact.
    assert (surveys.status updated = "active") as Hst.
    { unfold updated. simpl. unfold toggled. by rewrite decide_False. }
    split; [exact Hst|].
    unfold GET_api_public_surveys, try_catch, bind.
    rewrite Hget, Hst.
    rewrite bool_decide_eq_true_2 by done. cbn [negb].
    rewrite getQuestionsBySurvey_run.
    eexists. split; [reflexivity|].
    apply orderBy_Permutation.
Qed.

Lemma toggle_switches_public_access_witness :
  ∃ updated db',
    handleToggleStatus 20 "u" "s1" "active" sample_db
    = (Returns (json (Some updated)), db')
    ∧ updated
      = surveys.mk "s1" "Lunch" None "u" "closed" true false "tok1" (Some 1) (Some 20)
    ∧ updated ∈ tbl_surveys db'
    ∧ (surveys.status survey_u1 = "active" →
         surveys.status updated = "closed"
         ∧ GET_api_public_surveys "tok1" db' = (Returns not_found_or_inactive, db')
         ∧ ∀ now' body,
             POST_api_public_surveys_responses now' "tok1" body db'
             = (Returns not_found_or_inactive, db'))
    ∧ (surveys.status survey_u1 ≠ "active" →
         surveys.status updated = "active"
         ∧ ∃ questions,
             GET_api_public_surveys "tok1" db'
             = (Returns (json (mkSurveyWithQuestions updated questions)), db')
             ∧ questions ≡ₚ questions_in "s1" sample_db).
Proof.
  apply (toggle_switches_public_access 20 survey_u1 sample_db);
    [exact sample_db_constraints|by_compute].
Defined.

(** X5.  A share token that belongs to no survey, or to a survey that is
    not active (a draft, or one closed from the dashboard), accepts no
    response: the route replies 404 whatever the body and writes
    nothing.  A token that no survey carries and that holds the
    character U+0000 is refused by the database: the reply is 500, and
    nothing is written either. *)
Theorem inactive_survey_takes_no_response
    (now : nat) (shareToken : string) (body : ResponseBody) (db : Db) :
  (∀ survey, survey ∈ tbl_surveys db →
     surveys.shareToken survey = shareToken → surveys.status survey ≠ "active") →
  POST_api_public_surveys_responses now shareToken body db
  = (Returns (if bool_decide (shareToken ∈ share_tokens db) || pg_text shareToken
              then not_found_or_inactive
              else status_json 500 "Failed to submit response"), db).
Proof.
  intros Hinactive. rewrite POST_responses_run.
  destruct (head _) as [survey|] eqn:Hhead.
  - apply head_filter_Some in Hhead as [Hin Htok].
    apply bool_decide_eq_true in Htok.
    rewrite bool_decide_eq_false_2 by by apply Hinactive.
    rewrite bool_decide_eq_true_2; [done|].
    rewrite <-Htok. by apply list_elem_of_fmap_2.
  - rewrite bool_decide_eq_false_2; [by destruct (pg_text shareToken)|].
    intros (survey & E & Hin)%list_elem_of_fmap.
    apply (head_filter_None _ _ Hhead) in Hin.
    by apply bool_decide_eq_false in Hin.
Qed.

Lemma inactive_survey_takes_no_response_witness :
  POST_api_public_surveys_responses 10 "tok2"
    (mkResponseBody JNull (Some [mkAnswerFields (JString "q1") (JString "A")]))
    sample_db
  = (Returns not_found_or_inactive, sample_db)
  ∧ POST_api_public_surveys_responses 10 "nope" (mkResponseBody JNull None) sample_db
    = (Returns not_found_or_inactive, sample_db)
  ∧ POST_api_public_surveys_responses 10 token_with_nul (mkResponseBody JNull None)
      sample_db
    = (Returns (status_json 500 "Failed to submit response"), sample_db).
Proof.
  split_and!.
  - apply (inactive_survey_takes_no_response 10 "tok2"
             (mkResponseBody JNull (Some [mkAnswerFields (JString "q1") (JString "A")]))
             sample_db).
    each_row.
  - apply (inactive_survey_takes_no_response 10 "nope" (mkResponseBody JNull None)
             sample_db).
    each_row.
  - apply (inactive_survey_takes_no_response 10 token_with_nul
             (mkResponseBody JNull None) sample_db).
    each_row.
Defined.

(** * Storage operations on rows that are not there *)

Section absent_rows.
Implicit Types (db : Db).


Lemma no_hit_absent_key {R} (key : R → string) (id : string) (l : list R) :
  id ∉ key <$> l → Forall (λ r, Drizzle.eq key id r = false) l.
Proof.
  intros Hid. apply Forall_forall. intros r Hin.
  apply bool_decide_eq_false. intros <-. apply Hid. by apply list_elem_of_fmap_2.
Qed.

Lemma fmap_no_hit {R} (hit : R → bool) (f : R → R) (l : list R) :
  Forall (λ r, hit r = false) l → (λ r, if hit r then f r else r) <$> l = l.
Proof.
  induction 1 as [|r l Hr _ IH]; [done|]. csimpl. by rewrite Hr, IH.
Qed.


End absent_rows.


(** X7.  An update addressed to a row that does not exist is no error
    when the identifier and the payload hold values the database takes: in
    a store that meets the schema's constraints, [updateSurvey] and
    [updateQuestion] (the latter with a non-empty payload) resolve to
    [undefined] and write nothing.  With an identifier or a value that the
    database refuses (a text that holds U+0000, an [order] beyond 32 bits)
    the update fails, although no row is addressed, and writes nothing. *)
Theorem update_of_missing_row (now : nat) (id : string) (db : Db) :
  constraints db →
  (∀ updates, id ∉ survey_ids db →
     updateSurvey now id updates db
     = (if pg_text id && pg_survey_values updates then Returns None
        else Throws (DbError "invalid parameter value"), db))
  ∧ (∀ updates, id ∉ question_ids db → no_values updates = false →
       updateQuestion id updates db
       = (if pg_text id && pg_question_values updates then Returns None
          else Throws (DbError "invalid parameter value"), db)).
Proof.
  intros Hc. split.
  - intros updates Hid. rewrite updateSurvey_run. cbv zeta.
    destruct (_ && _); [|done].
    apply (no_hit_absent_key surveys.id) in Hid.
    rewrite fmap_no_hit, filter_none by done.
    replace (with_surveys (tbl_surveys db) db) with db by by destruct db.
    by rewrite decide_True.
  - intros updates Hid Hv. rewrite updateQuestion_run by done. cbv zeta.
    destruct (_ && _); [|done].
    apply (no_hit_absent_key questions.id) in Hid.
    rewrite fmap_no_hit, filter_none by done.
    replace (with_questions (tbl_questions db) db) with db by by destruct db.
    by rewrite decide_True.
Qed.

Lemma update_of_missing_row_witness :
  updateSurvey 30 "nope" close_survey sample_db = (Returns None, sample_db)
  ∧ updateQuestion "nope" rename_question sample_db = (Returns None, sample_db)
  ∧ updateQuestion "nope" order_beyond_int4 sample_db
    = (Throws (DbError "invalid parameter value"), sample_db)
  ∧ updateSurvey 30 "nope" title_with_nul sample_db
    = (Throws (DbError "invalid parameter value"), sample_db).
Proof.
  destruct (update_of_missing_row 30 "nope" sample_db sample_db_constraints)
    as [Hs Hq].
  split_and!.
  - apply (Hs close_survey). by_compute.
  - apply (Hq rename_question); [by_compute|reflexivity].
  - apply (Hq order_beyond_int4); [by_compute|reflexivity].
  - apply (Hs title_with_nul). by_compute.
Defined.

(** * Deleting a question *)



(** * Rows without their parent *)

Section orphans.
Implicit Types (db : Db).

Lemma no_orphan_question (q : Question) db :
  questions.surveyId q ∉ survey_ids db →
  ¬ constraints (with_questions (tbl_questions db ++ [q]) db).
Proof.
  intros Hid [_ _ _ _ _ Hfk _ _ _ _ _ _]. cbn [tbl_questions with_questions] in Hfk.
  apply Forall_app in Hfk as [_ Hfk].
  by apply (proj1 (Forall_singleton _ _)) in Hfk.
Qed.

Lemma no_orphan_response (r : Response) db :
  responses.surveyId r ∉ survey_ids db →
  ¬ constraints (with_responses (tbl_responses db ++ [r]) db).
Proof.
  intros Hid [_ _ _ _ _ _ Hfk _ _ _ _ _]. cbn [tbl_responses with_responses] in Hfk.
  apply Forall_app in Hfk as [_ Hfk].
  by apply (proj1 (Forall_singleton _ _)) in Hfk.
Qed.

Lemma no_orphan_answer (a : Answer) db :
  answers.responseId a ∉ response_ids db ∨ answers.questionId a ∉ question_ids db →
  ¬ constraints (with_answers (tbl_answers db ++ [a]) db).
Proof.
  intros Hid [_ _ _ _ _ _ _ Hfr Hfq _ _ _]. cbn [tbl_answers with_answers] in Hfr, Hfq.
  apply Forall_app in Hfr as [_ Hfr]. apply Forall_app in Hfq as [_ Hfq].
  apply (proj1 (Forall_singleton _ _)) in Hfr.
  apply (proj1 (Forall_singleton _ _)) in Hfq.
  by destruct Hid.
Qed.
End orphans.

(** X9.  The storage layer stores no row without its parent: a question
    or a response for a survey that does not exist, and an answer whose
    response or question does not exist, are refused with an error, and
    every table is left as it was.  (Only the identifier drawn for the
    refused row is used up.) *)
Theorem orphan_rows_refused (now : nat) (db : Db) :
  (∀ question,
     (∀ surveyId, questions.i_surveyId question = Some surveyId →
        surveyId ∉ survey_ids db) →
     ∃ e db', createQuestion now question db = (Throws e, db') ∧ same_tables db db')
  ∧ (∀ response,
       (∀ surveyId, responses.i_surveyId response = Some surveyId →
          surveyId ∉ survey_ids db) →
       ∃ e db', createResponse now response db = (Throws e, db') ∧ same_tables db db')
  ∧ (∀ answer,
       (∀ responseId questionId,
          answers.i_responseId answer = Some responseId →
          answers.i_questionId answer = Some questionId →
          responseId ∉ response_ids db ∨ questionId ∉ question_ids db) →
       ∃ e db', createAnswer now answer db = (Throws e, db') ∧ same_tables db db').
Proof.
  split_and!.
  - intros [qid sid text type required options order createdAt] Horphan.
    cbn [questions.i_surveyId] in Horphan.
    unfold createQuestion, bind, default_uuid, not_null, get_db, commit, ret,
      throw, draw_uuid. cbn [questions.i_id questions.i_surveyId questions.i_text
      questions.i_type questions.i_order].
    destruct qid, sid as [surveyId|], text, type, order;
      try (by eexists _, _; split; [reflexivity|]);
      (destruct (decide (constraints _)) as [Hc|];
        [|by eexists _, _; split; [reflexivity|]]);
      by apply no_orphan_question in Hc; [|apply Horphan].
  - intros [rid sid respondentId createdAt] Horphan.
    cbn [responses.i_surveyId] in Horphan.
    unfold createResponse, bind, default_uuid, not_null, get_db, commit, ret,
      throw, draw_uuid. cbn [responses.i_id responses.i_surveyId].
    destruct rid, sid as [surveyId|];
      try (by eexists _, _; split; [reflexivity|]);
      (destruct (decide (constraints _)) as [Hc|];
        [|by eexists _, _; split; [reflexivity|]]);
      by apply no_orphan_response in Hc; [|apply Horphan].
  - intros [aid rid qid value createdAt] Horphan.
    cbn [answers.i_responseId answers.i_questionId] in Horphan.
    unfold createAnswer, bind, default_uuid, not_null, get_db, commit, ret,
      throw, draw_uuid. cbn [answers.i_id answers.i_responseId
      answers.i_questionId answers.i_value].
    destruct aid, rid as [responseId|], qid as [questionId|], value;
      try (by eexists _, _; split; [reflexivity|]);
      (destruct (decide (constraints _)) as [Hc|];
        [|by eexists _, _; split; [reflexivity|]]);
      by apply no_orphan_answer in Hc; [|apply Horphan].
Qed.

Lemma orphan_rows_refused_witness :
  (∃ e db',
     createQuestion 40
       (questions.mk_insert None (Some "nope") (Some "Dish?") (Some "text") None
          None (Some 0%Z) None) sample_db
     = (Throws e, db') ∧ same_tables sample_db db')
  ∧ (∃ e db',
       createResponse 40 (responses.mk_insert None (Some "nope") None None) sample_db
       = (Throws e, db') ∧ same_tables sample_db db')
  ∧ (∃ e db',
       createAnswer 40
         (answers.mk_insert None (Some "r1") (Some "nope") (Some "A") None) sample_db
       = (Throws e, db') ∧ same_tables sample_db db').
Proof.
  destruct (orphan_rows_refused 40 sample_db) as (Hq & Hr & Ha).
  split_and!.
  - apply Hq. intros surveyId [= <-]. by_compute.
  - apply Hr. intros surveyId [= <-]. by_compute.
  - apply Ha. intros responseId questionId [= <-] [= <-]. right. by_compute.
Defined.

(** * Listing surveys and reading responses *)

Section newest_first.
Context {R : Type} (col : R → option nat).

Global Instance newest_first_total : Total (newest_first col).
Proof.
  intros a b. unfold newest_first.
  destruct (col a), (col b); simpl; try tauto. lia.
Qed.

Global Instance newest_first_trans : Transitive (newest_first col).
Proof.
  intros a b c. unfold newest_first.
  destruct (col a), (col b), (col c); simpl; try tauto. lia.
Qed.

Lemma orderBy_desc_Sorted l : Sorted (newest_first col) (orderBy_desc col l).
Proof. apply Sorted_merge_sort, _. Qed.

Lemma orderBy_desc_Permutation l : orderBy_desc col l ≡ₚ l.
Proof. apply merge_sort_Permutation. Qed.
End newest_first.

Section joins.
Context {R S : Type} (fk : R → string) (key : S → string).

(** With [key] unique, a row is joined with at most one row of the other
    table. *)
Lemma join_unique_key (c : S → bool) (r : R) (l : list S) :
  NoDup (key <$> l) →
  fst <$> List.filter (λ rs, c (snd rs))
            ((λ s, (r, s)) <$> List.filter (λ s, bool_decide (fk r = key s)) l)
  = if bool_decide (fk r ∈ key <$> List.filter c l) then [r] else [].
Proof.
  intros Hnd.
  rewrite (List.filter_ext _ (Drizzle.eq key (fk r)))
    by (intros s; unfold Drizzle.eq; apply bool_decide_ext; naive_solver).
  destruct (decide (fk r ∈ key <$> l)) as [Hin|Hout].
  - apply list_elem_of_fmap in Hin as (s & -> & Hin).
    rewrite filter_unique by done. simpl.
    destruct (c s) eqn:Hc; simpl.
    + rewrite bool_decide_eq_true_2; [done|].
      apply list_elem_of_fmap. exists s. split; [done|].
      by apply elem_of_List_filter.
    + rewrite bool_decide_eq_false_2; [done|].
      intros (s' & Hk & [Hin' Hc']%elem_of_List_filter)%list_elem_of_fmap.
      assert (s = s') as <- by by eapply (NoDup_column_inj key).
      congruence.
  - rewrite (filter_none (Drizzle.eq key (fk r))) by by apply no_hit_absent_key.
    rewrite bool_decide_eq_false_2; [done|].
    intros ?%fmap_filter_subset. by apply Hout.
Qed.

Lemma join_rows (c : S → bool) (rs : list R) (l : list S) :
  NoDup (key <$> l) →
  fst <$> List.filter (λ rs, c (snd rs))
            (r ← rs; (λ s, (r, s)) <$> List.filter (λ s, bool_decide (fk r = key s)) l)
  = List.filter (λ r, bool_decide (fk r ∈ key <$> List.filter c l)) rs.
Proof.
  intros Hnd. induction rs as [|r rs IH]; [done|].
  change ((r :: rs) ≫= ?f) with (f r ++ (rs ≫= f)).
  rewrite List.filter_app, fmap_app, IH, join_unique_key by done.
  simpl. by destruct (bool_decide _).
Qed.
End joins.

Section reading.
Implicit Types (db : Db) (userId : string).

Lemma map_all_reads {A B} (f : A → M B) (g : Db → A → B) (l : list A) db :
  (∀ x, f x db = (Returns (g db x), db)) →
  map_all f l db = (Returns (g db <$> l), db).
Proof.
  intros Hf. induction l as [|x l IH]; [done|].
  simpl. unfold bind. by rewrite Hf, IH.
Qed.

Lemma GET_api_surveys_run userId db :
  GET_api_surveys userId db
  = (Returns (json ((λ survey,
        mkSurveyWithStats survey (length (responses_in (surveys.id survey) db)))
       <$> orderBy_desc surveys.createdAt (owned_by userId db))), db).
Proof.
  unfold GET_api_surveys, try_catch, bind at 1.
  change (getSurveysByUser userId db)
    with (Returns (orderBy_desc surveys.createdAt (owned_by userId db)), db).
  unfold bind at 1.
  by rewrite (map_all_reads _ (λ db survey,
    mkSurveyWithStats survey (length (responses_in (surveys.id survey) db)))).
Qed.

Lemma fmap_stats_survey (count : Survey → nat) (l : list Survey) :
  stats_survey <$> ((λ survey, mkSurveyWithStats survey (count survey)) <$> l) = l.
Proof. induction l as [|s l IH]; [done|]. csimpl. by f_equal. Qed.

Lemma getAnswersBySurvey_run surveyId db :
  NoDup (response_ids db) →
  getAnswersBySurvey surveyId db
  = (Returns (List.filter (λ a, bool_decide (answers.responseId a ∈
                responses.id <$> responses_in surveyId db)) (tbl_answers db)), db).
Proof.
  intros Hnd. unfold getAnswersBySurvey, reads. f_equal. f_equal.
  unfold Drizzle.rows, Drizzle.where_, Drizzle.innerJoin, Drizzle.from.
  cbn [Drizzle.sel_where Drizzle.sel_from].
  exact (join_rows answers.responseId responses.id
           (Drizzle.eq responses.surveyId surveyId) _ _ Hnd).
Qed.
End reading.

(** X10.  [GET /api/surveys] lists exactly the surveys the caller created,
    each once, the most recently created first, and gives with each the
    number of responses stored for it.  Nothing is written. *)
Theorem survey_list_of_owner (userId : string) (db : Db) :
  ∃ listed,
    GET_api_surveys userId db = (Returns (json listed), db)
    ∧ stats_survey <$> listed ≡ₚ owned_by userId db
    ∧ Sorted (newest_first surveys.createdAt) (stats_survey <$> listed)
    ∧ Forall (λ entry,
        responseCount entry
        = length (responses_in (surveys.id (stats_survey entry)) db)) listed.
Proof.
  eexists. split; [apply GET_api_surveys_run|].
  rewrite fmap_stats_survey. split_and!.
  - apply orderBy_desc_Permutation.
  - apply orderBy_desc_Sorted.
  - by apply Forall_fmap, Forall_forall.
Qed.

(** X11.  [GET /api/surveys/:id/responses], asked by the creator of the
    survey in a store that meets the schema's constraints, returns every
    response to that survey, the most recent first, and exactly the
    answers that belong to one of these responses, in table order; the
    count shown on the dashboard ([getResponseCount]) is the number of
    responses listed here. *)
Theorem responses_read_by_owner (survey : Survey) (db : Db) :
  constraints db → survey ∈ tbl_surveys db →
  ∃ responses answers,
    GET_api_surveys_id_responses (surveys.createdBy survey) (surveys.id survey) db
    = (Returns (json (mkResponseData responses answers)), db)
    ∧ responses ≡ₚ responses_in (surveys.id survey) db
    ∧ Sorted (newest_first responses.createdAt) responses
    ∧ answers
      = List.filter (λ a, bool_decide (answers.responseId a ∈
          responses.id <$> responses_in (surveys.id survey) db)) (tbl_answers db)
    ∧ getResponseCount (surveys.id survey) db = (Returns (length responses), db).
Proof.
  intros Hc Hin.
  exists (orderBy_desc responses.createdAt (responses_in (surveys.id survey) db)).
  eexists. split_and!.
  - unfold GET_api_surveys_id_responses, try_catch, bind at 1.
    rewrite getSurvey_run by (done || apply Hc).
    rewrite bool_decide_eq_true_2 by done. cbn [negb].
    unfold bind at 1.
    change (getResponsesBySurvey (surveys.id survey) db)
      with (Returns (orderBy_desc responses.createdAt
                       (responses_in (surveys.id survey) db)), db).
    cbv iota beta. unfold bind at 1.
    rewrite getAnswersBySurvey_run by apply Hc. reflexivity.
  - apply orderBy_desc_Permutation.
  - apply orderBy_desc_Sorted.
  - reflexivity.
  - unfold getResponseCount, reads. f_equal. f_equal.
    symmetry. apply Permutation_length, orderBy_desc_Permutation.
Qed.

Lemma responses_read_by_owner_witness :
  ∃ responses answers,
    GET_api_surveys_id_responses "u" "s1" sample_db
    = (Returns (json (mkResponseData responses answers)), sample_db)
    ∧ responses ≡ₚ responses_in "s1" sample_db
    ∧ Sorted (newest_first responses.createdAt) responses
    ∧ answers
      = List.filter (λ a, bool_decide (answers.responseId a ∈
          responses.id <$> responses_in "s1" sample_db)) (tbl_answers sample_db)
    ∧ getResponseCount "s1" sample_db = (Returns (length responses), sample_db).
Proof.
  apply (responses_read_by_owner survey_u1 sample_db);
    [exact sample_db_constraints|by_compute].
Defined.

(** * The state of the public form *)

Section objects.
Context {V : Type}.
Implicit Types (o : JsObject.t V) (k : string) (v : V).

Lemma hasOwn_in k o : JsObject.hasOwn k o = true ↔ k ∈ o.*1.
Proof. apply bool_decide_eq_true. Qed.

Lemma hasOwn_out k o : JsObject.hasOwn k o = false ↔ k ∉ o.*1.
Proof. apply bool_decide_eq_false. Qed.

Lemma entries_Permutation o : JsObject.entries o ≡ₚ o.
Proof.
  unfold JsObject.entries. rewrite merge_sort_Permutation.
  induction o as [|[k v] o IH]; [done|].
  unfold JsObject.indexed, JsObject.named in *. simpl.
  destruct (JsObject.array_index k) as [n|] eqn:Hk; simpl.
  - constructor. exact IH.
  - rewrite <- Permutation_middle. constructor. exact IH.
Qed.

Lemma replace_keys k v o : (JsObject.replace k v o).*1 = o.*1.
Proof.
  induction o as [|[k' w] o IH]; [done|]. csimpl.
  destruct (decide (k' = k)); csimpl; [done|]. by rewrite IH.
Qed.

Lemma define_NoDup k v o : NoDup o.*1 → NoDup (JsObject.define k v o).*1.
Proof.
  intros Hnd. unfold JsObject.define.
  destruct (JsObject.hasOwn k o) eqn:Hown.
  - by rewrite replace_keys.
  - apply hasOwn_out in Hown. rewrite fmap_app. apply NoDup_app.
    split; [done|]. split; [|apply NoDup_singleton].
    intros k' Hin ->%list_elem_of_singleton. by apply Hown.
Qed.

Lemma getOwn_replace k v o k' :
  k ∈ o.*1 →
  JsObject.getOwn k' (JsObject.replace k v o)
  = if decide (k' = k) then Some v else JsObject.getOwn k' o.
Proof.
  induction o as [|[k0 w] o IH]; [by intros ?%elem_of_nil|].
  intros Hin. simpl. destruct (decide (k0 = k)) as [->|Hne]; simpl.
  - destruct (decide (k = k')) as [->|]; [by rewrite decide_True|].
    by rewrite decide_False.
  - destruct (decide (k0 = k')) as [->|].
    + by rewrite decide_False.
    + apply IH. simpl in Hin. by apply elem_of_cons in Hin as [|].
Qed.

Lemma getOwn_app_fresh k v o k' :
  k ∉ o.*1 →
  JsObject.getOwn k' (o ++ [(k, v)])
  = if decide (k' = k) then Some v else JsObject.getOwn k' o.
Proof.
  induction o as [|[k0 w] o IH]; intros Hk; simpl.
  - destruct (decide (k = k')) as [->|]; [by rewrite decide_True|].
    by rewrite decide_False.
  - simpl in Hk. apply not_elem_of_cons in Hk as [Hne Hk].
    destruct (decide (k0 = k')) as [->|]; [by rewrite decide_False|].
    by apply IH.
Qed.

Lemma getOwn_define k v o k' :
  JsObject.getOwn k' (JsObject.define k v o)
  = if decide (k' = k) then Some v else JsObject.getOwn k' o.
Proof.
  unfold JsObject.define. destruct (JsObject.hasOwn k o) eqn:Hown.
  - apply getOwn_replace. by apply hasOwn_in.
  - apply getOwn_app_fresh. by apply hasOwn_out.
Qed.

(** With distinct keys, reading a property is a matter of membership. *)
Lemma getOwn_Some k v o :
  NoDup o.*1 → JsObject.getOwn k o = Some v ↔ (k, v) ∈ o.
Proof.
  induction o as [|[k0 w] o IH]; intros Hnd; simpl.
  - split; [done|by intros ?%elem_of_nil].
  - simpl in Hnd. apply NoDup_cons in Hnd as [Hk0 Hnd].
    destruct (decide (k0 = k)) as [->|Hne].
    + split.
      * intros [= ->]. by left.
      * intros [[= ->]|Hin]%elem_of_cons; [done|].
        destruct Hk0. by apply (list_elem_of_fmap_2 fst) in Hin.
    + rewrite IH by done. split; [by right|].
      by intros [[= ? ?]|Hin]%elem_of_cons.
Qed.

Lemma getOwn_Permutation k o o' :
  NoDup o.*1 → o ≡ₚ o' → JsObject.getOwn k o = JsObject.getOwn k o'.
Proof.
  intros Hnd Hp.
  assert (NoDup o'.*1) as Hnd' by by rewrite <- Hp.
  destruct (JsObject.getOwn k o) as [v|] eqn:Ho.
  - symmetry. apply getOwn_Some; [done|]. rewrite <- Hp. by apply getOwn_Some.
  - destruct (JsObject.getOwn k o') as [v|] eqn:Ho'; [|done].
    apply getOwn_Some in Ho'; [|done]. rewrite <- Hp in Ho'.
    apply getOwn_Some in Ho'; [|done]. congruence.
Qed.
End objects.

Section form_state.
Implicit Types (inputs : list (string * string)).

Lemma form_after_snoc inputs questionId value :
  form_after (inputs ++ [(questionId, value)])
  = handleInputChange questionId value (form_after inputs).
Proof. unfold form_after. by rewrite foldl_app. Qed.

Lemma handleInputChange_NoDup questionId value prev :
  NoDup prev.*1 → NoDup (handleInputChange questionId value prev).*1.
Proof.
  intros Hnd. apply define_NoDup. unfold JsObject.spread.
  by rewrite entries_Permutation.
Qed.

Lemma form_after_NoDup inputs : NoDup (form_after inputs).*1.
Proof.
  induction inputs as [|[questionId value] inputs IH] using rev_ind.
  - apply NoDup_nil_2.
  - rewrite form_after_snoc. by apply handleInputChange_NoDup.
Qed.

Lemma getOwn_handleInputChange questionId value prev k :
  NoDup prev.*1 →
  JsObject.getOwn k (handleInputChange questionId value prev)
  = if decide (k = questionId) then Some value else JsObject.getOwn k prev.
Proof.
  intros Hnd. unfold handleInputChange. rewrite getOwn_define.
  destruct (decide _); [done|]. unfold JsObject.spread.
  symmetry. apply getOwn_Permutation; [done|]. symmetry. apply entries_Permutation.
Qed.

Lemma posted_questionIds (l : list (string * string)) :
  (λ v, match v with JString s => s | _ => EmptyString end)
  <$> (f_questionId
       <$> ((λ '(questionId, value),
               mkAnswerFields (JString questionId) (JString value)) <$> l))
  = l.*1.
Proof. induction l as [|[k v] l IH]; [done|]. csimpl. by f_equal. Qed.
End form_state.

(** X12.  The public form keeps one entry per question, holding the value
    entered last: after any sequence of inputs, the keys of the form state
    are pairwise distinct, a question's entry is the last value entered
    for it (none if nothing was), and the answers [handleSubmit] posts then
    carry pairwise distinct question identifiers. *)
Theorem form_keeps_last_value (inputs : list (string * string)) :
  NoDup (form_after inputs).*1
  ∧ (∀ questionId,
       JsObject.getOwn questionId (form_after inputs) = last_input questionId inputs)
  ∧ (∀ now survey body answers,
       handleSubmit now survey (form_after inputs) = Some body →
       b_answers body = Some answers →
       NoDup (f_questionId <$> answers)
       ∧ ∀ questionId value,
           mkAnswerFields (JString questionId) (JString value) ∈ answers
           ↔ last_input questionId inputs = Some value).
Proof.
  assert (∀ questionId,
    JsObject.getOwn questionId (form_after inputs) = last_input questionId inputs)
    as Hlast.
  { intros questionId.
    induction inputs as [|[k v] inputs IH] using rev_ind; [done|].
    rewrite form_after_snoc, getOwn_handleInputChange by apply form_after_NoDup.
    unfold last_input. rewrite List.filter_app. simpl.
    destruct (decide (questionId = k)) as [->|Hne].
    - rewrite bool_decide_eq_true_2 by done. by rewrite last_snoc.
    - rewrite bool_decide_eq_false_2 by done. by rewrite app_nil_r. }
  split; [apply form_after_NoDup|]. split; [exact Hlast|].
  intros now survey body answers Hsubmit Hanswers.
  unfold handleSubmit in Hsubmit.
  destruct survey as [survey|]; [|done].
  destruct (decide _); [done|].
  injection Hsubmit as <-. injection Hanswers as <-.
  pose proof (form_after_NoDup inputs) as Hnd.
  pose proof (entries_Permutation (form_after inputs)) as Hp.
  split.
  - apply (NoDup_fmap_1 (λ v, match v with JString s => s | _ => EmptyString end)).
    rewrite posted_questionIds. by rewrite Hp.
  - intros questionId value. rewrite <- Hlast, getOwn_Some by done.
    rewrite list_elem_of_fmap. split.
    + intros ([k v] & [= -> ->] & Hin). by rewrite <- Hp.
    + intros Hin. exists (questionId, value). split; [done|]. by rewrite Hp.
Qed.

Lemma form_keeps_last_value_witness :
  let inputs := [("q1", "A"); ("q2", "tea"); ("q1", "B")] in
  ∃ body answers,
    handleSubmit 10 (Some fetched_s1) (form_after inputs) = Some body
    ∧ b_answers body = Some answers
    ∧ NoDup (f_questionId <$> answers)
    ∧ ∀ questionId value,
        mkAnswerFields (JString questionId) (JString value) ∈ answers
        ↔ last_input questionId inputs = Some value.
Proof.
  intros inputs. eexists _, _.
  split; [reflexivity|]. split; [reflexivity|].
  exact (proj2 (proj2 (form_keeps_last_value inputs)) 10 (Some fetched_s1) _ _
           eq_refl eq_refl).
Defined.

(** * Accepted submissions *)

Section accepted.
Implicit Types (db : Db) (survey : Survey) (body : ResponseBody).

(** A submission to an active survey whose [respondentId] passes the
    schema: the response row, the answers stored, and the invariants of the
    store. *)
Lemma POST_responses_accepted now survey body db :
  constraints db → uuid_fresh db →
  survey ∈ tbl_surveys db →
  surveys.status survey = "active" →
  respondentId_accepted (b_respondentId body) = true →
  pg_null pg_text (stored_respondentId (b_respondentId body)) = true →
  ∃ db' new,
    POST_api_public_surveys_responses now (surveys.shareToken survey) body db
    = (Returns (answers_reply db (default [] (b_answers body))), db')
    ∧ constraints db' ∧ uuid_fresh db'
    ∧ tbl_responses db' = tbl_responses db ++ [new_response now survey body db]
    ∧ tbl_answers db' = tbl_answers db ++ new
    ∧ answer_content <$> new
      = (λ qv, (responses.id (new_response now survey body db), qv.1, qv.2))
        <$> List.filter (answer_kept db)
              (parsed_prefix (default [] (b_answers body)))
    ∧ tbl_surveys db' = tbl_surveys db
    ∧ tbl_questions db' = tbl_questions db.
Proof.
  intros Hc Hf Hin Hact Hacc Hpg.
  rewrite POST_responses_run.
  rewrite head_filter_unique by (done || apply Hc).
  rewrite bool_decide_eq_true_2, Hacc by done. cbn [negb]. cbv zeta.
  destruct (add_response_invariants now (surveys.id survey)
              (stored_respondentId (b_respondentId body)) db)
    as [Hc2 Hf2]; [done|done|by apply list_elem_of_fmap_2|done|].
  fold (new_response now survey body db) in Hc2, Hf2.
  rewrite decide_True by done.
  destruct (b_answers body) as [answers|]; cbn [from_option id].
  - edestruct (answers_loop now (responses.id (new_response now survey body db))
                 answers) as (outcome & db' & new & Hrun & Hc3 & Hf3 & Hnew
                              & Hcontent & Hout);
      [exact Hc2|exact Hf2| |].
    { unfold response_ids. cbn [tbl_responses with_responses].
      rewrite fmap_app. apply elem_of_app. right. by left. }
    change (answer_kept (with_responses _ _)) with (answer_kept db)
      in Hcontent, Hout.
    rewrite Hrun. apply answers_loop_frame in Hrun as (Hs & Hq & Hr).
    exists db', new. unfold answers_reply.
    split_and!; try done.
    destruct outcome as [settled|e].
    + destruct Hout as [Hlen Hall]. rewrite decide_False by lia.
      destruct (forallb _ _).
      * by destruct Hall as [rows ->].
      * by destruct Hall as [msg ->].
    + destruct Hout as [-> Hlen]. by rewrite decide_True.
  - eexists _, []. split_and!; try done. by rewrite app_nil_r.
Qed.

(** The reply depends on the store through its questions only. *)
Lemma answers_reply_same_questions db db' l :
  tbl_questions db' = tbl_questions db → answers_reply db' l = answers_reply db l.
Proof.
  intros Hq. unfold answers_reply, answer_kept, question_exists, question_ids.
  by rewrite Hq.
Qed.

(** A list without malformed element is the list of its parsed
    elements. *)
Lemma parsed_prefix_all l :
  length (parsed_prefix l) = length l →
  (λ qv, mkAnswerFields (JString qv.1) (JString qv.2)) <$> parsed_prefix l = l.
Proof.
  induction l as [|a l IH]; [done|]. cbn [parsed_prefix].
  destruct (answer_fields a) as [[questionId value]|] eqn:Ha; [|done].
  cbn [length]. intros [= Hlen]. rewrite fmap_cons, IH by done. f_equal.
  unfold answer_fields in Ha. destruct a as [[] []]; by simplify_eq/=.
Qed.

(** When every answer is stored. *)
Lemma submitted_all_stored db l :
  answers_reply db l = submitted →
  List.filter (answer_kept db) (parsed_prefix l) = parsed_prefix l
  ∧ length (parsed_prefix l) = length l
  ∧ (λ qv, mkAnswerFields (JString qv.1) (JString qv.2)) <$> parsed_prefix l = l.
Proof.
  unfold answers_reply.
  destruct (decide _) as [|Hlen]; [done|].
  destruct (forallb _ _) eqn:Hall; [|done]. intros _.
  assert (length (parsed_prefix l) ≤ length l) as Hle.
  { clear. induction l as [|a l IH]; simpl; [done|].
    destruct (answer_fields a); simpl; lia. }
  split_and!; [|lia|apply parsed_prefix_all; lia].
  apply filter_all, Forall_forall. intros qv Hqv.
  rewrite forallb_forall in Hall. apply Hall. by apply list_elem_of_In.
Qed.

(** The rows stored for a list of answers, read back. *)
Lemma stored_answers_responseId (new : list Answer) responseId
    (l : list AnswerFields) :
  answer_content <$> new = (λ qv, (responseId, qv.1, qv.2)) <$> parsed_prefix l →
  (λ qv, mkAnswerFields (JString qv.1) (JString qv.2)) <$> parsed_prefix l = l →
  answers.responseId <$> new = (λ _, responseId) <$> l.
Proof.
  intros Hnew Hl. rewrite <- Hl. rewrite <- list_fmap_compose.
  apply (f_equal (fmap (λ c : string * string * string, c.1.1))) in Hnew.
  rewrite <- !list_fmap_compose in Hnew. exact Hnew.
Qed.

Lemma stored_answers_fields (new : list Answer) responseId
    (l : list AnswerFields) :
  answer_content <$> new = (λ qv, (responseId, qv.1, qv.2)) <$> parsed_prefix l →
  (λ qv, mkAnswerFields (JString qv.1) (JString qv.2)) <$> parsed_prefix l = l →
  (λ a, mkAnswerFields (JString (answers.questionId a)) (JString (answers.value a)))
  <$> new = l.
Proof.
  intros Hnew Hl. rewrite <- Hl.
  apply (f_equal (fmap (λ c : string * string * string,
           mkAnswerFields (JString c.1.2) (JString c.2)))) in Hnew.
  rewrite <- !list_fmap_compose in Hnew. exact Hnew.
Qed.

(** What the form posts is well-formed. *)
Lemma parsed_prefix_posted (l : list (string * string)) :
  parsed_prefix ((λ '(questionId, value),
                    mkAnswerFields (JString questionId) (JString value)) <$> l)
  = l.
Proof. induction l as [|[k v] l IH]; [done|]. csimpl. by rewrite IH. Qed.
End accepted.

(** X13.  The response route accepts the same submission again, whatever
    the survey's [multipleResponses] flag says: two successive submissions
    with the same body and the same [respondentId] to an active survey,
    each complete, well-formed and made of texts the database takes, are
    both answered with success and stored as two response rows with
    distinct identifiers, each with its own copy of the answers: one
    answer row per element of [answers], carrying the element's question
    and value, under the one response and under the other. *)
Theorem repeated_submission_accepted
    (now1 now2 : nat) (survey : Survey) (body : ResponseBody) (db : Db) :
  constraints db → uuid_fresh db →
  survey ∈ tbl_surveys db →
  surveys.status survey = "active" →
  respondentId_accepted (b_respondentId body) = true →
  pg_null pg_text (stored_respondentId (b_respondentId body)) = true →
  answers_reply db (default [] (b_answers body)) = submitted →
  ∃ db1 db2 first second answers1 answers2,
    POST_api_public_surveys_responses now1 (surveys.shareToken survey) body db
    = (Returns submitted, db1)
    ∧ POST_api_public_surveys_responses now2 (surveys.shareToken survey) body db1
      = (Returns submitted, db2)
    ∧ tbl_responses db2 = tbl_responses db ++ [first; second]
    ∧ responses.id first ≠ responses.id second
    ∧ responses.surveyId first = surveys.id survey
    ∧ responses.surveyId second = surveys.id survey
    ∧ responses.respondentId first = stored_respondentId (b_respondentId body)
    ∧ responses.respondentId second = stored_respondentId (b_respondentId body)
    ∧ tbl_answers db2 = tbl_answers db ++ answers1 ++ answers2
    ∧ (answers.responseId <$> answers1)
      = (λ _, responses.id first) <$> default [] (b_answers body)
    ∧ (answers.responseId <$> answers2)
      = (λ _, responses.id second) <$> default [] (b_answers body)
    ∧ (λ a, mkAnswerFields (JString (answers.questionId a)) (JString (answers.value a)))
      <$> answers1 = default [] (b_answers body)
    ∧ (λ a, mkAnswerFields (JString (answers.questionId a)) (JString (answers.value a)))
      <$> answers2 = default [] (b_answers body).
Proof.
  intros Hc Hf Hin Hact Hacc Hpg Hreply.
  destruct (POST_responses_accepted now1 survey body db)
    as (db1 & new1 & Hrun1 & Hc1 & Hf1 & Hr1 & Ha1 & Hn1 & Hs1 & Hq1); try done.
  assert (survey ∈ tbl_surveys db1) as Hin1 by by rewrite Hs1.
  destruct (POST_responses_accepted now2 survey body db1)
    as (db2 & new2 & Hrun2 & Hc2 & Hf2 & Hr2 & Ha2 & Hn2 & Hs2 & Hq2); try done.
  rewrite (answers_reply_same_questions db db1) in Hrun2 by done.
  rewrite Hreply in Hrun1, Hrun2.
  apply submitted_all_stored in Hreply as (Hall & Hlen & Hposted).
  assert (List.filter (answer_kept db1)
            (parsed_prefix (default [] (b_answers body)))
          = parsed_prefix (default [] (b_answers body))) as Hall1.
  { unfold answer_kept, question_exists, question_ids in *. by rewrite Hq1. }
  rewrite Hall in Hn1. rewrite Hall1 in Hn2.
  exists db1, db2, (new_response now1 survey body db),
    (new_response now2 survey body db1), new1, new2.
  split_and!; try done.
  - by rewrite Hr2, Hr1, <- app_assoc.
  - destruct Hc2 as [_ _ Hpk _ _ _ _ _ _ _ _ _]. unfold response_ids in Hpk.
    rewrite Hr2, Hr1, <- app_assoc, fmap_app in Hpk.
    apply NoDup_app in Hpk as (_ & _ & Hpk).
    apply NoDup_cons in Hpk as [Hpk _]. intros E. apply Hpk.
    rewrite E. by left.
  - by rewrite Ha2, Ha1, <- app_assoc.
  - exact (stored_answers_responseId _ _ _ Hn1 Hposted).
  - exact (stored_answers_responseId _ _ _ Hn2 Hposted).
  - exact (stored_answers_fields _ _ _ Hn1 Hposted).
  - exact (stored_answers_fields _ _ _ Hn2 Hposted).
Qed.

Lemma repeated_submission_accepted_witness :
  let body :=
    mkResponseBody (JString "bob")
      (Some [ mkAnswerFields (JString "q1") (JString "A");
              mkAnswerFields (JString "q2") (JString "tea") ]) in
  surveys.multipleResponses survey_u1 = false
  ∧ ∃ db1 db2 first second answers1 answers2,
      POST_api_public_surveys_responses 10 "tok1" body sample_db
      = (Returns submitted, db1)
      ∧ POST_api_public_surveys_responses 11 "tok1" body db1
        = (Returns submitted, db2)
      ∧ tbl_responses db2 = tbl_responses sample_db ++ [first; second]
      ∧ responses.id first ≠ responses.id second
      ∧ responses.surveyId first = "s1"
      ∧ responses.surveyId second = "s1"
      ∧ responses.respondentId first = Some "bob"
      ∧ responses.respondentId second = Some "bob"
      ∧ tbl_answers db2 = tbl_answers sample_db ++ answers1 ++ answers2
      ∧ (answers.responseId <$> answers1)
        = (λ _, responses.id first) <$> default [] (b_answers body)
      ∧ (answers.responseId <$> answers2)
        = (λ _, responses.id second) <$> default [] (b_answers body)
      ∧ (λ a, mkAnswerFields (JString (answers.questionId a))
                (JString (answers.value a))) <$> answers1
        = default [] (b_answers body)
      ∧ (λ a, mkAnswerFields (JString (answers.questionId a))
                (JString (answers.value a))) <$> answers2
        = default [] (b_answers body).
Proof.
  intros body. split; [reflexivity|].
  apply (repeated_submission_accepted 10 11 survey_u1 body sample_db).
  - exact sample_db_constraints.
  - exact sample_db_uuid_fresh.
  - by_compute.
  - reflexivity.
  - reflexivity.
  - reflexivity.
  - reflexivity.
Defined.

(** X14.  From the public form to the tables: when every required
    question of the fetched survey has a non-empty entry, the questions
    answered still exist and the values entered are texts the database
    takes (they hold no character U+0000), submitting the form to an
    active survey succeeds and stores one response, marked
    [anonymous_<time>], together with exactly one answer per entry of the
    form state, carrying the entry's question and value, in the order
    [Object.entries] lists them. *)
Theorem form_submission_round_trip
    (now : nat) (survey : Survey) (fetched : SurveyWithQuestions)
    (responses : JsObject.t string) (db : Db) :
  constraints db → uuid_fresh db →
  survey ∈ tbl_surveys db →
  surveys.status survey = "active" →
  Forall (λ q, questions.required q = true →
               JsObject.truthy_at (questions.id q) responses = true)
    (questions_of fetched) →
  Forall (λ questionId, questionId ∈ question_ids db) responses.*1 →
  Forall (λ value, pg_text value = true) responses.*2 →
  ∃ db' response new,
    submit_form now (surveys.shareToken survey) (Some fetched) responses db
    = (Returns (Some submitted), db')
    ∧ tbl_responses db' = tbl_responses db ++ [response]
    ∧ responses.surveyId response = surveys.id survey
    ∧ responses.respondentId response = Some ("anonymous_" +:+ pretty now)
    ∧ tbl_answers db' = tbl_answers db ++ new
    ∧ answer_content <$> new
      = (λ entry, (responses.id response, entry.1, entry.2))
        <$> JsObject.entries responses
    ∧ tbl_surveys db' = tbl_surveys db
    ∧ tbl_questions db' = tbl_questions db.
Proof.
  intros Hc Hf Hin Hact Hreq Hkeys Hvalues.
  set (answers := (λ '(questionId, value),
         mkAnswerFields (JString questionId) (JString value))
       <$> JsObject.entries responses).
  set (body := mkResponseBody (JString ("anonymous_" +:+ pretty now)) (Some answers)).
  assert (handleSubmit now (Some fetched) responses = Some body) as Hsubmit.
  { unfold handleSubmit. rewrite filter_none; [done|].
    apply Forall_forall. intros q [Hq Hr]%elem_of_List_filter.
    apply negb_false_iff.
    exact (proj1 (Forall_forall _ _) Hreq q Hq Hr). }
  assert (parsed_prefix answers = JsObject.entries responses) as Hparsed.
  { apply parsed_prefix_posted. }
  assert (List.filter (answer_kept db) (JsObject.entries responses)
          = JsObject.entries responses) as Hall.
  { apply filter_all, Forall_forall. intros [k v] Hkv.
    apply andb_true_iff. split.
    - apply bool_decide_eq_true. simpl.
      apply (proj1 (Forall_forall _ _) Hkeys).
      apply (list_elem_of_fmap_2 fst) in Hkv.
      by rewrite entries_Permutation in Hkv.
    - simpl. apply (proj1 (Forall_forall _ _) Hvalues).
      apply (list_elem_of_fmap_2 snd) in Hkv.
      by rewrite entries_Permutation in Hkv. }
  assert (answers_reply db answers = submitted) as Hreply.
  { unfold answers_reply. rewrite Hparsed.
    rewrite decide_False by (unfold answers; rewrite length_fmap; lia).
    rewrite (proj2 (forallb_forall _ _)); [done|].
    intros kv Hkv%list_elem_of_In.
    rewrite <- Hall in Hkv. by apply elem_of_List_filter in Hkv as [_ ?]. }
  destruct (POST_responses_accepted now survey body db)
    as (db' & new & Hrun & _ & _ & Hr & Ha & Hn & Hs & Hq); try done.
  { cbn. rewrite decide_False by done.
    cbn. by rewrite pg_text_app, pg_text_pretty. }
  cbn [b_answers body from_option id] in Hrun, Hn.
  rewrite Hreply in Hrun. rewrite Hparsed, Hall in Hn.
  exists db', (new_response now survey body db), new.
  split_and!; try done.
  unfold submit_form. rewrite Hsubmit. unfold bind. by rewrite Hrun.
Qed.

Lemma form_submission_round_trip_witness :
  let responses := form_after [("q1", "A"); ("q2", "tea"); ("q1", "B")] in
  ∃ db' response new,
    submit_form 10 "tok1" (Some fetched_s1) responses sample_db
    = (Returns (Some submitted), db')
    ∧ tbl_responses db' = tbl_responses sample_db ++ [response]
    ∧ responses.surveyId response = "s1"
    ∧ responses.respondentId response = Some "anonymous_10"
    ∧ tbl_answers db' = tbl_answers sample_db ++ new
    ∧ answer_content <$> new
      = (λ entry, (responses.id response, entry.1, entry.2))
        <$> JsObject.entries responses
    ∧ tbl_surveys db' = tbl_surveys sample_db
    ∧ tbl_questions db' = tbl_questions sample_db.
Proof.
  intros responses.
  apply (form_submission_round_trip 10 survey_u1 fetched_s1 responses sample_db).
  - exact sample_db_constraints.
  - exact sample_db_uuid_fresh.
  - by_compute.
  - reflexivity.
  - by_compute.
  - by_compute.
  - by_compute.
Defined.

(** * Saving a survey from the builder and from the dialog *)

Section trim.
Implicit Types (s : string) (c : ascii).

Lemma blank_trimStart s : blank (trimStart s) = blank s.
Proof.
  unfold blank. induction s as [|c s IH]; [done|]. simpl.
  destruct (is_white c) eqn:Hc; [done|]. simpl. by rewrite Hc.
Qed.

Lemma trimStart_empty s : trimStart s = EmptyString ↔ blank s = true.
Proof.
  unfold blank. induction s as [|c s IH]; [done|]. simpl.
  destruct (is_white c); [done|]. by split.
Qed.

Lemma list_ascii_of_rev_app s acc :
  String.list_ascii_of_string (String.rev_app s acc)
  = rev (String.list_ascii_of_string s) ++ String.list_ascii_of_string acc.
Proof.
  revert acc. induction s as [|c s IH]; intros acc; [done|]. simpl.
  rewrite IH. simpl. by rewrite <- app_assoc.
Qed.

Lemma blank_rev s : blank (String.rev s) = blank s.
Proof.
  unfold blank, String.rev. rewrite list_ascii_of_rev_app. simpl.
  rewrite app_nil_r. apply eq_true_iff_eq.
  rewrite !forallb_forall. split; intros H c Hc; apply H.
  - by apply in_rev in Hc.
  - by apply in_rev.
Qed.

Lemma rev_empty s : String.rev s = EmptyString ↔ s = EmptyString.
Proof.
  split; [|by intros ->]. intros H.
  apply (f_equal String.list_ascii_of_string) in H.
  unfold String.rev in H. rewrite list_ascii_of_rev_app, app_nil_r in H. simpl in H.
  destruct s as [|c s]; [done|]. simpl in H.
  by apply app_eq_nil in H as [_ ?].
Qed.

(** [option.trim() !== ""] holds of the options that are not blank. *)
Lemma trim_blank s : String.eqb (trim s) "" = blank s.
Proof.
  apply eq_true_iff_eq. rewrite String.eqb_eq. unfold trim, trimEnd.
  rewrite rev_empty, trimStart_empty, blank_rev, blank_trimStart. done.
Qed.

Lemma filled_options_blank options :
  filled_options options = List.filter (λ option, negb (blank option)) options.
Proof.
  unfold filled_options. apply List.filter_ext. intros option.
  by rewrite trim_blank.
Qed.
End trim.

Section creation.
Implicit Types (db : Db) (data : SurveyForm).

(** A well-formed body: the survey row, the question rows, and the
    invariants of the store. *)
Lemma POST_surveys_created now userId body l db
    title description status anonymous multipleResponses :
  constraints db → uuid_fresh db →
  userId ∈ user_ids db →
  insertSurveySchema_parse (b_survey body)
  = Returns (surveys.mk_insert None (Some title) description None status
               anonymous multipleResponses None None None) →
  pg_survey_values (surveys.mk_insert None (Some title) description None status
                      anonymous multipleResponses None None None) = true →
  b_questions body = Some l →
  questions_storable l →
  let survey :=
    surveys.mk (gen_random_uuid (uuid_seed db)) title
      (default None description) userId (default "draft" status)
      (default true anonymous) (default false multipleResponses)
      (gen_random_uuid (S (uuid_seed db))) (Some now) (Some now) in
  let rows := new_questions now (surveys.id survey) (S (S (uuid_seed db))) 0 l in
  ∃ db',
    POST_api_surveys now userId body db = (Returns (json survey), db')
    ∧ constraints db' ∧ uuid_fresh db'
    ∧ tbl_surveys db' = tbl_surveys db ++ [survey]
    ∧ tbl_questions db' = tbl_questions db ++ rows
    ∧ tbl_responses db' = tbl_responses db
    ∧ tbl_answers db' = tbl_answers db
    ∧ Drizzle.orderBy questions.order (questions_in (surveys.id survey) db') = rows.
Proof.
  intros Hc Hf Huser Hp Hpg Hqs [Hpgl Hlen] survey rows.
  pose proof (questions_storable_valid l Hpgl) as Hl.
  destruct (add_survey_invariants survey db eq_refl eq_refl Hc Hf) as [Hc2 Hf2];
    [done
    |eapply new_survey_text;
       [exact Hpg|apply pg_text_uuid|by apply (user_id_text userId db)
       |apply pg_text_uuid]|].
  set (db2 := with_surveys _ _) in Hc2, Hf2.
  assert (surveys.id survey ∈ survey_ids db2) as Hin.
  { unfold survey_ids, db2. cbn [tbl_surveys with_surveys].
    rewrite fmap_app. apply elem_of_app. right. by left. }
  destruct (questions_loop now (surveys.id survey) l 0 db2 Hc2 Hf2 Hin Hpgl)
    as (Hloop & Hc3 & Hf3); [done|].
  change (new_questions now (surveys.id survey) (uuid_seed db2) 0 l) with rows
    in Hloop, Hc3, Hf3.
  set (db3 := with_questions _ _) in Hloop, Hc3, Hf3.
  exists db3.
  assert (questions.order <$> rows = Z.of_nat <$> seq 0 (length l)) as Horder
    by by apply new_questions_order.
  assert (questions_in (surveys.id survey) db3 = rows) as Hin3.
  { unfold questions_in, db3. cbn [tbl_questions with_questions with_seed].
    rewrite List.filter_app, filter_none, filter_all; [done|..].
    - eapply Forall_impl; [by apply new_questions_surveyId|].
      intros q Hq. by apply bool_decide_eq_true.
    - destruct Hc as [_ _ _ _ _ Hfk _ _ _ _ _ _]. eapply Forall_impl; [exact Hfk|].
      intros q Hq. apply bool_decide_eq_false. intros E. cbv beta in Hq.
      rewrite E in Hq.
      apply (Hf (uuid_seed db)); [done|]. apply elem_of_all_ids. by left. }
  assert (Drizzle.orderBy questions.order rows = rows) as Hsorted.
  { apply orderBy_sorted.
    - apply (counting_keys_Sorted _ _ 0).
      rewrite Horder. unfold rows. by rewrite new_questions_length.
    - apply (counting_keys_NoDup _ _ 0).
      rewrite Horder. unfold rows. by rewrite new_questions_length. }
  split_and!; try done.
  - unfold POST_api_surveys, try_catch, bind at 1, lift. rewrite Hp.
    unfold bind at 1.
    change (spread_createdBy _ userId) with
      (surveys.mk_insert None (Some title) description (Some userId) status
         anonymous multipleResponses None None None).
    rewrite createSurvey_run. cbv zeta. fold survey. fold db2.
    rewrite decide_True by done. rewrite Hqs. unfold bind at 1.
    change (imap _ l) with (imap (question_callback now (surveys.id survey)) l).
    rewrite (imap_ext _ (λ index, question_callback now (surveys.id survey) (index + 0)))
      by (intros i x _; simpl; f_equal; lia).
    rewrite Hloop. unfold bind, lift, ret. by rewrite Promise_all_Returns.
  - by rewrite Hin3.
Qed.

Lemma question_json_fields (q : QuestionForm) :
  question_fields (question_json q)
  = Some (qf_text q, qf_type q, Some (qf_required q)).
Proof. done. Qed.

Lemma process_question_options question index :
  qf_options (process_question question index) = saved_options question
  ∧ qf_text (process_question question index) = qf_text question
  ∧ qf_type (process_question question index) = qf_type question
  ∧ qf_required (process_question question index) = qf_required question
  ∧ qf_order (process_question question index) = Z.of_nat index.
Proof.
  unfold process_question, saved_options.
  destruct (qf_options question) as [options|] eqn:Ho;
    [|by destruct (decide _)].
  destruct (decide _); simpl; [|done]. by rewrite filled_options_blank.
Qed.

Lemma dialog_process_question_options question :
  qf_options (dialog_process_question question) = saved_options question
  ∧ qf_text (dialog_process_question question) = qf_text question
  ∧ qf_type (dialog_process_question question) = qf_type question
  ∧ qf_required (dialog_process_question question) = qf_required question.
Proof.
  unfold dialog_process_question, saved_options.
  destruct (qf_options question) as [options|] eqn:Ho;
    [|by destruct (decide _)].
  destruct (decide _); simpl; [|done]. by rewrite filled_options_blank.
Qed.

(** The rows stored for a list of processed form questions. *)
Lemma new_questions_content now surveyId
    (processed : list QuestionForm) (original : list QuestionForm) :
  Forall2 (λ p q, qf_options p = saved_options q ∧ qf_text p = qf_text q
                  ∧ qf_type p = qf_type q ∧ qf_required p = qf_required q)
    processed original →
  ∀ seed index,
    question_content
    <$> new_questions now surveyId seed index (question_json <$> processed)
    = imap (λ i question,
              (qf_text question, qf_type question, qf_required question,
               saved_options question, Z.of_nat (index + i)))
        original.
Proof.
  induction 1 as [|p q processed original (Ho & Ht & Hy & Hr) _ IH];
    intros seed index; [done|].
  csimpl. f_equal.
  - unfold new_question. rewrite question_json_fields.
    unfold question_content. simpl. rewrite Ho, Ht, Hy, Hr, Nat.add_0_r.
    by destruct (saved_options q).
  - rewrite IH. apply imap_ext. intros i x _. simpl. do 2 f_equal. lia.
Qed.

Lemma imap_process_question (g : nat → nat) (l : list QuestionForm) :
  Forall2 (λ p q, qf_options p = saved_options q ∧ qf_text p = qf_text q
                  ∧ qf_type p = qf_type q ∧ qf_required p = qf_required q)
    (imap (λ index question, process_question question (g index)) l) l.
Proof.
  revert g. induction l as [|q l IH]; intros g; [constructor|].
  simpl. constructor; [|apply (IH (g ∘ S))].
  destruct (process_question_options q (g 0)) as (? & ? & ? & ? & _). done.
Qed.

Lemma survey_json_parse data :
  insertSurveySchema_parse (b_survey (survey_json data))
  = Returns (surveys.mk_insert None (Some (sf_title data))
               (Some <$> sf_description data) None (Some (sf_status data))
               (Some (sf_anonymous data)) (Some (sf_multipleResponses data))
               None None None).
Proof. destruct data as [? [d|] ? ? ? ?]; reflexivity. Qed.

Lemma question_json_valid (l : list QuestionForm) :
  Forall (λ q, is_Some (question_fields q)) (question_json <$> l).
Proof. apply Forall_fmap, Forall_forall. intros q _. by eexists. Qed.

(** What the form sends holds texts when the form does. *)
Lemma survey_json_storable data :
  survey_fields_storable data = true →
  pg_survey_values
    (surveys.mk_insert None (Some (sf_title data)) (Some <$> sf_description data)
       None (Some (sf_status data)) (Some (sf_anonymous data))
       (Some (sf_multipleResponses data)) None None None) = true.
Proof.
  unfold survey_fields_storable, pg_survey_values. rewrite !andb_true_iff.
  intros [[Ht Hd] Hs].
  cbn [surveys.i_id surveys.i_title surveys.i_description surveys.i_createdBy
       surveys.i_status surveys.i_shareToken pg_null from_option].
  split_and!; try done. by destruct (sf_description data).
Qed.

Lemma pg_jsonb_saved_options question :
  pg_jsonb (qf_options question) = true → pg_jsonb (saved_options question) = true.
Proof.
  unfold saved_options. destruct (decide _); [|done].
  destruct (qf_options question) as [options|]; [|done]. cbn.
  apply forallb_filter.
Qed.

Lemma question_json_storable (processed original : list QuestionForm) :
  Forall2 (λ p q, qf_options p = saved_options q ∧ qf_text p = qf_text q
                  ∧ qf_type p = qf_type q ∧ qf_required p = qf_required q)
    processed original →
  forallb question_form_storable original = true →
  Forall (λ q, question_storable q = true) (question_json <$> processed).
Proof.
  induction 1 as [|p q processed original (Ho & Ht & Hy & Hr) _ IH];
    [constructor|].
  cbn [forallb]. intros [Hq Hl]%andb_true_iff. rewrite fmap_cons.
  constructor; [|by apply IH].
  unfold question_storable. rewrite question_json_fields.
  unfold question_form_storable in Hq. rewrite !andb_true_iff in Hq.
  destruct Hq as [[Htext Htype] Hopts].
  rewrite Ht, Hy, Htext, Htype. cbn [andb]. cbn [question_json f_options].
  rewrite Ho. apply pg_jsonb_saved_options in Hopts.
  by destruct (saved_options q).
Qed.

Lemma dialog_process_questions (l : list QuestionForm) :
  Forall2 (λ p q, qf_options p = saved_options q ∧ qf_text p = qf_text q
                  ∧ qf_type p = qf_type q ∧ qf_required p = qf_required q)
    (dialog_process_question <$> l) l.
Proof.
  induction l as [|q l IH]; [constructor|].
  csimpl. constructor; [|apply IH].
  destruct (dialog_process_question_options q) as (? & ? & ? & ?). done.
Qed.

Lemma form_storable_spec data :
  form_storable data = true →
  survey_fields_storable data = true
  ∧ forallb question_form_storable (sf_questions data) = true
  ∧ (Z.of_nat (length (sf_questions data)) ≤ 2147483648)%Z.
Proof.
  unfold form_storable. rewrite !andb_true_iff, bool_decide_eq_true. tauto.
Qed.
End creation.

(** X15.  Saving a new survey from the builder, followed from the
    resolver and [onSubmit] through [POST /api/surveys] to the tables.
    When the resolver rejects the form (no title, a question without text,
    a status or a type outside the enumerations) nothing is sent.
    Otherwise, in a store that meets the schema's constraints, for a
    signed-in user with a row in [users] and a form that holds texts the
    database takes, the save succeeds; the survey is stored with the
    form's title, description, status and flags, the caller as creator and
    a share token not in use; and reading the survey back gives one
    question per form question, in the form's order, numbered 0, 1, ...,
    with the form's text, type and [required] flag.  A multiple-choice
    question is stored without its blank options (empty or white space
    only, characters being code units below 256), every other question
    with the options it had; the [order] values of the form are not
    used. *)
Theorem builder_saves_form
    (now : nat) (userId : string) (data : SurveyForm) (db : Db) :
  constraints db → uuid_fresh db → userId ∈ user_ids db →
  (builder_surveySchema data = false →
   builder_save_new now userId data db = (Returns None, db))
  ∧ (builder_surveySchema data = true → form_storable data = true →
     ∃ survey db' stored,
       builder_save_new now userId data db = (Returns (Some (json survey)), db')
       ∧ tbl_surveys db' = tbl_surveys db ++ [survey]
       ∧ GET_api_surveys_id userId (surveys.id survey) db'
         = (Returns (json (mkSurveyWithQuestions survey stored)), db')
       ∧ surveys.title survey = sf_title data
       ∧ surveys.description survey = sf_description data
       ∧ surveys.status survey = sf_status data
       ∧ surveys.anonymous survey = sf_anonymous data
       ∧ surveys.multipleResponses survey = sf_multipleResponses data
       ∧ surveys.createdBy survey = userId
       ∧ (surveys.shareToken survey ∉ share_tokens db)
       ∧ question_content <$> stored = form_content data
       ∧ Forall (λ q, questions.surveyId q = surveys.id survey) stored).
Proof.
  intros Hc Hf Huser. unfold builder_save_new, form_handleSubmit.
  split; [by intros ->|]. intros -> (Hpgs & Hpgq & Hlen)%form_storable_spec.
  set (processed := imap (λ index question, process_question question index)
                      (sf_questions data)).
  assert (Forall2 (λ p q, qf_options p = saved_options q ∧ qf_text p = qf_text q
                          ∧ qf_type p = qf_type q ∧ qf_required p = qf_required q)
            processed (sf_questions data)) as Hprocessed
    by apply (imap_process_question (λ index, index)).
  destruct (POST_surveys_created now userId (survey_json (builder_onSubmit data))
              (question_json <$> processed) db
              _ _ _ _ _ Hc Hf Huser (survey_json_parse (builder_onSubmit data))
              (survey_json_storable (builder_onSubmit data) Hpgs) eq_refl)
    as (db' & Hrun & Hc' & Hf' & Hs & Hq & Hr & Ha & Hread).
  { split; [by apply (question_json_storable processed (sf_questions data))|].
    rewrite length_fmap. unfold processed. by rewrite length_imap. }
  cbv zeta in Hrun, Hs, Hq, Hread.
  set (survey := surveys.mk _ _ _ _ _ _ _ _ _ _) in Hrun, Hs, Hq, Hread.
  set (rows := new_questions _ _ _ _ _) in Hq, Hread.
  exists survey, db', rows. unfold bind. rewrite Hrun. split; [reflexivity|].
  assert (survey ∈ tbl_surveys db') as Hin.
  { rewrite Hs. apply elem_of_app. right. by left. }
  split_and!; try done.
  - unfold GET_api_surveys_id, try_catch, bind.
    rewrite getSurvey_run by (done || apply Hc').
    rewrite bool_decide_eq_true_2 by done. cbn [negb].
    by rewrite getQuestionsBySurvey_run, Hread.
  - simpl. by destruct (sf_description data).
  - apply (fresh_now_not_in (with_seed (S (uuid_seed db)) db) share_tokens).
    + by apply uuid_fresh_with_seed.
    + intros x Hx. apply elem_of_all_ids. by right; left.
  - unfold rows, form_content.
    by rewrite (new_questions_content now _ processed (sf_questions data)).
  - unfold rows. apply new_questions_surveyId, question_json_valid.
Qed.

Lemma builder_saves_form_witness :
  builder_save_new 5 "w" form_without_title sample_db = (Returns None, sample_db)
  ∧ ∃ survey db' stored,
      builder_save_new 5 "w" sample_form sample_db
      = (Returns (Some (json survey)), db')
      ∧ tbl_surveys db' = tbl_surveys sample_db ++ [survey]
      ∧ GET_api_surveys_id "w" (surveys.id survey) db'
        = (Returns (json (mkSurveyWithQuestions survey stored)), db')
      ∧ surveys.title survey = "Lunch"
      ∧ surveys.description survey = Some "Weekly"
      ∧ surveys.status survey = "draft"
      ∧ surveys.anonymous survey = true
      ∧ surveys.multipleResponses survey = false
      ∧ surveys.createdBy survey = "w"
      ∧ (surveys.shareToken survey ∉ share_tokens sample_db)
      ∧ question_content <$> stored
        = [ ("Dish?", "multiple-choice", true, Some ["A"; "B"], 0%Z);
            ("Drink?", "text", false, Some [""], 1%Z);
            ("Stars?", "rating", false, None, 2%Z) ]
      ∧ Forall (λ q, questions.surveyId q = surveys.id survey) stored.
Proof.
  assert ("w" ∈ user_ids sample_db) as Huser by by_compute.
  split.
  - exact (proj1 (builder_saves_form 5 "w" form_without_title sample_db
                    sample_db_constraints sample_db_uuid_fresh Huser) eq_refl).
  - exact (proj2 (builder_saves_form 5 "w" sample_form sample_db
                    sample_db_constraints sample_db_uuid_fresh Huser)
             eq_refl eq_refl).
Defined.

(** X16.  Creating a survey from the dashboard's dialog.  When the
    resolver rejects the form (no title, no question, a question without
    text or with a type outside the enumeration) nothing is sent.
    Otherwise, for a signed-in user with a row in [users] and a form that
    holds texts the database takes, the survey is stored, and the status
    stored is decided by the [isDraft] state that [onSubmit] reads and by
    nothing else in the form: with it set, the survey is stored with
    status [draft], its creator reads it back as a draft and its link
    serves nothing; otherwise it is stored as [active] and the public
    page serves it at once.  Either way its questions are stored in the
    dialog's order and without the blank options of its multiple-choice
    questions. *)
Theorem dialog_creates_draft_or_active
    (now : nat) (userId : string) (isDraft : bool) (data : SurveyForm) (db : Db) :
  constraints db → uuid_fresh db → userId ∈ user_ids db →
  (dialog_surveySchema data = false →
   dialog_create now userId isDraft data db = (Returns None, db))
  ∧ (dialog_surveySchema data = true → form_storable data = true →
     ∃ survey db' stored,
       dialog_create now userId isDraft data db
       = (Returns (Some (json survey)), db')
       ∧ tbl_surveys db' = tbl_surveys db ++ [survey]
       ∧ surveys.createdBy survey = userId
       ∧ surveys.title survey = sf_title data
       ∧ surveys.status survey = (if isDraft then "draft" else "active")
       ∧ GET_api_surveys_id userId (surveys.id survey) db'
         = (Returns (json (mkSurveyWithQuestions survey stored)), db')
       ∧ question_content <$> stored = form_content data
       ∧ GET_api_public_surveys (surveys.shareToken survey) db'
         = (Returns (if isDraft then not_found_or_inactive
                     else json (mkSurveyWithQuestions survey stored)), db')).
Proof.
  intros Hc Hf Huser. unfold dialog_create, form_handleSubmit.
  split; [by intros ->|]. intros -> (Hpgs & Hpgq & Hlen)%form_storable_spec.
  set (processed := dialog_process_question <$> sf_questions data).
  pose proof (dialog_process_questions (sf_questions data)) as Hprocessed.
  fold processed in Hprocessed.
  assert (survey_fields_storable (dialog_onSubmit isDraft data) = true) as Hpgs'.
  { unfold survey_fields_storable in *. rewrite !andb_true_iff in Hpgs.
    destruct Hpgs as [[Ht Hd] _].
    cbn [dialog_onSubmit sf_title sf_description sf_status].
    rewrite Ht, Hd. by destruct isDraft. }
  destruct (POST_surveys_created now userId (survey_json (dialog_onSubmit isDraft data))
              (question_json <$> processed) db
              _ _ _ _ _ Hc Hf Huser (survey_json_parse (dialog_onSubmit isDraft data))
              (survey_json_storable (dialog_onSubmit isDraft data) Hpgs') eq_refl)
    as (db' & Hrun & Hc' & Hf' & Hs & Hq & Hr & Ha & Hread).
  { split; [by apply (question_json_storable processed (sf_questions data))|].
    unfold processed. by rewrite !length_fmap. }
  cbv zeta in Hrun, Hs, Hq, Hread.
  set (survey := surveys.mk _ _ _ _ _ _ _ _ _ _) in Hrun, Hs, Hq, Hread.
  set (rows := new_questions _ _ _ _ _) in Hq, Hread.
  exists survey, db', rows. unfold bind. rewrite Hrun. split; [reflexivity|].
  assert (survey ∈ tbl_surveys db') as Hin.
  { rewrite Hs. apply elem_of_app. right. by left. }
  split_and!; try done.
  - unfold GET_api_surveys_id, try_catch, bind.
    rewrite getSurvey_run by (done || apply Hc').
    rewrite bool_decide_eq_true_2 by done. cbn [negb].
    by rewrite getQuestionsBySurvey_run, Hread.
  - unfold rows, form_content.
    by rewrite (new_questions_content now _ processed (sf_questions data)).
  - unfold GET_api_public_surveys, try_catch, bind.
    rewrite getSurveyByShareToken_run by (done || apply Hc').
    destruct isDraft; [done|].
    change (surveys.status survey) with "active".
    rewrite bool_decide_eq_true_2 by done. cbn [negb].
    by rewrite getQuestionsBySurvey_run, Hread.
Qed.

Lemma dialog_creates_draft_or_active_witness :
  dialog_create 5 "w" true form_without_questions sample_db
  = (Returns None, sample_db)
  ∧ (∃ survey db' stored,
       dialog_create 5 "w" true sample_form sample_db
       = (Returns (Some (json survey)), db')
       ∧ tbl_surveys db' = tbl_surveys sample_db ++ [survey]
       ∧ surveys.createdBy survey = "w"
       ∧ surveys.title survey = "Lunch"
       ∧ surveys.status survey = "draft"
       ∧ GET_api_surveys_id "w" (surveys.id survey) db'
         = (Returns (json (mkSurveyWithQuestions survey stored)), db')
       ∧ question_content <$> stored
         = [ ("Dish?", "multiple-choice", true, Some ["A"; "B"], 0%Z);
             ("Drink?", "text", false, Some [""], 1%Z);
             ("Stars?", "rating", false, None, 2%Z) ]
       ∧ GET_api_public_surveys (surveys.shareToken survey) db'
         = (Returns not_found_or_inactive, db'))
  ∧ (∃ survey db' stored,
       dialog_create 5 "w" false sample_form sample_db
       = (Returns (Some (json survey)), db')
       ∧ tbl_surveys db' = tbl_surveys sample_db ++ [survey]
       ∧ surveys.createdBy survey = "w"
       ∧ surveys.title survey = "Lunch"
       ∧ surveys.status survey = "active"
       ∧ GET_api_surveys_id "w" (surveys.id survey) db'
         = (Returns (json (mkSurveyWithQuestions survey stored)), db')
       ∧ question_content <$> stored
         = [ ("Dish?", "multiple-choice", true, Some ["A"; "B"], 0%Z);
             ("Drink?", "text", false, Some [""], 1%Z);
             ("Stars?", "rating", false, None, 2%Z) ]
       ∧ GET_api_public_surveys (surveys.shareToken survey) db'
         = (Returns (json (mkSurveyWithQuestions survey stored)), db')).
Proof.
  assert ("w" ∈ user_ids sample_db) as Huser by by_compute.
  split_and!.
  - exact (proj1 (dialog_creates_draft_or_active 5 "w" true form_without_questions
                    sample_db sample_db_constraints sample_db_uuid_fresh Huser)
             eq_refl).
  - exact (proj2 (dialog_creates_draft_or_active 5 "w" true sample_form sample_db
                    sample_db_constraints sample_db_uuid_fresh Huser)
             eq_refl eq_refl).
  - exact (proj2 (dialog_creates_draft_or_active 5 "w" false sample_form sample_db
                    sample_db_constraints sample_db_uuid_fresh Huser)
             eq_refl eq_refl).
Defined.

Section builder_existing.
Implicit Types (db : Db) (data : SurveyForm).

Lemma survey_json_partial_parse data :
  insertSurveySchema_partial_parse (b_survey (survey_json data))
  = Returns (surveys.mk_insert None (Some (sf_title data))
               (Some <$> sf_description data) None (Some (sf_status data))
               (Some (sf_anonymous data)) (Some (sf_multipleResponses data))
               None None None).
Proof. destruct data as [? [d|] ? ? ? ?]; reflexivity. Qed.

(** The row is stored, and every other row is as it was. *)
Lemma updated_row_stored (survey updated : Survey) values db :
  NoDup (survey_ids db) → survey ∈ tbl_surveys db →
  updated = set_survey values survey →
  ∀ s, s ∈ (λ r, if Drizzle.eq surveys.id (surveys.id survey) r
                 then set_survey values r else r) <$> tbl_surveys db
       ↔ s = updated ∨ (s ∈ tbl_surveys db ∧ s ≠ survey).
Proof.
  intros Hnd Hin -> s.
  rewrite list_elem_of_fmap. unfold Drizzle.eq. split.
  - intros (r & -> & Hr). case_bool_decide as E.
    + left. f_equal. by apply (NoDup_column_inj surveys.id (tbl_surveys db)).
    + right. split; [done|]. by intros ->.
  - intros [->|[Hs Hne]].
    + exists survey. by rewrite bool_decide_eq_true_2.
    + exists s. split; [|done]. rewrite bool_decide_eq_false_2; [done|].
      intros E. apply Hne.
      by apply (NoDup_column_inj surveys.id (tbl_surveys db)).
Qed.
End builder_existing.

(** X17.  Saving an existing survey from the builder, for a form that
    the resolver accepts and whose title, description and status are
    texts the database takes, stores the form's title, status and flags,
    and its description when the form has one, and sets [updatedAt]: the
    row replaces the survey's row and every other survey stays.  The
    questions of the form are not stored: the route reads the survey's
    own fields only, so whatever was added, removed, reordered or reworded
    among the questions in the builder, the questions table is left as it
    was and reading the survey back gives the questions it had before.
    When the resolver rejects the form, nothing is sent. *)
Theorem builder_edit_keeps_stored_questions
    (now : nat) (survey : Survey) (data : SurveyForm) (db : Db) :
  constraints db → survey ∈ tbl_surveys db →
  (builder_surveySchema data = false →
   builder_save_existing now (surveys.createdBy survey) (surveys.id survey) data db
   = (Returns None, db))
  ∧ (builder_surveySchema data = true → survey_fields_storable data = true →
     ∃ updated db',
       builder_save_existing now (surveys.createdBy survey) (surveys.id survey)
         data db
       = (Returns (Some (json (Some updated))), db')
       ∧ updated
         = surveys.mk (surveys.id survey) (sf_title data)
             (match sf_description data with
              | Some description => Some description
              | None => surveys.description survey
              end)
             (surveys.createdBy survey) (sf_status data) (sf_anonymous data)
             (sf_multipleResponses data) (surveys.shareToken survey)
             (surveys.createdAt survey) (Some now)
       ∧ (∀ s, s ∈ tbl_surveys db'
               ↔ s = updated ∨ (s ∈ tbl_surveys db ∧ s ≠ survey))
       ∧ tbl_questions db' = tbl_questions db
       ∧ tbl_responses db' = tbl_responses db
       ∧ tbl_answers db' = tbl_answers db
       ∧ ∃ questions,
           GET_api_surveys_id (surveys.createdBy survey) (surveys.id survey) db
           = (Returns (json (mkSurveyWithQuestions survey questions)), db)
           ∧ GET_api_surveys_id (surveys.createdBy survey) (surveys.id survey) db'
             = (Returns (json (mkSurveyWithQuestions updated questions)), db')).
Proof.
  intros Hc Hin. unfold builder_save_existing, form_handleSubmit.
  split; [by intros ->|]. intros -> Hpg.
  destruct (PUT_run_owner now survey (b_survey (survey_json (builder_onSubmit data)))
              _ db Hc Hin (survey_json_partial_parse (builder_onSubmit data))
              (survey_json_storable (builder_onSubmit data) Hpg))
    as (Hrun & Hc' & Hin').
  cbv zeta in Hrun, Hc', Hin'.
  set (db' := with_surveys _ db) in Hrun, Hc', Hin'.
  set (updated := set_survey _ survey) in Hrun, Hin'.
  assert (∀ s, s ∈ tbl_surveys db'
               ↔ s = updated ∨ (s ∈ tbl_surveys db ∧ s ≠ survey)) as Hrows
    by (eapply updated_row_stored; [apply Hc|exact Hin|reflexivity]).
  exists updated, db'. unfold bind. rewrite Hrun. split; [reflexivity|].
  split; [unfold updated; simpl; by destruct (sf_description data)|].
  split; [exact Hrows|].
  split; [done|]. split; [done|]. split; [done|].
  exists (Drizzle.orderBy questions.order (questions_in (surveys.id survey) db)).
  split.
  - unfold GET_api_surveys_id, try_catch, bind.
    rewrite getSurvey_run by (done || apply Hc).
    rewrite bool_decide_eq_true_2 by done. cbn [negb].
    by rewrite getQuestionsBySurvey_run.
  - unfold GET_api_surveys_id, try_catch, bind.
    assert (getSurvey (surveys.id survey) db' = (Returns (Some updated), db'))
      as -> by exact (getSurvey_run updated db' (pk_surveys _ Hc') Hin').
    change (surveys.createdBy updated) with (surveys.createdBy survey).
    rewrite bool_decide_eq_true_2 by done. cbn [negb].
    by rewrite getQuestionsBySurvey_run.
Qed.

Lemma builder_edit_keeps_stored_questions_witness :
  builder_save_existing 30 "u" "s1" form_without_title sample_db
  = (Returns None, sample_db)
  ∧ ∃ updated db',
      builder_save_existing 30 "u" "s1" sample_form sample_db
      = (Returns (Some (json (Some updated))), db')
      ∧ updated
        = surveys.mk "s1" "Lunch" (Some "Weekly") "u" "draft" true false "tok1"
            (Some 1) (Some 30)
      ∧ (∀ s, s ∈ tbl_surveys db'
              ↔ s = updated ∨ (s ∈ tbl_surveys sample_db ∧ s ≠ survey_u1))
      ∧ tbl_questions db' = tbl_questions sample_db
      ∧ tbl_responses db' = tbl_responses sample_db
      ∧ tbl_answers db' = tbl_answers sample_db
      ∧ ∃ questions,
          GET_api_surveys_id "u" "s1" sample_db
          = (Returns (json (mkSurveyWithQuestions survey_u1 questions)), sample_db)
          ∧ GET_api_surveys_id "u" "s1" db'
            = (Returns (json (mkSurveyWithQuestions updated questions)), db').
Proof.
  assert (survey_u1 ∈ tbl_surveys sample_db) as Hin by by_compute.
  split.
  - exact (proj1 (builder_edit_keeps_stored_questions 30 survey_u1
                    form_without_title sample_db sample_db_constraints Hin) eq_refl).
  - exact (proj2 (builder_edit_keeps_stored_questions 30 survey_u1 sample_form
                    sample_db sample_db_constraints Hin) eq_refl eq_refl).
Defined.

(** X18.  Opening a survey in the builder and saving the values the form
    was reset to.  The save passes through the resolver: a stored survey
    without title or with a status outside draft, active and closed is
    not sent back at all.  When the resolver accepts the form, the survey
    keeps its title, status, flags, creator, share token and creation
    time; a missing description comes back as the empty string (the form
    is reset with [survey.description || ""]), and [updatedAt] is the time
    of the save.  The row replaces the survey's row, and the other
    surveys and the questions stay as they were. *)
Theorem builder_resave_unchanged
    (now : nat) (survey : Survey) (db : Db) :
  constraints db → survey ∈ tbl_surveys db →
  ∃ fetched,
    GET_api_surveys_id (surveys.createdBy survey) (surveys.id survey) db
    = (Returns (json fetched), db)
    ∧ (surveys.title survey = "" ∨ surveys.status survey ∉ ["draft"; "active"; "closed"] →
       builder_surveySchema (form_reset fetched) = false)
    ∧ (builder_surveySchema (form_reset fetched) = false →
       builder_save_existing now (surveys.createdBy survey) (surveys.id survey)
         (form_reset fetched) db
       = (Returns None, db))
    ∧ (builder_surveySchema (form_reset fetched) = true →
       ∃ updated db',
         builder_save_existing now (surveys.createdBy survey) (surveys.id survey)
           (form_reset fetched) db
         = (Returns (Some (json (Some updated))), db')
         ∧ updated
           = surveys.mk (surveys.id survey) (surveys.title survey)
               (Some (default "" (surveys.description survey)))
               (surveys.createdBy survey) (surveys.status survey)
               (surveys.anonymous survey) (surveys.multipleResponses survey)
               (surveys.shareToken survey) (surveys.createdAt survey) (Some now)
         ∧ (∀ s, s ∈ tbl_surveys db'
                 ↔ s = updated ∨ (s ∈ tbl_surveys db ∧ s ≠ survey))
         ∧ tbl_questions db' = tbl_questions db).
Proof.
  intros Hc Hin.
  exists (mkSurveyWithQuestions survey
            (Drizzle.orderBy questions.order (questions_in (surveys.id survey) db))).
  set (fetched := mkSurveyWithQuestions survey _).
  unfold builder_save_existing, form_handleSubmit.
  split_and!.
  - unfold GET_api_surveys_id, try_catch, bind.
    rewrite getSurvey_run by (done || apply Hc).
    rewrite bool_decide_eq_true_2 by done. cbn [negb].
    by rewrite getQuestionsBySurvey_run.
  - unfold builder_surveySchema. cbn [form_reset sf_title sf_status survey_of fetched].
    intros [->|Hstatus]; [done|].
    by rewrite (bool_decide_eq_false_2 _ Hstatus), andb_false_r.
  - by intros ->.
  - intros ->.
    assert (survey_fields_storable (form_reset fetched) = true) as Hpg.
    { apply pg_values, pg_rows_spec in Hc as (Hpg & _).
      apply (forallb_elem_of _ _ _ Hpg) in Hin. unfold pg_survey in Hin.
      rewrite !andb_true_iff in Hin. destruct Hin as [[[[[_ Ht] Hd] _] Hs] _].
      unfold survey_fields_storable.
      cbn [form_reset sf_title sf_description sf_status survey_of fetched].
      rewrite Ht, Hs. cbn [andb]. rewrite andb_true_r.
      destruct (surveys.description survey) as [d|]; [|done]. cbn in Hd |- *.
      by destruct (String.eqb d ""). }
    destruct (PUT_run_owner now survey
                (b_survey (survey_json (builder_onSubmit (form_reset fetched))))
                _ db Hc Hin
                (survey_json_partial_parse (builder_onSubmit (form_reset fetched)))
                (survey_json_storable (builder_onSubmit (form_reset fetched)) Hpg))
      as (Hrun & Hc' & Hin').
    cbv zeta in Hrun, Hc', Hin'.
    set (db' := with_surveys _ db) in Hrun, Hc', Hin'.
    set (updated := set_survey _ survey) in Hrun, Hin'.
    assert (∀ s, s ∈ tbl_surveys db'
                 ↔ s = updated ∨ (s ∈ tbl_surveys db ∧ s ≠ survey)) as Hrows
      by (eapply updated_row_stored; [apply Hc|exact Hin|reflexivity]).
    exists updated, db'. unfold bind. rewrite Hrun. split_and!; try done.
    unfold updated, set_survey, spread_updatedAt. simpl.
    destruct (surveys.description survey) as [d|]; simpl; [|done].
    destruct (String.eqb d "") eqn:E; [|done].
    apply String.eqb_eq in E. by subst.
Qed.

Lemma builder_resave_unchanged_witness :
  ∃ fetched,
    GET_api_surveys_id "u" "s1" sample_db = (Returns (json fetched), sample_db)
    ∧ builder_surveySchema (form_reset fetched) = true
    ∧ ∃ updated db',
        builder_save_existing 30 "u" "s1" (form_reset fetched) sample_db
        = (Returns (Some (json (Some updated))), db')
        ∧ updated
          = surveys.mk "s1" "Lunch" (Some "") "u" "active" true false "tok1"
              (Some 1) (Some 30)
        ∧ (∀ s, s ∈ tbl_surveys db'
                ↔ s = updated ∨ (s ∈ tbl_surveys sample_db ∧ s ≠ survey_u1))
        ∧ tbl_questions db' = tbl_questions sample_db.
Proof.
  destruct (builder_resave_unchanged 30 survey_u1 sample_db sample_db_constraints
              ltac:(by_compute)) as (fetched & Hget & _ & _ & Hsave).
  exists fetched. split; [exact Hget|].
  assert (builder_surveySchema (form_reset fetched) = true) as Hok.
  { vm_compute in Hget. by injection Hget as <-. }
  split; [exact Hok|]. exact (Hsave Hok).
Defined.

(** * Deleting from the dashboard *)

Section dashboard_delete.
Implicit Types (db : Db) (survey : Survey).

Lemma responses_in_after_delete id other db :
  other ≠ id →
  responses_in other (cascade_surveys (Drizzle.eq surveys.id id) db)
  = responses_in other db.
Proof.
  intros Hne. unfold responses_in, cascade_surveys. cbn [tbl_responses].
  apply filter_filter_implied. intros r _ Hr.
  apply bool_decide_eq_true in Hr. apply negb_true_iff, bool_decide_eq_false.
  rewrite gone_survey_ids. intros [E _]. congruence.
Qed.

Lemma owned_by_after_delete userId survey db :
  NoDup (survey_ids db) → survey ∈ tbl_surveys db →
  surveys.createdBy survey ≠ userId →
  owned_by userId (cascade_surveys (Drizzle.eq surveys.id (surveys.id survey)) db)
  = owned_by userId db.
Proof.
  intros Hnd Hin Hne. unfold owned_by, cascade_surveys. cbn [tbl_surveys].
  apply filter_filter_implied. intros s Hs Hown.
  apply bool_decide_eq_true in Hown. apply negb_true_iff, bool_decide_eq_false.
  intros E. apply Hne. rewrite <- Hown. f_equal.
  by apply (NoDup_column_inj surveys.id (tbl_surveys db)).
Qed.

Lemma DELETE_run_owner survey db :
  constraints db → survey ∈ tbl_surveys db →
  DELETE_api_surveys_id (surveys.createdBy survey) (surveys.id survey) db
  = (Returns (status_send 204),
     cascade_surveys (Drizzle.eq surveys.id (surveys.id survey)) db).
Proof.
  intros Hc Hin. unfold DELETE_api_surveys_id, try_catch, bind.
  rewrite getSurvey_run by (done || apply Hc).
  rewrite bool_decide_eq_true_2 by done. cbn [negb].
  by rewrite deleteSurvey_run.
Qed.
End dashboard_delete.

(** X19.  Deleting a survey from the dashboard.  Declining the
    confirmation sends nothing.  Confirmed, the creator's request is
    answered 204, and afterwards the creator's list of surveys holds the
    surveys it held before except the deleted one, each with the response
    count it had; what any other user is shown does not change. *)
Theorem dashboard_delete_leaves_other_surveys (survey : Survey) (db : Db) :
  constraints db → survey ∈ tbl_surveys db →
  handleDeleteSurvey false (surveys.createdBy survey) (surveys.id survey) db
  = (Returns None, db)
  ∧ ∃ db' listed,
      handleDeleteSurvey true (surveys.createdBy survey) (surveys.id survey) db
      = (Returns (Some (status_send 204)), db')
      ∧ GET_api_surveys (surveys.createdBy survey) db' = (Returns (json listed), db')
      ∧ (∀ s, s ∈ stats_survey <$> listed
              ↔ s ∈ owned_by (surveys.createdBy survey) db ∧ s ≠ survey)
      ∧ Forall (λ entry,
          responseCount entry
          = length (responses_in (surveys.id (stats_survey entry)) db)) listed
      ∧ (∀ other, other ≠ surveys.createdBy survey →
           fst (GET_api_surveys other db') = fst (GET_api_surveys other db)).
Proof.
  intros Hc Hin. split; [done|].
  set (db' := cascade_surveys (Drizzle.eq surveys.id (surveys.id survey)) db).
  assert (∀ s, s ∈ tbl_surveys db' → surveys.id s ≠ surveys.id survey) as Hleft.
  { intros s Hs. by apply cascade_surveys_surveys in Hs as [_ ?]. }
  eexists db', _. split_and!.
  - unfold handleDeleteSurvey, bind. by rewrite DELETE_run_owner.
  - apply GET_api_surveys_run.
  - intros s. rewrite fmap_stats_survey, orderBy_desc_Permutation.
    unfold owned_by. rewrite !elem_of_List_filter.
    unfold db'. rewrite cascade_surveys_surveys. split.
    + intros [[Hs Hne] Hown]. split_and!; try done. by intros ->.
    + intros [[Hs Hown] Hne]. split_and!; try done. intros E. apply Hne.
      by apply (NoDup_column_inj surveys.id (tbl_surveys db)); [apply Hc|..].
  - apply Forall_fmap, Forall_forall. intros s Hs. simpl.
    rewrite orderBy_desc_Permutation in Hs.
    apply elem_of_List_filter in Hs as [Hs _].
    unfold db'. by rewrite responses_in_after_delete by by apply Hleft.
  - intros other Hne. rewrite !GET_api_surveys_run. cbn [fst].
    unfold db'. rewrite owned_by_after_delete by (done || apply Hc).
    do 2 f_equal. apply Forall_fmap_ext, Forall_forall. intros s Hs.
    rewrite orderBy_desc_Permutation in Hs.
    apply elem_of_List_filter in Hs as [Hs Hown].
    apply bool_decide_eq_true in Hown.
    rewrite responses_in_after_delete; [done|].
    intros E. apply Hne. rewrite <- Hown. f_equal.
    by apply (NoDup_column_inj surveys.id (tbl_surveys db)); [apply Hc|..].
Qed.

Lemma dashboard_delete_leaves_other_surveys_witness :
  handleDeleteSurvey false "u" "s1" sample_db = (Returns None, sample_db)
  ∧ ∃ db' listed,
      handleDeleteSurvey true "u" "s1" sample_db
      = (Returns (Some (status_send 204)), db')
      ∧ GET_api_surveys "u" db' = (Returns (json listed), db')
      ∧ (∀ s, s ∈ stats_survey <$> listed
              ↔ s ∈ owned_by "u" sample_db ∧ s ≠ survey_u1)
      ∧ Forall (λ entry,
          responseCount entry
          = length (responses_in (surveys.id (stats_survey entry)) sample_db)) listed
      ∧ (∀ other, other ≠ "u" →
           fst (GET_api_surveys other db') = fst (GET_api_surveys other sample_db)).
Proof.
  apply (dashboard_delete_leaves_other_surveys survey_u1 sample_db);
    [exact sample_db_constraints|by_compute].
Defined.

(** * Charts for any list of options *)

Section charts.
Implicit Types (o : JsObject.t nat) (keys : list string).

Lemma replace_zero k o :
  Forall (λ kv, kv.2 = 0) o → Forall (λ kv, kv.2 = 0) (JsObject.replace k 0 o).
Proof.
  induction 1 as [|[k' w] o Hw Ho IH]; [constructor|]. simpl.
  destruct (decide (k' = k)); constructor; done.
Qed.

(** Declaring the options, whatever they are: one counter per distinct
    option other than [__proto__], all at zero. *)
Lemma declare_any_counters keys : ∀ o,
  NoDup o.*1 → Forall (λ kv, kv.2 = 0) o →
  let o' := foldl (λ counts key, JsObject.assign key 0 counts) o keys in
  NoDup o'.*1 ∧ Forall (λ kv, kv.2 = 0) o'
  ∧ ∀ k, k ∈ o'.*1 ↔ k ∈ o.*1 ∨ (k ∈ keys ∧ k ≠ "__proto__").
Proof.
  induction keys as [|key keys IH]; intros o Hnd Hz; simpl.
  - split_and!; [done..|]. intros k. split; [by left|].
    by intros [?|[?%elem_of_nil _]].
  - assert (NoDup (JsObject.assign key 0 o).*1
            ∧ Forall (λ kv, kv.2 = 0) (JsObject.assign key 0 o)
            ∧ ∀ k, k ∈ (JsObject.assign key 0 o).*1
                   ↔ k ∈ o.*1 ∨ (k = key ∧ k ≠ "__proto__")) as (Hnd1 & Hz1 & Hk1).
    { unfold JsObject.assign. destruct (decide (key = "__proto__")) as [->|Hne].
      - split_and!; [done..|]. intros k. split; [by left|]. by intros [?|[-> ?]].
      - split; [by apply define_NoDup|]. unfold JsObject.define.
        destruct (JsObject.hasOwn key o) eqn:Hown.
        + split; [by apply replace_zero|]. intros k. rewrite replace_keys.
          split; [by left|]. intros [?|[-> _]]; [done|]. by apply hasOwn_in.
        + split; [apply Forall_app; split; [done|by constructor]|].
          intros k. rewrite fmap_app, elem_of_app. simpl.
          rewrite list_elem_of_singleton. split.
          * intros [?|E]; [by left|right; by rewrite E].
          * intros [?|[-> _]]; [by left|by right]. }
    destruct (IH _ Hnd1 Hz1) as (Hnd2 & Hz2 & Hk2).
    split_and!; [done..|]. intros k. rewrite Hk2, Hk1, elem_of_cons. naive_solver.
Qed.

Lemma substring_length n s : String.length (String.substring 0 n s) ≤ n.
Proof.
  revert s. induction n as [|n IH]; intros [|c s]; simpl; try lia.
  specialize (IH s). lia.
Qed.

Lemma string_app_length (s1 s2 : string) :
  String.length (s1 +:+ s2) = String.length s1 + String.length s2.
Proof. induction s1 as [|c s1 IH]; [done|]. simpl. by rewrite IH. Qed.

Lemma short_name_length option : String.length (short_name option) ≤ 23.
Proof.
  unfold short_name. destruct (decide _) as [|Hle]; [|lia].
  rewrite string_app_length. pose proof (substring_length 20 option).
  simpl. lia.
Qed.

Lemma substring_prefix n s :
  n ≤ String.length s →
  ∃ rest, s = String.substring 0 n s +:+ rest
          ∧ String.length (String.substring 0 n s) = n.
Proof.
  revert s. induction n as [|n IH]; intros s Hn.
  - exists s. by destruct s.
  - destruct s as [|c s]; [simpl in Hn; lia|].
    destruct (IH s) as (rest & Hs & Hlen); [simpl in Hn; lia|].
    exists rest. simpl. split; [|by rewrite Hlen].
    change (String c s = String c (String.substring 0 n s +:+ rest)).
    by f_equal.
Qed.

(** [short_name] gives the label: a short option as it is, a long one
    cut after its first 20 characters, with three dots. *)
Lemma short_name_labelled option : labelled option (short_name option).
Proof.
  unfold labelled, short_name.
  destruct (decide (20 < String.length option)) as [Hlong|Hshort].
  - rewrite decide_False by lia.
    destruct (substring_prefix 20 option) as (rest & Hs & Hlen); [lia|].
    by exists (String.substring 0 20 option), rest.
  - by rewrite decide_True by lia.
Qed.

Lemma chart_fullNames (l : list (string * nat)) :
  fullName <$> ((λ '(option, count),
                   mkChartPoint (short_name option) count (Some option)) <$> l)
  = Some <$> l.*1.
Proof. induction l as [|[k c] l IH]; [done|]. csimpl. by rewrite IH. Qed.
End charts.

(** X20.  The chart of a multiple-choice question, for any list of
    options none of which is named [hasOwnProperty]: it has one bar per
    distinct option other than [__proto__] (a repeated option gets one bar,
    [__proto__] gets none); each bar shows the number of answers to this
    question that carry exactly its option, keeps the complete option as
    [fullName], and is labelled with the option itself when that has at
    most 20 characters, and else with its first 20 characters followed by
    three dots. *)
Theorem multiple_choice_chart_any_options
    (responseData : ResponseData) (question : Question) (options : list string) :
  questions.type question = "multiple-choice" →
  questions.options question = Some options →
  "hasOwnProperty" ∉ options →
  ∃ points,
    getQuestionAnalytics (Some responseData) question = Returns (Some (Chart points))
    ∧ NoDup (fullName <$> points)
    ∧ (∀ option, Some option ∈ fullName <$> points
                 ↔ option ∈ options ∧ option ≠ "__proto__")
    ∧ Forall (λ point,
        ∃ option,
          fullName point = Some option
          ∧ labelled option (name point)
          ∧ value point = count_value option (answers_of question responseData)
          ∧ String.length (name point) ≤ 23) points.
Proof.
  intros Htype Hopts Hhas.
  unfold getQuestionAnalytics. rewrite decide_True by done. rewrite Hopts.
  cbn [from_option id].
  destruct (declare_any_counters options [] (NoDup_nil_2) (Forall_nil_2 _))
    as (Hnd & Hz & Hk). cbv zeta in Hnd, Hz, Hk.
  set (counts := foldl (λ counts option, JsObject.assign option 0 counts) []
                   options) in Hnd, Hz, Hk |- *.
  fold (answers_of question responseData).
  rewrite tally_counts; [|done|..].
  2:{ rewrite Hk. intros [?%elem_of_nil|[? _]]; done. }
  2:{ rewrite Hk. intros [?%elem_of_nil|[_ ?]]; done. }
  unfold obind. eexists. split; [reflexivity|].
  set (tallied := add_counts _ counts).
  assert (tallied.*1 = counts.*1) as Hkeys by apply add_counts_keys.
  pose proof (entries_Permutation tallied) as Hp.
  assert (fullName <$> ((λ '(option, count),
            mkChartPoint (short_name option) count (Some option))
          <$> JsObject.entries tallied)
          = Some <$> (JsObject.entries tallied).*1) as Hfull.
  { apply chart_fullNames. }
  split_and!.
  - rewrite Hfull. apply (NoDup_fmap_2 Some). by rewrite Hp, Hkeys.
  - intros option. rewrite Hfull, (list_elem_of_fmap_inj Some).
    rewrite Hp, Hkeys, Hk. split; [by intros [?%elem_of_nil|?]|by right].
  - apply Forall_fmap, Forall_forall. intros [k c] Hkc.
    rewrite Hp in Hkc. exists k. split_and!; try done.
    + apply short_name_labelled.
    + unfold tallied, add_counts in Hkc.
      apply list_elem_of_fmap in Hkc as ([k' c'] & [= -> ->] & Hin).
      pose proof (proj1 (Forall_forall _ _) Hz _ Hin) as Hzero.
      simpl in Hzero |- *. by rewrite Hzero.
    + apply short_name_length.
Qed.

Lemma multiple_choice_chart_any_options_witness :
  ∃ points,
    getQuestionAnalytics (Some sample_votes)
      (sample_choice ["B"; "2"; "A"; "B"; "__proto__"; "1"])
    = Returns (Some (Chart points))
    ∧ NoDup (fullName <$> points)
    ∧ (∀ option, Some option ∈ fullName <$> points
                 ↔ option ∈ ["B"; "2"; "A"; "B"; "__proto__"; "1"]
                   ∧ option ≠ "__proto__")
    ∧ Forall (λ point,
        ∃ option,
          fullName point = Some option
          ∧ labelled option (name point)
          ∧ value point
            = count_value option
                (answers_of (sample_choice ["B"; "2"; "A"; "B"; "__proto__"; "1"])
                   sample_votes)
          ∧ String.length (name point) ≤ 23) points.
Proof.
  apply (multiple_choice_chart_any_options sample_votes
           (sample_choice ["B"; "2"; "A"; "B"; "__proto__"; "1"])
           ["B"; "2"; "A"; "B"; "__proto__"; "1"]);
    [reflexivity|reflexivity|by_compute].
Defined.

(** An option of 21 characters is cut, one of 20 is not. *)
Example long_option_label :
  getQuestionAnalytics (Some sample_votes)
    (sample_choice ["abcdefghijklmnopqrstu"; "abcdefghijklmnopqrst"])
  = Returns (Some (Chart
      [ mkChartPoint "abcdefghijklmnopqrst..." 0 (Some "abcdefghijklmnopqrstu");
        mkChartPoint "abcdefghijklmnopqrst" 0 (Some "abcdefghijklmnopqrst") ])).
Proof. vm_compute. reflexivity. Qed.

(** X21.  An option named [hasOwnProperty] breaks the chart: as soon as
    the question has one answer, whatever its value, computing the chart
    of a multiple-choice question with such an option throws the
    [TypeError] "optionCounts.hasOwnProperty is not a function", because
    the counter of that name hides the method the tally calls. *)
Theorem option_named_hasOwnProperty_breaks_chart
    (responseData : ResponseData) (question : Question) (options : list string) :
  questions.type question = "multiple-choice" →
  questions.options question = Some options →
  "hasOwnProperty" ∈ options →
  answers_of question responseData ≠ [] →
  getQuestionAnalytics (Some responseData) question
  = Throws (TypeError "optionCounts.hasOwnProperty is not a function").
Proof.
  intros Htype Hopts Hhas Hanswers.
  unfold getQuestionAnalytics. rewrite decide_True by done. rewrite Hopts.
  cbn [from_option id].
  destruct (declare_any_counters options [] (NoDup_nil_2) (Forall_nil_2 _))
    as (_ & _ & Hk). cbv zeta in Hk.
  set (counts := foldl (λ counts option, JsObject.assign option 0 counts) []
                   options) in Hk |- *.
  fold (answers_of question responseData).
  destruct (answers_of question responseData) as [|answer rest]; [done|].
  simpl. unfold JsObject.call_hasOwnProperty.
  rewrite (proj2 (hasOwn_in _ _)); [done|].
  apply Hk. by right.
Qed.

Lemma option_named_hasOwnProperty_breaks_chart_witness :
  getQuestionAnalytics (Some sample_votes) (sample_choice ["A"; "hasOwnProperty"])
  = Throws (TypeError "optionCounts.hasOwnProperty is not a function").
Proof.
  apply (option_named_hasOwnProperty_breaks_chart sample_votes
           (sample_choice ["A"; "hasOwnProperty"]) ["A"; "hasOwnProperty"]);
    [reflexivity|reflexivity|by_compute|discriminate].
Defined.

(** * The dashboard's totals *)

Section totals.
Implicit Types (db : Db) (userId : string).

Lemma filter_disjoint_length {R} (p q : R → bool) (l : list R) :
  (∀ x, x ∈ l → p x = true → q x = true → False) →
  length (List.filter p l) + length (List.filter q l)
  = length (List.filter (λ x, p x || q x) l).
Proof.
  induction l as [|x l IH]; intros Hd; [done|]. simpl.
  assert (∀ y, y ∈ l → p y = true → q y = true → False) as Hd'
    by (intros y Hy; apply Hd; by right).
  specialize (IH Hd').
  destruct (p x) eqn:Hp, (q x) eqn:Hq; simpl; try lia.
  destruct (Hd x); [by left|done..].
Qed.

(** With [id] a key, the responses to a list of surveys are the responses
    to each of them, counted once. *)
Lemma responses_by_survey (owned : list Survey) (rs : list Response) :
  NoDup (surveys.id <$> owned) →
  sum_list_with (λ s, length (List.filter (Drizzle.eq responses.surveyId (surveys.id s)) rs))
    owned
  = length (List.filter (λ r, bool_decide (responses.surveyId r ∈ surveys.id <$> owned)) rs).
Proof.
  induction owned as [|s owned IH]; intros Hnd.
  - rewrite filter_none; [done|].
    apply Forall_forall. intros r _. apply bool_decide_eq_false.
    by intros ?%elem_of_nil.
  - csimpl in Hnd. apply NoDup_cons in Hnd as [Hs Hnd].
    simpl. rewrite IH by done. rewrite filter_disjoint_length.
    + f_equal. apply List.filter_ext. intros r. unfold Drizzle.eq.
      apply eq_true_iff_eq.
      rewrite orb_true_iff, !bool_decide_eq_true. csimpl.
      rewrite elem_of_cons. done.
    + intros r _ Hr Hin. apply bool_decide_eq_true in Hr.
      apply bool_decide_eq_true in Hin. apply Hs. by rewrite <- Hr.
Qed.
End totals.

(** X22.  The statistics of a user, in a store where survey identifiers
    are unique: [totalSurveys] is the number of surveys the user created,
    [totalResponses] the number of responses to these surveys, which is
    also the sum of the response counts that [GET /api/surveys] lists for
    the same user, and [avgCompletionRate] is 78.5 whatever the data. *)
Theorem stats_totals_match_survey_list (userId : string) (db : Db) :
  NoDup (survey_ids db) →
  ∃ stats listed,
    GET_api_stats userId db = (Returns (json stats), db)
    ∧ GET_api_surveys userId db = (Returns (json listed), db)
    ∧ totalSurveys stats = length (owned_by userId db)
    ∧ totalSurveys stats = length listed
    ∧ totalResponses stats
      = length (List.filter (λ r, bool_decide
          (responses.surveyId r ∈ surveys.id <$> owned_by userId db))
          (tbl_responses db))
    ∧ totalResponses stats = sum_list_with responseCount listed
    ∧ avgCompletionRate stats = "78.5".
Proof.
  intros Hnd. eexists _, _. split.
  { unfold GET_api_stats, try_catch, bind. by rewrite getSurveyStats_run. }
  split; [apply GET_api_surveys_run|].
  cbn [totalSurveys totalResponses avgCompletionRate].
  split_and!; try done.
  - rewrite length_fmap. symmetry. apply Permutation_length, orderBy_desc_Permutation.
  - rewrite <- (responses_by_survey (owned_by userId db))
      by by apply NoDup_fmap_filter.
    rewrite <- (orderBy_desc_Permutation surveys.createdAt (owned_by userId db)) at 1.
    generalize (orderBy_desc surveys.createdAt (owned_by userId db)).
    intros l. induction l as [|s l IH]; [done|]. csimpl. by rewrite IH.
Qed.

Lemma stats_totals_match_survey_list_witness :
  ∃ stats listed,
    GET_api_stats "u" sample_db = (Returns (json stats), sample_db)
    ∧ GET_api_surveys "u" sample_db = (Returns (json listed), sample_db)
    ∧ totalSurveys stats = length (owned_by "u" sample_db)
    ∧ totalSurveys stats = length listed
    ∧ totalResponses stats
      = length (List.filter (λ r, bool_decide
          (responses.surveyId r ∈ surveys.id <$> owned_by "u" sample_db))
          (tbl_responses sample_db))
    ∧ totalResponses stats = sum_list_with responseCount listed
    ∧ avgCompletionRate stats = "78.5".
Proof.
  apply (stats_totals_match_survey_list "u" sample_db). by_compute.
Defined.

(** * Editing options in the form *)

Section options.
Implicit Types (options : option (list string)) (question : QuestionForm).

Lemma filled_options_idemp (l : list string) :
  filled_options (filled_options l) = filled_options l.
Proof.
  unfold filled_options. apply filter_all, Forall_forall.
  by intros x [_ ?]%elem_of_List_filter.
Qed.


End options.



(** X24.  What the builder's [onSubmit] hands to the save is in normal
    form: the questions are numbered 0, 1, ... by position, no
    multiple-choice question carries a blank option, and running
    [onSubmit] on its own result changes nothing. *)
Theorem onSubmit_normalises (data : SurveyForm) :
  let sent := builder_onSubmit data in
  qf_order <$> sf_questions sent
  = Z.of_nat <$> seq 0 (length (sf_questions data))
  ∧ Forall (λ question,
      ∀ options, qf_type question = "multiple-choice" →
        qf_options question = Some options →
        Forall (λ option, blank option = false) options)
      (sf_questions sent)
  ∧ builder_onSubmit sent = sent.
Proof.
  cbv zeta. unfold builder_onSubmit. cbn [sf_questions].
  assert (∀ (g : nat → nat) l,
    qf_order <$> imap (λ index question, process_question question (g index)) l
    = (Z.of_nat ∘ g) <$> seq 0 (length l)) as Horder.
  { intros g l. revert g. induction l as [|q l IH]; intros g; [done|].
    rewrite imap_cons. cbn [length seq]. rewrite !fmap_cons. f_equal.
    - by destruct (process_question_options q (g 0)) as (_ & _ & _ & _ & ->).
    - etrans; [exact (IH (g ∘ S))|].
      by rewrite <- fmap_S_seq, <- list_fmap_compose. }
  assert (∀ (g : nat → nat) l,
    Forall (λ question,
      ∀ options, qf_type question = "multiple-choice" →
        qf_options question = Some options →
        Forall (λ option, blank option = false) options)
      (imap (λ index question, process_question question (g index)) l)) as Hblank.
  { intros g l. revert g. induction l as [|q l IH]; intros g; [constructor|].
    simpl. constructor; [|apply (IH (g ∘ S))].
    intros options.
    destruct (process_question_options q (g 0)) as (-> & _ & -> & _ & _).
    unfold saved_options. intros Htype. rewrite decide_True by done.
    destruct (qf_options q) as [l0|]; [|done]. intros [= <-].
    apply Forall_forall. intros o [_ Ho]%elem_of_List_filter.
    by apply negb_true_iff in Ho. }
  assert (∀ (g : nat → nat) l,
    imap (λ index question, process_question question (g index))
      (imap (λ index question, process_question question (g index)) l)
    = imap (λ index question, process_question question (g index)) l) as Hidem.
  { intros g l. revert g. induction l as [|q l IH]; intros g; [done|].
    simpl. f_equal; [|apply (IH (g ∘ S))].
    destruct q as [text type required [l0|] order]; [|done].
    unfold process_question. cbn [qf_options qf_type].
    destruct (decide (type = "multiple-choice")) as [Ht|Ht];
      cbn [qf_options qf_type qf_text qf_required qf_order].
    - rewrite decide_True by done. by rewrite filled_options_idemp.
    - by rewrite decide_False. }
  split_and!.
  - apply (Horder (λ index, index)).
  - apply (Hblank (λ index, index)).
  - f_equal. apply (Hidem (λ index, index)).
Qed.

(** * Answers by response and by survey *)

(** X25.  The two ways of reading answers agree: in a store with unique
    response identifiers, the answers of one response of a survey
    ([getAnswersByResponse]) are exactly those among the survey's answers
    ([getAnswersBySurvey]) that name this response, in the same order; and
    every answer of the survey belongs to one of the survey's
    responses. *)
Theorem answers_by_response_within_survey (response : Response) (db : Db) :
  NoDup (response_ids db) → response ∈ tbl_responses db →
  ∃ ofSurvey ofResponse,
    getAnswersBySurvey (responses.surveyId response) db = (Returns ofSurvey, db)
    ∧ getAnswersByResponse (responses.id response) db = (Returns ofResponse, db)
    ∧ ofResponse
      = List.filter (Drizzle.eq answers.responseId (responses.id response)) ofSurvey
    ∧ Forall (λ answer,
        answers.responseId answer
        ∈ responses.id <$> responses_in (responses.surveyId response) db) ofSurvey.
Proof.
  intros Hnd Hin. eexists _, _.
  split; [by apply getAnswersBySurvey_run|]. split; [reflexivity|]. split.
  - symmetry. apply filter_filter_implied. intros a _ Ha.
    apply bool_decide_eq_true in Ha. apply bool_decide_eq_true.
    rewrite Ha. apply list_elem_of_fmap_2, elem_of_List_filter.
    split; [done|]. by apply bool_decide_eq_true.
  - apply Forall_forall. intros a [_ Ha]%elem_of_List_filter.
    by apply bool_decide_eq_true in Ha.
Qed.

Lemma answers_by_response_within_survey_witness :
  ∃ ofSurvey ofResponse,
    getAnswersBySurvey "s1" sample_db = (Returns ofSurvey, sample_db)
    ∧ getAnswersByResponse "r2" sample_db = (Returns ofResponse, sample_db)
    ∧ ofResponse = List.filter (Drizzle.eq answers.responseId "r2") ofSurvey
    ∧ Forall (λ answer,
        answers.responseId answer ∈ responses.id <$> responses_in "s1" sample_db)
        ofSurvey.
Proof.
  apply (answers_by_response_within_survey
           (responses.mk "r2" "s1" (Some "bob") (Some 5)) sample_db); by_compute.
Defined.

(** * Users *)

Section users.
Implicit Types (db : UserDb) (userData : UpsertUser) (r : User).

Lemma fmap_column_on_hits {R A} (col : R → A) (hit : R → bool) (f : R → R)
    (l : list R) :
  (∀ x, hit x = true → col (f x) = col x) →
  col <$> ((λ x, if hit x then f x else x) <$> l) = col <$> l.
Proof.
  intros Hf. induction l as [|x l IH]; [done|]. csimpl. rewrite IH.
  destruct (hit x) eqn:Hx; [|done]. by rewrite Hf.
Qed.

Lemma elem_of_omap_email (address : string) (l : list User) :
  address ∈ omap users.email l ↔ ∃ r, r ∈ l ∧ users.email r = Some address.
Proof. rewrite list_elem_of_omap. naive_solver. Qed.

(** The addresses after an update of the rows with key [id]. *)
Lemma updated_emails_NoDup (id : string) (values : UpsertUser) (l : list User) :
  NoDup (users.id <$> l) → NoDup (omap users.email l) →
  (∀ address other, users.i_email values = Some (Some address) →
     other ∈ l → users.email other = Some address → users.id other = id) →
  NoDup (omap users.email
           ((λ r, if Drizzle.eq users.id id r then set_user values r else r) <$> l)).
Proof.
  induction l as [|r l IH]; intros Hid Hem Hav; [constructor|].
  csimpl in Hid. apply NoDup_cons in Hid as [Hr Hid].
  assert (∀ address other, users.i_email values = Some (Some address) →
            other ∈ l → users.email other = Some address → users.id other = id)
    as Hav' by (intros a o Ha Ho; apply Hav; [done|by right]).
  assert (NoDup (omap users.email l)) as Hem'.
  { simpl in Hem. destruct (users.email r); [|done].
    by apply NoDup_cons in Hem as [_ ?]. }
  specialize (IH Hid Hem' Hav').
  rewrite fmap_cons. unfold Drizzle.eq at 1.
  destruct (decide (users.id r = id)) as [E|Hne].
  - rewrite bool_decide_eq_true_2 by done.
    rewrite fmap_no_hit by (apply no_hit_absent_key; by rewrite <- E).
    simpl. destruct (users.i_email values) as [[address|]|] eqn:Hgiven; simpl.
    + apply NoDup_cons. split; [|done].
      intros (other & Ho & Hoe)%elem_of_omap_email.
      apply Hr. rewrite E, <- (Hav' address other); [|done..].
      by apply list_elem_of_fmap_2.
    + done.
    + done.
  - rewrite bool_decide_eq_false_2 by done. simpl.
    destruct (users.email r) as [address|] eqn:Hre; [|done].
    apply NoDup_cons. split; [|done].
    intros (other & Ho & Hoe)%elem_of_omap_email.
    apply list_elem_of_fmap in Ho as (o & -> & Ho).
    destruct (Drizzle.eq users.id id o) eqn:Hhit.
    + simpl in Hoe.
      destruct (users.i_email values) as [[a|]|] eqn:Hgiven; simpl in Hoe.
      * injection Hoe as ->. apply Hne. apply (Hav address r); [done|by left|done].
      * done.
      * simpl in Hem. rewrite Hre in Hem. apply NoDup_cons in Hem as [Hem _].
        apply Hem, elem_of_omap_email. by exists o.
    + simpl in Hem. rewrite Hre in Hem. apply NoDup_cons in Hem as [Hem _].
      apply Hem, elem_of_omap_email. by exists o.
Qed.

Lemma getUser_run (user : User) (db : UserDb) :
  NoDup (users.id <$> tbl_users db) → user ∈ tbl_users db →
  getUser (users.id user) db = (Returns (Some user), db).
Proof.
  intros Hnd Hin. unfold getUser.
  cbn [Drizzle.rows Drizzle.where_ Drizzle.from Drizzle.sel_where Drizzle.sel_from].
  by rewrite head_filter_unique.
Qed.

(** The fields given are texts exactly when the row they lead to holds
    texts. *)
Lemma pg_user_set values r :
  pg_user_values values = true → pg_user r = true →
  pg_user (set_user values r) = true.
Proof.
  unfold pg_user_values, pg_user. rewrite !andb_true_iff.
  intros ((((?&?)&?)&?)&?) ((((?&?)&?)&?)&?).
  cbn [set_user users.id users.email users.firstName users.lastName
       users.profileImageUrl].
  split_and!; by apply pg_null_default.
Qed.

Lemma pg_null_given {A} (p : A → bool) (previous : A) (given : option A) :
  p (default previous given) = true → is_Some given ∨ p previous = true →
  pg_null p given = true.
Proof. by destruct given. Qed.

Lemma pg_user_set_inv values r id :
  users.i_id values = Some id →
  pg_user (set_user values r) = true → pg_user r = true →
  pg_user_values values = true.
Proof.
  unfold pg_user_values, pg_user. rewrite !andb_true_iff.
  cbn [set_user users.id users.email users.firstName users.lastName
       users.profileImageUrl].
  intros Hid ((((?&?)&?)&?)&?) ((((?&?)&?)&?)&?).
  split_and!; eapply pg_null_given; eauto.
Qed.

Lemma pg_user_new userData id now :
  users.i_id userData = Some id → pg_user_values userData = true →
  pg_user (users.mk id
             (default None (users.i_email userData))
             (default None (users.i_firstName userData))
             (default None (users.i_lastName userData))
             (default None (users.i_profileImageUrl userData))
             (default (Some now) (users.i_createdAt userData))
             (default (Some now) (users.i_updatedAt userData))) = true.
Proof.
  unfold pg_user_values, pg_user. rewrite !andb_true_iff. intros ->.
  cbn [users.id users.email users.firstName users.lastName users.profileImageUrl].
  intros ((((?&?)&?)&?)&?). split_and!; [done|by apply pg_null_default..].
Qed.

Lemma pg_user_new_inv userData id now :
  users.i_id userData = Some id →
  pg_user (users.mk id
             (default None (users.i_email userData))
             (default None (users.i_firstName userData))
             (default None (users.i_lastName userData))
             (default None (users.i_profileImageUrl userData))
             (default (Some now) (users.i_createdAt userData))
             (default (Some now) (users.i_updatedAt userData))) = true →
  pg_user_values userData = true.
Proof.
  unfold pg_user_values, pg_user. rewrite !andb_true_iff. intros ->.
  cbn [users.id users.email users.firstName users.lastName users.profileImageUrl].
  intros ((((?&?)&?)&?)&?).
  split_and!; [done|eapply pg_null_given; eauto..].
Qed.
End users.

(** X26.  Signing a user in, and reading the user back.  [upsertUser]
    with an identifier succeeds whenever the fields it gives are texts the
    database takes and the e-mail address it gives is not held by another
    user; with a field that holds the character U+0000 it fails and
    leaves the table as it was.  The first call for an identifier inserts
    a row with the fields given, the others empty, created and updated
    now; a later call updates that row: the fields given are replaced,
    the others and [createdAt] are kept, and [updatedAt] is the time of
    the call.  Either way there is then exactly one row for the
    identifier, [GET /api/auth/user] returns it, and no other user's row
    has changed. *)
Theorem upsertUser_round_trip
    (now : nat) (userData : UpsertUser) (id : string) (db : UserDb) :
  user_constraints db →
  users.i_id userData = Some id →
  email_available userData id db →
  (pg_user_values userData = false →
   ∃ e db', upsertUser now userData db = (Throws e, db')
            ∧ tbl_users db' = tbl_users db)
  ∧ (pg_user_values userData = true →
     ∃ user db',
       upsertUser now userData db = (Returns user, db')
       ∧ user_constraints db'
       ∧ GET_api_auth_user id db' = (Returns (json (Some user)), db')
       ∧ (∀ previous, previous ∈ tbl_users db → users.id previous = id →
            user
            = users.mk id
                (default (users.email previous) (users.i_email userData))
                (default (users.firstName previous) (users.i_firstName userData))
                (default (users.lastName previous) (users.i_lastName userData))
                (default (users.profileImageUrl previous)
                   (users.i_profileImageUrl userData))
                (default (users.createdAt previous) (users.i_createdAt userData))
                (Some now)
            ∧ users.id <$> tbl_users db' = users.id <$> tbl_users db)
       ∧ (¬ registered id db →
            user
            = users.mk id
                (default None (users.i_email userData))
                (default None (users.i_firstName userData))
                (default None (users.i_lastName userData))
                (default None (users.i_profileImageUrl userData))
                (default (Some now) (users.i_createdAt userData))
                (default (Some now) (users.i_updatedAt userData))
            ∧ tbl_users db' = tbl_users db ++ [user])
       ∧ (∀ other, other ∈ tbl_users db → users.id other ≠ id →
            other ∈ tbl_users db')).
Proof.
  intros [Hpk Hem Hpg] Hid Hav. unfold upsertUser. rewrite Hid.
  destruct (head _) as [existing|] eqn:Hhead.
  - apply head_filter_Some in Hhead as [Hin Hhit].
    apply bool_decide_eq_true in Hhit.
    set (values := spread_user_updatedAt userData now).
    set (rows := (λ r, if Drizzle.eq users.id id r then set_user values r else r)
                 <$> tbl_users db).
    assert (set_user values existing ∈ rows) as Hin'.
    { apply list_elem_of_fmap. exists existing. split; [|done].
      unfold Drizzle.eq. by rewrite bool_decide_eq_true_2. }
    split.
    { intros Hrefused. unfold commit_users.
      destruct (decide _) as [[_ _ Hpg']|]; [|by eexists _, _]. exfalso.
      cbn [tbl_users] in Hpg'.
      assert (pg_user_values values = true) as Hvalues.
      { apply (pg_user_set_inv values existing id); [done| |].
        - by apply (forallb_elem_of _ _ _ Hpg').
        - by apply (forallb_elem_of _ _ _ Hpg). }
      change (pg_user_values values) with (pg_user_values userData) in Hvalues.
      by rewrite Hrefused in Hvalues. }
    intros Hvalues.
    assert (users.id <$> rows = users.id <$> tbl_users db) as Hids.
    { apply fmap_column_on_hits. intros r Hr%bool_decide_eq_true.
      simpl. by rewrite Hid. }
    assert (user_constraints (mkUserDb rows (user_seed db))) as Hc'.
    { constructor; cbn [tbl_users]; [by rewrite Hids| |].
      - by apply updated_emails_NoDup.
      - apply forallb_conditional; [|done]. intros r. by apply pg_user_set. }
    assert (users.id (set_user values existing) = id) as Hid'
      by (simpl; by rewrite Hid).
    eexists _, _. unfold commit_users. rewrite decide_True by done.
    split; [reflexivity|]. split; [done|]. split_and!.
    + pose proof (getUser_run (set_user values existing)
                    (mkUserDb rows (user_seed db)) (pk_users _ Hc') Hin') as Hget.
      rewrite Hid' in Hget. unfold GET_api_auth_user. by rewrite Hget.
    + intros previous Hp Hpid.
      assert (previous = existing) as ->.
      { apply (NoDup_column_inj users.id (tbl_users db)); [done..|congruence]. }
      split; [|done]. unfold set_user, values. simpl. by rewrite Hid, Hpid.
    + intros Hnew. destruct Hnew. rewrite <- Hhit. by apply list_elem_of_fmap_2.
    + intros other Ho Hne. apply list_elem_of_fmap. exists other. split; [|done].
      unfold Drizzle.eq. by rewrite bool_decide_eq_false_2.
  - assert (id ∉ users.id <$> tbl_users db) as Hnew.
    { intros (r & Hr & Hin)%list_elem_of_fmap.
      pose proof (head_filter_None _ _ Hhead r Hin) as Hno.
      by apply bool_decide_eq_false in Hno. }
    set (user := users.mk id _ _ _ _ _ _).
    split.
    { intros Hrefused. unfold commit_users.
      destruct (decide _) as [[_ _ Hpg']|]; [|by eexists _, _]. exfalso.
      cbn [tbl_users] in Hpg'. apply forallb_snoc in Hpg' as [_ Hpg'].
      apply (pg_user_new_inv userData id now Hid) in Hpg'.
      by rewrite Hrefused in Hpg'. }
    intros Hvalues.
    assert (user_constraints (mkUserDb (tbl_users db ++ [user]) (user_seed db)))
      as Hc'.
    { constructor; cbn [tbl_users].
      - rewrite fmap_app. apply NoDup_app. split; [done|].
        split; [|apply NoDup_singleton].
        intros x Hx ->%list_elem_of_singleton. by apply Hnew.
      - rewrite omap_app. apply NoDup_app. split; [done|]. simpl.
        destruct (users.i_email userData) as [[address|]|] eqn:Hgiven; simpl;
          [|split; [by intros ? ? ?%elem_of_nil|constructor]..].
        split; [|apply NoDup_singleton].
        intros x (other & Ho & Hoe)%elem_of_omap_email ->%list_elem_of_singleton.
        apply Hnew. rewrite <- (Hav address other); [|done..].
        by apply list_elem_of_fmap_2.
      - apply forallb_snoc. split; [done|]. by apply pg_user_new. }
    eexists _, _. unfold commit_users. rewrite decide_True by done.
    split; [reflexivity|]. split; [done|]. split_and!.
    + assert (user ∈ tbl_users db ++ [user]) as Hin'
        by (apply elem_of_app; right; by left).
      pose proof (getUser_run user (mkUserDb (tbl_users db ++ [user]) (user_seed db))
                    (pk_users _ Hc') Hin') as Hget.
      change (users.id user) with id in Hget.
      unfold GET_api_auth_user. by rewrite Hget.
    + intros previous Hp Hpid. destruct Hnew. rewrite <- Hpid.
      by apply list_elem_of_fmap_2.
    + done.
    + intros other Ho _. apply elem_of_app. by left.
Qed.

Lemma upsertUser_round_trip_witness :
  let userData :=
    users.mk_insert (Some "u") (Some (Some "ann@example.org")) None
      (Some (Some "Lee")) None None None in
  (∃ e db',
     upsertUser 9 user_with_nul sample_users = (Throws e, db')
     ∧ tbl_users db' = tbl_users sample_users)
  ∧ ∃ user db',
      upsertUser 9 userData sample_users = (Returns user, db')
      ∧ user_constraints db'
      ∧ GET_api_auth_user "u" db' = (Returns (json (Some user)), db')
      ∧ user = users.mk "u" (Some "ann@example.org") (Some "Ann") (Some "Lee") None
                 (Some 1) (Some 9)
      ∧ users.id <$> tbl_users db' = ["u"; "v"; "w"].
Proof.
  intros userData. split.
  - apply (upsertUser_round_trip 9 user_with_nul "x" sample_users).
    + by_compute.
    + reflexivity.
    + intros address other [=].
    + reflexivity.
  - destruct (proj2 (upsertUser_round_trip 9 userData "u" sample_users
                       ltac:(by_compute) eq_refl
                       ltac:(intros address other [= <-]; revert other; each_row))
                eq_refl)
      as (user & db' & Hrun & Hc & Hget & Hupdate & _ & _).
    exists user, db'. split; [exact Hrun|]. split; [exact Hc|].
    split; [exact Hget|].
    apply (Hupdate (users.mk "u" (Some "ann@example.org") (Some "Ann") None None
                      (Some 1) (Some 1))); [by_compute|reflexivity].
Defined.

(** X27.  An e-mail address belongs to one user: [upsertUser] with an
    address that another user holds fails, whether it would insert or
    update, and the table is left as it was. *)
Theorem upsertUser_refuses_taken_email
    (now : nat) (userData : UpsertUser) (id address : string) (other : User)
    (db : UserDb) :
  user_constraints db →
  users.i_id userData = Some id →
  users.i_email userData = Some (Some address) →
  other ∈ tbl_users db → users.email other = Some address →
  users.id other ≠ id →
  ∃ e db',
    upsertUser now userData db = (Throws e, db')
    ∧ tbl_users db' = tbl_users db.
Proof.
  intros [Hpk Hem _] Hid Hgiven Ho Hoe Hne. unfold upsertUser. rewrite Hid.
  destruct (head _) as [existing|] eqn:Hhead.
  - apply head_filter_Some in Hhead as [Hin Hhit].
    apply bool_decide_eq_true in Hhit.
    unfold commit_users. destruct (decide _) as [[_ Hem' _]|]; [|by eexists _, _].
    cbn [tbl_users] in Hem'. exfalso.
    apply list_elem_of_split in Hin as (l1 & l2 & Hsplit).
    rewrite Hsplit in Hem', Ho, Hpk. clear Hsplit.
    rewrite fmap_app, fmap_cons in Hem'. rewrite fmap_app, fmap_cons in Hpk.
    apply NoDup_app in Hpk as (_ & Hpk1 & Hpk2).
    apply NoDup_cons in Hpk2 as [Hpk2 _].
    unfold Drizzle.eq at 2 in Hem'. rewrite bool_decide_eq_true_2 in Hem' by done.
    rewrite !fmap_no_hit in Hem'.
    2:{ apply no_hit_absent_key. by rewrite <- Hhit. }
    2:{ apply no_hit_absent_key. intros Hx. apply (Hpk1 _ Hx). rewrite Hhit. by left. }
    rewrite omap_app in Hem'. simpl in Hem'. rewrite Hgiven in Hem'. simpl in Hem'.
    apply NoDup_app in Hem' as (_ & Hd & Hem2).
    apply NoDup_cons in Hem2 as [Hem2 _].
    apply elem_of_app in Ho as [Ho|Ho].
    + apply (Hd address); [|by left]. apply elem_of_omap_email. by exists other.
    + apply elem_of_cons in Ho as [->|Ho]; [done|].
      apply Hem2, elem_of_omap_email. by exists other.
  - unfold commit_users. destruct (decide _) as [[_ Hem' _]|]; [|by eexists _, _].
    cbn [tbl_users] in Hem'. exfalso.
    rewrite omap_app in Hem'. simpl in Hem'. rewrite Hgiven in Hem'. simpl in Hem'.
    apply NoDup_app in Hem' as (_ & Hd & _).
    apply (Hd address); [|by left]. apply elem_of_omap_email. by exists other.
Qed.

Lemma upsertUser_refuses_taken_email_witness :
  ∃ e db',
    upsertUser 9
      (users.mk_insert (Some "new") (Some (Some "bob@example.org")) None None
         None None None) sample_users
    = (Throws e, db')
    ∧ tbl_users db' = tbl_users sample_users.
Proof.
  apply (upsertUser_refuses_taken_email 9 _ "new" "bob@example.org"
           (users.mk "v" (Some "bob@example.org") None None None (Some 2) (Some 2))
           sample_users);
    [by_compute|reflexivity|reflexivity|by_compute|reflexivity|done].
Defined.

(** * Exporting responses *)

Section export.
Context (toJSON : nat → string).
Implicit Types (survey : option SurveyWithQuestions) (response : Response).

Lemma getOwn_assign {V} key (v : V) (o : JsObject.t V) k :
  key ≠ "__proto__" →
  JsObject.getOwn k (JsObject.assign key v o)
  = if decide (k = key) then Some v else JsObject.getOwn k o.
Proof.
  intros Hne. unfold JsObject.assign. rewrite decide_False by done.
  apply getOwn_define.
Qed.

Lemma assign_NoDup {V} key (v : V) (o : JsObject.t V) :
  NoDup o.*1 → NoDup (JsObject.assign key v o).*1.
Proof.
  intros Hnd. unfold JsObject.assign. destruct (decide _); [done|].
  by apply define_NoDup.
Qed.

Lemma export_row_snoc survey answers answer response :
  export_row toJSON survey (answers ++ [answer]) response
  = let row := export_row toJSON survey answers response in
    if decide (answers.responseId answer = responses.id response) then
      match find_question survey answer with
      | Some question =>
          JsObject.assign (questions.text question) (Some (answers.value answer)) row
      | None => row
      end
    else row.
Proof. unfold export_row. by rewrite foldl_app. Qed.

Lemma export_row_NoDup survey answers response :
  NoDup (export_row toJSON survey answers response).*1.
Proof.
  induction answers as [|answer answers IH] using rev_ind.
  - by_compute.
  - rewrite export_row_snoc. cbv zeta. destruct (decide _); [|done].
    destruct (find_question survey answer); [|done]. by apply assign_NoDup.
Qed.
End export.

(** X28.  A row of the CSV export.  Under any question text other than
    the two fixed columns and [__proto__], the row of a response holds the
    value of the last of the response's answers whose question is found in
    the survey under that text, and no such column exists when there is no
    such answer: questions with the same text share one column, and
    answers to questions that are no longer in the survey are not
    exported.  The row never has two columns of the same name. *)
Theorem export_row_cells
    (toJSON : nat → string) (survey : option SurveyWithQuestions)
    (answers : list Answer) (response : Response) (text : string) :
  text ∉ "__proto__" :: fixed_columns →
  JsObject.getOwn text (export_row toJSON survey answers response)
  = (λ answer, Some (answers.value answer))
    <$> last (exported_under survey response text answers)
  ∧ NoDup (export_row toJSON survey answers response).*1.
Proof.
  intros Htext. split; [|apply export_row_NoDup].
  apply not_elem_of_cons in Htext as [Hproto Hfixed].
  induction answers as [|answer answers IH] using rev_ind.
  - simpl. unfold fixed_columns in Hfixed.
    apply not_elem_of_cons in Hfixed as [H1 Hfixed].
    apply not_elem_of_cons in Hfixed as [H2 _].
    by rewrite !decide_False by done.
  - rewrite export_row_snoc. cbv zeta.
    unfold exported_under in *. rewrite List.filter_app. simpl.
    destruct (decide (answers.responseId answer = responses.id response))
      as [Hr|Hr].
    + destruct (find_question survey answer) as [question|] eqn:Hq; simpl.
      * destruct (decide (questions.text question = text)) as [Ht|Ht].
        -- rewrite bool_decide_eq_true_2 by (split; congruence).
           rewrite last_snoc. simpl.
           rewrite getOwn_assign by congruence. by rewrite decide_True.
        -- rewrite bool_decide_eq_false_2 by (intros [_ [= ?]]; done).
           rewrite app_nil_r.
           destruct (decide (questions.text question = "__proto__")) as [Hp|Hp].
           ++ unfold JsObject.assign. by rewrite decide_True.
           ++ rewrite getOwn_assign by done. by rewrite decide_False.
      * rewrite bool_decide_eq_false_2 by (by intros [_ ?]).
        by rewrite app_nil_r.
    + rewrite bool_decide_eq_false_2 by (by intros [? _]).
      by rewrite app_nil_r.
Qed.

Lemma export_row_cells_witness :
  let response := responses.mk "r2" "s1" (Some "bob") (Some 5) in
  JsObject.getOwn "Dish?"
    (export_row sample_toJSON (Some fetched_s1) (tbl_answers sample_db) response)
  = Some (Some "B")
  ∧ NoDup (export_row sample_toJSON (Some fetched_s1) (tbl_answers sample_db)
             response).*1.
Proof.
  intros response.
  apply (export_row_cells sample_toJSON (Some fetched_s1) (tbl_answers sample_db)
           response "Dish?").
  by_compute.
Defined.

(** The header of the file is that of the first row: a later response
    that answered more questions has more cells than the header has
    columns. *)
Example export_sample :
  exportData sample_toJSON
    (Some (mkResponseData (responses_in "s1" sample_db) (tbl_answers sample_db)))
    (Some fetched_s1)
  = Some (String.concat (String "010"%char "")
            [ "responseId,submittedAt,Dish?"; "r1,4,A"; "r2,5,B,tea"; "r3,6" ]).
Proof. vm_compute. reflexivity. Qed.

(** * Bodies that fail validation *)

Section malformed.
Implicit Types (db : Db) (now : nat).


(** The schemas fail with their own error only. *)
Lemma zod_string_error v e : Zod.string_ v = Throws e → e = ZodError.
Proof. destruct v; simpl; congruence. Qed.

Lemma zod_boolean_error v e : Zod.boolean v = Throws e → e = ZodError.
Proof. destruct v; simpl; congruence. Qed.

Lemma zod_optional_error {A} (p : JsValue → Outcome A) v e :
  (∀ v e, p v = Throws e → e = ZodError) →
  Zod.optional p v = Throws e → e = ZodError.
Proof.
  intros Hp. unfold Zod.optional.
  destruct v; try done; (destruct (p _) eqn:E; [done|]);
    intros [= <-]; by eapply Hp.
Qed.

Lemma zod_nullable_error {A} (p : JsValue → Outcome A) v e :
  (∀ v e, p v = Throws e → e = ZodError) →
  Zod.nullable p v = Throws e → e = ZodError.
Proof.
  intros Hp. unfold Zod.nullable.
  destruct v; try done; (destruct (p _) eqn:E; [done|]);
    intros [= <-]; by eapply Hp.
Qed.

Lemma insertSurveySchema_parse_error b e :
  insertSurveySchema_parse b = Throws e → e = ZodError.
Proof.
  unfold insertSurveySchema_parse, obind.
  destruct (Zod.string_ (f_title b)) eqn:H1;
    [|intros [= <-]; by eapply zod_string_error].
  destruct (Zod.optional _ (f_description b)) eqn:H2;
    [|intros [= <-]; eapply zod_optional_error; [|exact H2];
      intros ? ?; apply zod_nullable_error, zod_string_error].
  destruct (Zod.optional _ (f_status b)) eqn:H3;
    [|intros [= <-]; eapply zod_optional_error; [|exact H3];
      apply zod_string_error].
  destruct (Zod.optional _ (f_anonymous b)) eqn:H4;
    [|intros [= <-]; eapply zod_optional_error; [|exact H4];
      apply zod_boolean_error].
  destruct (Zod.optional _ (f_multipleResponses b)) eqn:H5;
    [|intros [= <-]; eapply zod_optional_error; [|exact H5];
      apply zod_boolean_error].
  done.
Qed.

Lemma insertSurveySchema_partial_parse_error b e :
  insertSurveySchema_partial_parse b = Throws e → e = ZodError.
Proof.
  unfold insertSurveySchema_partial_parse, obind.
  destruct (Zod.optional _ (f_title b)) eqn:H1;
    [|intros [= <-]; eapply zod_optional_error; [|exact H1];
      apply zod_string_error].
  destruct (Zod.optional _ (f_description b)) eqn:H2;
    [|intros [= <-]; eapply zod_optional_error; [|exact H2];
      intros ? ?; apply zod_nullable_error, zod_string_error].
  destruct (Zod.optional _ (f_status b)) eqn:H3;
    [|intros [= <-]; eapply zod_optional_error; [|exact H3];
      apply zod_string_error].
  destruct (Zod.optional _ (f_anonymous b)) eqn:H4;
    [|intros [= <-]; eapply zod_optional_error; [|exact H4];
      apply zod_boolean_error].
  destruct (Zod.optional _ (f_multipleResponses b)) eqn:H5;
    [|intros [= <-]; eapply zod_optional_error; [|exact H5];
      apply zod_boolean_error].
  done.
Qed.
End malformed.



(** X30.  A body that fails validation at its top level is refused
    before anything is written: [POST /api/surveys] with an invalid survey
    part, [PUT /api/surveys/:id] by the creator with an invalid field, and
    a response to an active survey whose [respondentId] is neither a
    string nor falsy are each answered 400, and the store is left as it
    was. *)
Theorem invalid_body_writes_nothing (now : nat) (db : Db) :
  (∀ userId body,
     is_Returns (insertSurveySchema_parse (b_survey body)) = false →
     POST_api_surveys now userId body db
     = (Returns (status_json 400 "Invalid survey data"), db))
  ∧ (∀ survey body,
       NoDup (survey_ids db) → survey ∈ tbl_surveys db →
       is_Returns (insertSurveySchema_partial_parse body) = false →
       PUT_api_surveys_id now (surveys.createdBy survey) (surveys.id survey) body db
       = (Returns (status_json 400 "Invalid survey data"), db))
  ∧ (∀ survey body,
       NoDup (share_tokens db) → survey ∈ tbl_surveys db →
       surveys.status survey = "active" →
       respondentId_accepted (b_respondentId body) = false →
       POST_api_public_surveys_responses now (surveys.shareToken survey) body db
       = (Returns (status_json 400 "Invalid response data"), db)).
Proof.
  split_and!.
  - intros userId body Hp.
    unfold POST_api_surveys, try_catch, bind at 1, lift.
    destruct (insertSurveySchema_parse (b_survey body)) as [?|e] eqn:Hparse;
      [done|].
    by apply insertSurveySchema_parse_error in Hparse as ->.
  - intros survey body Hnd Hin Hp.
    unfold PUT_api_surveys_id, try_catch, bind at 1.
    rewrite getSurvey_run by done.
    rewrite bool_decide_eq_true_2 by done. cbn [negb].
    unfold bind at 1, lift.
    destruct (insertSurveySchema_partial_parse body) as [?|e] eqn:Hparse;
      [done|].
    by apply insertSurveySchema_partial_parse_error in Hparse as ->.
  - intros survey body Hnd Hin Hact Hacc.
    rewrite POST_responses_run.
    rewrite head_filter_unique by done.
    rewrite bool_decide_eq_true_2 by done. by rewrite Hacc.
Qed.

Lemma invalid_body_writes_nothing_witness :
  POST_api_surveys 5 "u"
    (mkSurveyBody
       (mkSurveyFields JUndefined JUndefined JUndefined JUndefined JUndefined)
       (Some three_question_fields)) sample_db
  = (Returns (status_json 400 "Invalid survey data"), sample_db)
  ∧ PUT_api_surveys_id 5 "u" "s1"
      (mkSurveyFields JUndefined JUndefined (JNumber 1) JUndefined JUndefined)
      sample_db
    = (Returns (status_json 400 "Invalid survey data"), sample_db)
  ∧ POST_api_public_surveys_responses 5 "tok1" (mkResponseBody (JNumber 7) None)
      sample_db
    = (Returns (status_json 400 "Invalid response data"), sample_db).
Proof.
  destruct (invalid_body_writes_nothing 5 sample_db) as (Hpost & Hput & Hresp).
  split_and!.
  - by apply Hpost.
  - apply (Hput survey_u1); [by_compute|by_compute|reflexivity].
  - apply (Hresp survey_u1); [by_compute|by_compute|reflexivity|reflexivity].
Defined.
